(** * New-reality: the request governor, the plan and reflection generators
      and the user-data reader, embedded from
      [src/services/geminiService.ts] and [src/services/firestoreService.ts].

    Modelling conventions.
    - A JavaScript [number] is a rational ([Q]); the delays and timestamps the
      code computes at its default policy are exactly representable.
    - A string is a [string] of UTF-8 bytes.  Every search string the code
      passes to [includes] is ASCII, so a byte-wise search finds the same
      occurrences as the UTF-16 search of the engine.
    - A value that is thrown is an object carrying an optional string
      [message] (an [Error] instance, or any object or primitive without a
      [message]); [undefined] as a thrown value is [None] of [Thrown].
    - An [async] function is a function to the [Outcome] its promise settles
      with, together with the effects it performed, in program order. *)

From Stdlib Require Import String Ascii List ZArith QArith Qround Qpower Lia Bool.
From Stdlib Require Import DecimalString.
From Stdlib Require DecimalNat OrderedTypeEx.
Import ListNotations.
Close Scope Q_scope.
Local Open Scope string_scope.

(* ================================================================== *)
(** ** JavaScript values *)
(* ================================================================== *)

Module Js.

(** [s.includes(searchString)]: some suffix of [s] starts with it. *)
Fixpoint includes (s searchString : string) : bool :=
  if prefix searchString s then true
  else match s with
       | EmptyString => false
       | String _ rest => includes rest searchString
       end.

(** [s.endsWith(suffix)], through the reversed byte lists. *)
Definition endsWith (s suffix : string) : bool :=
  prefix (string_of_list_ascii (rev (list_ascii_of_string suffix)))
         (string_of_list_ascii (rev (list_ascii_of_string s))).

(** A thrown object; [new Error(m)] has [message = Some m]. *)
Record JsError : Type := mkError { message : option string }.

Definition newError (m : string) : JsError := mkError (Some m).

(** What a [catch] clause binds: an object, or [undefined]. *)
Definition Thrown : Type := option JsError.

(** [error.message?.includes(s)] read as a condition: a missing message
    makes the optional chain [undefined], which is falsy. *)
Definition messageIncludes (error : JsError) (s : string) : bool :=
  match message error with
  | Some m => includes m s
  | None => false
  end.

(** The [TypeError] V8 raises when a property of [null] or [undefined] is
    read. *)
Definition typeError (base property : string) : JsError :=
  newError ("Cannot read properties of " ++ base ++ " (reading '" ++ property ++ "')").

(** The synchronous or awaited outcome of an operation that throws objects. *)
Inductive Result (T : Type) : Type :=
| Ok (value : T)
| Err (error : JsError).
Arguments Ok {T} value.
Arguments Err {T} error.

(** The settlement of a promise. *)
Inductive Outcome (T : Type) : Type :=
| Fulfilled (value : T)
| Rejected (reason : Thrown).
Arguments Fulfilled {T} value.
Arguments Rejected {T} reason.

(** The values [JSON.parse], [snapshot.val()] and property reads produce. *)
#[warnings="-register-all"]
Inductive JsValue : Type :=
| JsUndefined
| JsNull
| JsBool (b : bool)
| JsNumber (q : Q)
| JsString (s : string)
| JsArray (items : list JsValue)
| JsObject (fields : list (string * JsValue)).

(** ToBoolean. *)
Definition truthy (v : JsValue) : bool :=
  match v with
  | JsUndefined | JsNull => false
  | JsBool b => b
  | JsNumber q => negb (Qeq_bool q 0%Q)
  | JsString s => negb (String.eqb s EmptyString)
  | JsArray _ | JsObject _ => true
  end.

(** [a || b] on values. *)
Definition jsOr (a b : JsValue) : JsValue := if truthy a then a else b.

Fixpoint lookup (fields : list (string * JsValue)) (key : string) : JsValue :=
  match fields with
  | [] => JsUndefined
  | (k, v) :: rest => if String.eqb k key then v else lookup rest key
  end.

(** [v.key] for a key that no prototype defines ([gia], [task], [otherTasks],
    [motivationalQuote], [profile], [goal]): [Err] is the [TypeError] on
    [null] and [undefined], a primitive or an array has no such property. *)
Definition getProp (v : JsValue) (key : string) : Result JsValue :=
  match v with
  | JsUndefined => Err (typeError "undefined" key)
  | JsNull => Err (typeError "null" key)
  | JsObject fields => Ok (lookup fields key)
  | _ => Ok JsUndefined
  end.

(** [v?.key]: short-circuits to [undefined] on [null] and [undefined]. *)
Definition getPropOpt (v : JsValue) (key : string) : JsValue :=
  match getProp v key with
  | Ok x => x
  | Err _ => JsUndefined
  end.

(** Sequencing of operations that may throw. *)
Definition bind {A B : Type} (r : Result A) (k : A -> Result B) : Result B :=
  match r with
  | Ok a => k a
  | Err e => Err e
  end.

(** A string read as a condition, and [s || fallback]. *)
Definition nonEmpty (s : string) : bool := negb (String.eqb s EmptyString).
Definition orElse (s fallback : string) : string :=
  if nonEmpty s then s else fallback.

(** The double-quote character of the prompt templates. *)
Definition dq : string := String (ascii_of_nat 34) EmptyString.

(** Template-literal rendering of an integral number. *)
Definition showZ (z : Z) : string := NilZero.string_of_int (Z.to_int z).
Definition showNat (n : nat) : string := NilZero.string_of_uint (Nat.to_uint n).

End Js.
Import Js.

(* ================================================================== *)
(** ** geminiService.ts: retry with backoff *)
(* ================================================================== *)

Module Retry.
Local Open Scope Q_scope.

(** What one run of [retryWithBackoff] does, in order. *)
Inductive Event : Type :=
| Request (attempt : nat)   (* [rateLimitedRequest(fn)] at this attempt *)
| Delay (ms : Q).           (* [await delay(ms)] *)

Definition quotaExhaustedMessage : string :=
  "Free tier quota exhausted. Please upgrade to paid tier or wait for quota reset.".

(** Line 94: the outer test of the quota branch. *)
Definition mentionsQuota (error : JsError) : bool :=
  messageIncludes error "429" || messageIncludes error "quota".

(** Lines 95-97. *)
Definition isQuotaError (error : JsError) : bool :=
  messageIncludes error "RESOURCE_EXHAUSTED" ||
  messageIncludes error "quota" ||
  messageIncludes error "free_tier_requests".

(** Lines 114-116. *)
Definition isRetryable (error : JsError) : bool :=
  messageIncludes error "503" ||
  messageIncludes error "overloaded" ||
  messageIncludes error "UNAVAILABLE".

(** Line 101: [baseDelay * Math.pow(2, attempt)]. *)
Definition quotaDelay (baseDelay : Q) (attempt : nat) : Q :=
  baseDelay * 2 ^ Z.of_nat attempt.

(** Line 122: [baseDelay * Math.pow(1.5, attempt - 1)]. *)
Definition retryDelay (baseDelay : Q) (attempt : nat) : Q :=
  baseDelay * (3 # 2) ^ (Z.of_nat attempt - 1).

Section Loop.
Context {T : Type}.

(** [fn attempt] is what the promise of [rateLimitedRequest(fn)] settles
    with at the given attempt: the queued closure resolves it with the
    result of [requestFn()] and rejects it with what [requestFn()] throws
    (lines 48-51), and each attempt invokes [fn] once. *)
Variable fn : nat -> Result T.
Variable maxRetries : nat.
Variable baseDelay : Q.

(** The [for] loop of lines 87-126 from [attempt] on; [remaining] counts the
    iterations left, [maxRetries + 1 - attempt], so that [0] is the exit of
    the loop to [throw lastError] (line 128). *)
Fixpoint retryLoop (remaining attempt : nat) (lastError : Thrown)
  : Outcome T * list Event :=
  match remaining with
  | O => (Rejected lastError, [])
  | S remaining' =>
    match fn attempt with
    | Ok value => (Fulfilled value, [Request attempt])
    | Err error =>
      if mentionsQuota error && isQuotaError error then
        if Nat.eqb attempt maxRetries then
          (Rejected (Some (newError quotaExhaustedMessage)), [Request attempt])
        else
          let '(outcome, events) :=
            retryLoop remaining' (S attempt) (Some error) in
          (outcome, Request attempt :: Delay (quotaDelay baseDelay attempt) :: events)
      else
        if negb (isRetryable error) || Nat.eqb attempt maxRetries then
          (Rejected (Some error), [Request attempt])
        else
          let '(outcome, events) :=
            retryLoop remaining' (S attempt) (Some error) in
          (outcome, Request attempt :: Delay (retryDelay baseDelay attempt) :: events)
    end
  end.

Definition retryWithBackoff : Outcome T * list Event :=
  retryLoop maxRetries 1 None.

End Loop.

(** The default policy of the signature, lines 82-83. *)
Definition defaultMaxRetries : nat := 3.
Definition defaultBaseDelay : Q := 6000.

(** The attempts a run made and the waits between them. *)
Fixpoint requests (events : list Event) : list nat :=
  match events with
  | [] => []
  | Request a :: rest => a :: requests rest
  | Delay _ :: rest => requests rest
  end.

Fixpoint delays (events : list Event) : list Q :=
  match events with
  | [] => []
  | Request _ :: rest => delays rest
  | Delay ms :: rest => ms :: delays rest
  end.

(** The two ways the catch block classifies an error it retries: the quota
    branch of lines 94-110, and the branch of lines 114-124 for an error the
    quota branch let through. *)
Definition takesQuotaBranch (error : JsError) : bool :=
  mentionsQuota error && isQuotaError error.

Definition isTransient (error : JsError) : bool :=
  isRetryable error && negb (takesQuotaBranch error).

(** [remaining] attempts from [attempt] on, each but the last followed by
    the wait [delayAt] gives for it. *)
Fixpoint schedule (delayAt : nat -> Q) (remaining attempt : nat) : list Event :=
  match remaining with
  | O => []
  | S remaining' =>
    Request attempt ::
    match remaining' with
    | O => []
    | S _ => Delay (delayAt attempt) :: schedule delayAt remaining' (S attempt)
    end
  end.

End Retry.

(* ================================================================== *)
(** ** geminiService.ts: the request queue and the rate limiter *)
(* ================================================================== *)

Module Governor.
Local Open Scope Z_scope.

Definition MIN_REQUEST_INTERVAL : Z := 5000.
Definition MAX_REQUESTS_PER_MINUTE : Z := 12.
Definition RATE_LIMIT_WINDOW : Z := 60000.

(** What an observer of the governor sees.  A wrapped operation is opaque:
    it is known by the identifier the caller submitted it under, starts when
    the queued closure calls [requestFn()] and ends when its promise
    settles. *)
Inductive Obs : Type :=
| Submitted (id : nat)
| Dispatched (id : nat) (time : Z)
| Settled (id : nat) (outcome : Result JsValue) (time : Z).

(** Where the single [processQueue] activation is suspended. *)
Inductive Drain : Type :=
| Idle                                (* no activation *)
| AwaitingDelay (id : nat) (due : Z)  (* line 38, timer due at [due] *)
| AwaitingRequest (id : nat)          (* line 48, [requestFn()] pending *)
| AwaitingClosure.                    (* line 69, the closure has returned *)

Record State : Type := mkState {
  clock : Z;                     (* [Date.now()] *)
  lastRequestTime : Z;
  requestCount : Z;
  requestQueue : list nat;       (* the queued closures, by operation *)
  isProcessingQueue : bool;
  drain : Drain;
  windowTimers : list Z;         (* due times of the line-46 timers *)
  trace : list Obs
}.

(** Module initialisation, lines 13-21, at wall-clock time [t0]. *)
Definition init (t0 : Z) : State :=
  mkState t0 0 0 [] false Idle [] [].

(** Lines 42-48: the tracking update and the call of [requestFn()]. *)
Definition dispatch (id : nat) (st : State) : State :=
  mkState (clock st) (clock st) (requestCount st + 1) (requestQueue st)
          (isProcessingQueue st) (AwaitingRequest id)
          (windowTimers st ++ [clock st + RATE_LIMIT_WINDOW])
          (trace st ++ [Dispatched id (clock st)]).

(** Lines 32-39: the queued closure up to its first suspension. *)
Definition beginClosure (id : nat) (st : State) : State :=
  let now := clock st in
  let timeSinceLastRequest := now - lastRequestTime st in
  if timeSinceLastRequest <? MIN_REQUEST_INTERVAL then
    let waitTime := MIN_REQUEST_INTERVAL - timeSinceLastRequest in
    mkState (clock st) (lastRequestTime st) (requestCount st) (requestQueue st)
            (isProcessingQueue st) (AwaitingDelay id (now + waitTime))
            (windowTimers st) (trace st)
  else dispatch id st.

(** Lines 65-76: the loop test, and either the next closure up to its first
    suspension or the reset of the flag. *)
Definition whileLoop (st : State) : State :=
  match requestQueue st with
  | id :: rest =>
    beginClosure id
      (mkState (clock st) (lastRequestTime st) (requestCount st) rest
               (isProcessingQueue st) (drain st) (windowTimers st) (trace st))
  | [] =>
    mkState (clock st) (lastRequestTime st) (requestCount st) []
            false Idle (windowTimers st) (trace st)
  end.

(** Lines 60-64. *)
Definition processQueue (st : State) : State :=
  if isProcessingQueue st || Nat.eqb (length (requestQueue st)) 0 then st
  else
    whileLoop
      (mkState (clock st) (lastRequestTime st) (requestCount st)
               (requestQueue st) true (drain st) (windowTimers st) (trace st)).

(** Lines 28-56: the promise executor pushes the closure and calls
    [processQueue()]. *)
Definition rateLimitedRequest (id : nat) (st : State) : State :=
  processQueue
    (mkState (clock st) (lastRequestTime st) (requestCount st)
             (requestQueue st ++ [id]) (isProcessingQueue st) (drain st)
             (windowTimers st) (trace st ++ [Submitted id])).

(** What the environment of the single-threaded run can do between two
    synchronous blocks of the code. *)
Inductive Label : Type :=
| Submit (id : nat)                   (* a caller runs [rateLimitedRequest] *)
| Tick (dt : Z)                       (* [dt] milliseconds pass *)
| TimerFires                          (* the line-38 timer, once due *)
| Settle (outcome : Result JsValue)   (* the pending [requestFn()] settles *)
| Resume                              (* [processQueue] continues, line 69 *)
| WindowExpires.                      (* the oldest line-46 timer, once due *)

(** One move of the environment and the synchronous block of code it
    triggers; [None] where the move is not possible.  The clock never runs
    backwards, and a timer fires no earlier than the time it was set for. *)
Definition step (st : State) (l : Label) : option State :=
  match l with
  | Submit id => Some (rateLimitedRequest id st)
  | Tick dt =>
    if 0 <=? dt then
      Some (mkState (clock st + dt) (lastRequestTime st) (requestCount st)
                    (requestQueue st) (isProcessingQueue st) (drain st)
                    (windowTimers st) (trace st))
    else None
  | TimerFires =>
    match drain st with
    | AwaitingDelay id due => if due <=? clock st then Some (dispatch id st) else None
    | _ => None
    end
  | Settle outcome =>
    match drain st with
    | AwaitingRequest id =>
      Some (mkState (clock st) (lastRequestTime st) (requestCount st)
                    (requestQueue st) (isProcessingQueue st) AwaitingClosure
                    (windowTimers st)
                    (trace st ++ [Settled id outcome (clock st)]))
    | _ => None
    end
  | Resume =>
    match drain st with
    | AwaitingClosure => Some (whileLoop st)
    | _ => None
    end
  | WindowExpires =>
    match windowTimers st with
    | due :: rest =>
      if due <=? clock st then
        Some (mkState (clock st) (lastRequestTime st) (requestCount st - 1)
                      (requestQueue st) (isProcessingQueue st) (drain st)
                      rest (trace st))
      else None
    | [] => None
    end
  end.

Fixpoint run (st : State) (labels : list Label) : option State :=
  match labels with
  | [] => Some st
  | l :: rest =>
    match step st l with
    | Some st' => run st' rest
    | None => None
    end
  end.

(** Readings of a trace. *)
Fixpoint submittedIds (tr : list Obs) : list nat :=
  match tr with
  | [] => []
  | Submitted id :: rest => id :: submittedIds rest
  | _ :: rest => submittedIds rest
  end.

Fixpoint dispatchedIds (tr : list Obs) : list nat :=
  match tr with
  | [] => []
  | Dispatched id _ :: rest => id :: dispatchedIds rest
  | _ :: rest => dispatchedIds rest
  end.

Fixpoint dispatchTimes (tr : list Obs) : list Z :=
  match tr with
  | [] => []
  | Dispatched _ t :: rest => t :: dispatchTimes rest
  | _ :: rest => dispatchTimes rest
  end.

Fixpoint settlements (tr : list Obs) : list (nat * Result JsValue) :=
  match tr with
  | [] => []
  | Settled id outcome _ :: rest => (id, outcome) :: settlements rest
  | _ :: rest => settlements rest
  end.

(** One operation at a time: scanning the trace with the operation in
    flight, a dispatch needs none in flight and a settlement is of the one
    in flight.  [None] is an overlap. *)
Fixpoint inFlight (tr : list Obs) (current : option nat) : option (option nat) :=
  match tr with
  | [] => Some current
  | Submitted _ :: rest => inFlight rest current
  | Dispatched id _ :: rest =>
    match current with
    | None => inFlight rest (Some id)
    | Some _ => None
    end
  | Settled id _ _ :: rest =>
    match current with
    | Some id' => if Nat.eqb id id' then inFlight rest None else None
    | None => None
    end
  end.


(** The operation whose closure waits for its turn, the one in flight, and
    all that are submitted and not settled, in order. *)
Definition pending (d : Drain) : list nat :=
  match d with
  | AwaitingDelay id _ => [id]
  | _ => []
  end.

Definition running (d : Drain) : option nat :=
  match d with
  | AwaitingRequest id => Some id
  | _ => None
  end.


Definition isIdle (d : Drain) : bool :=
  match d with
  | Idle => true
  | _ => false
  end.

Fixpoint lastTime (times : list Z) : option Z :=
  match times with
  | [] => None
  | [t] => Some t
  | _ :: rest => lastTime rest
  end.


(** Every two consecutive entries are at least the interval apart. *)
Fixpoint spaced (times : list Z) : Prop :=
  match times with
  | t1 :: ((t2 :: _) as rest) => t1 + MIN_REQUEST_INTERVAL <= t2 /\ spaced rest
  | _ => True
  end.

(** What holds of every state the governor reaches. *)
Definition Inv (st : State) : Prop :=
  submittedIds (trace st)
  = (dispatchedIds (trace st) ++ pending (drain st) ++ requestQueue st)%list /\
  inFlight (trace st) None = Some (running (drain st)) /\
  dispatchedIds (trace st)
  = (map fst (settlements (trace st))
     ++ match running (drain st) with Some id => [id] | None => [] end)%list /\
  spaced (dispatchTimes (trace st)) /\
  (forall t, lastTime (dispatchTimes (trace st)) = Some t ->
             lastRequestTime st = t) /\
  (forall id due, drain st = AwaitingDelay id due ->
                  lastRequestTime st + MIN_REQUEST_INTERVAL <= due) /\
  isProcessingQueue st = negb (isIdle (drain st)) /\
  (drain st = Idle -> requestQueue st = []).

End Governor.

(* ================================================================== *)
(** ** types.ts *)
(* ================================================================== *)

Record UserProfile : Type := mkUserProfile {
  identity : string;
  context : string
}.

(** [Goal.id] is [goalId] here: [Task] has the field [id] too. *)
Record Goal : Type := mkGoal {
  goalId : string;
  title : string
}.

(** [text] is the value read out of the parsed response: the declared type
    is [string], the code checks that it is truthy. *)
Record Task : Type := mkTask {
  id : string;
  text : JsValue;
  isCompleted : bool;
  isGIA : bool
}.

Record DailyPlan : Type := mkDailyPlan {
  date : string;
  tasks : list Task;
  motivationalQuote : string
}.

(* ================================================================== *)
(** ** geminiService.ts: the generation functions *)
(* ================================================================== *)

Module Gemini.
Import Retry.

(** The argument of [ai.models.generateContent]. *)
Record GenerateContentParameters : Type := mkParameters {
  model : string;
  contents : string;
  systemInstruction : string;
  responseMimeType : option string;
  responseSchema : option JsValue;
  temperature : Q
}.

(** Its result: [text] is a getter that may yield [undefined]. *)
Record GenerateContentResponse : Type := mkResponse {
  responseText : option string
}.

(** Lines 132-143. *)
Definition quotaMessage : string :=
  "🚫 Free tier quota exceeded! You can only make 15 requests per minute. Please wait or upgrade to paid tier.".
Definition busyMessage : string :=
  "⏳ AI service is currently busy. Please try again in a few moments.".
Definition apiKeyMessage : string :=
  "🔑 Invalid API key. Please check your configuration.".
Definition unavailableMessage : string :=
  "❌ AI service temporarily unavailable. Please try again later.".

Definition handleAPIError (error : JsError) : string :=
  if messageIncludes error "429" || messageIncludes error "quota" ||
     messageIncludes error "RESOURCE_EXHAUSTED" then quotaMessage
  else if messageIncludes error "503" || messageIncludes error "overloaded" then
    busyMessage
  else if messageIncludes error "API key" || messageIncludes error "401" then
    apiKeyMessage
  else unavailableMessage.

Definition userFacingMessages : list string :=
  [quotaMessage; busyMessage; apiKeyMessage; unavailableMessage].

(** Lines 145-174, with the members of the SDK's [Type] enumeration as
    their string values. *)
Definition stringSchema (description : string) : JsValue :=
  JsObject [("type", JsString "STRING"); ("description", JsString description)].

Definition responseSchemaValue : JsValue :=
  JsObject
    [("type", JsString "OBJECT");
     ("properties", JsObject
        [("gia", JsObject
            [("type", JsString "OBJECT");
             ("description", JsString "The single Most Important Task (Greatest Impact Activity) for the day.");
             ("properties", JsObject
                [("task", stringSchema "The GIA task description. Must be actionable.");
                 ("reason", stringSchema "A brief, encouraging reason why this task is the GIA.")]);
             ("required", JsArray [JsString "task"; JsString "reason"])]);
         ("otherTasks", JsObject
            [("type", JsString "ARRAY");
             ("description", JsString "A list of 2 to 4 other small, supporting tasks for the day.");
             ("items", JsObject
                [("type", JsString "OBJECT");
                 ("properties", JsObject
                    [("task", stringSchema "The supporting task description. Must be a small, actionable step.")]);
                 ("required", JsArray [JsString "task"])])]);
         ("motivationalQuote",
          stringSchema "A short, powerful motivational quote relevant to the user's goal or identity.")]);
     ("required", JsArray [JsString "gia"; JsString "otherTasks"; JsString "motivationalQuote"])].

Definition goalRequiredMessage : string := "Goal is required to generate daily plan".
Definition identityRequiredMessage : string := "User profile with identity is required".
Definition emptyResponseMessage : string := "Empty response from Gemini API".
Definition invalidFormatMessage : string := "Invalid response format from AI".
Definition noTasksMessage : string := "No valid tasks generated".

Definition planSystemInstruction : string :=
  "You are a human-centered AI assistant for self-improvement, acting as a personal coach. Your goal is to help a user build good habits and achieve their goals by providing daily, actionable suggestions.
    
    Your response MUST be in JSON format and adhere to the provided schema.
    
    Guiding Principles:
    1. **Identity-Based Habits:** Tasks should reinforce the user's desired identity.
    2. **Four Laws of Behavior Change:** Make tasks obvious, attractive, easy, and satisfying.
    3. **Prioritization:** Identify a clear " ++ dq ++ "Greatest Impact Activity" ++ dq ++ " (GIA).
    4. **Simplicity:** Tasks should be small, clear actions, not complex projects.
    5. **Context is Key:** Use the user's goal, identity, and context to create personalized plans.".

(** Lines 197-208. *)
Definition planPrompt (profile : UserProfile) (goal : Goal)
    (previousDayTasks : string) (previousDayReflection : option string) : string :=
  "
        User Profile:
        - Goal (New Reality): " ++ dq ++ title goal ++ dq ++ "
        - Desired Identity: " ++ dq ++ identity profile ++ dq ++ "
        - Context: " ++ dq ++ orElse (context profile) "Not specified" ++ dq ++ "

        Previous Day's Plan & Status:
        " ++ orElse previousDayTasks "No previous tasks recorded." ++ "
        " ++ match previousDayReflection with
             | Some r =>
               if nonEmpty r then "
Previous Day's Reflection:
" ++ r else EmptyString
             | None => EmptyString
             end ++ "

        Based on all the information above, generate a new daily plan for today.
    ".

Section Generation.

(** The collaborators of the module.  [generateContent p attempt] is the
    outcome of the call of [ai.models.generateContent(p)] that the
    [attempt]-th invocation of the wrapped closure makes; [Date_now attempt
    k] is the [k]-th value [Date.now()] yields within that invocation;
    [JSON_parse] is [None] where [JSON.parse] throws; [Math_random] is the
    one value [Math.random()] yields in the fallback path. *)
Variable generateContent :
  GenerateContentParameters -> nat -> Result (option GenerateContentResponse).
Variable Date_now : nat -> nat -> Z.
Variable String_trim : string -> string.
Variable JSON_parse : string -> option JsValue.
Variable Math_random : Q.

Definition taskId (now : Z) (suffix : string) : string :=
  "task_" ++ showZ now ++ "_" ++ suffix.

(** Lines 251-260: [forEach] over [otherTasks] from [index] on, after
    [reads] readings of the clock. *)
Fixpoint pushOtherTasks (now : nat -> Z) (items : list JsValue)
    (index reads : nat) : list Task * nat :=
  match items with
  | [] => ([], reads)
  | t :: rest =>
    if truthy (getPropOpt t "task") then
      let '(pushed, reads') := pushOtherTasks now rest (S index) (S reads) in
      (mkTask (taskId (now reads) (showNat index)) (getPropOpt t "task") false false
         :: pushed, reads')
    else pushOtherTasks now rest (S index) reads
  end.

(** Lines 239-277: the parsed response to the task list. *)
Definition tasksOfPlanData (now : nat -> Z) (planData : JsValue)
  : Result (list Task) :=
  bind (getProp planData "gia") (fun gia =>
  let '(tasks1, reads1) :=
    if truthy (getPropOpt gia "task") then
      ([mkTask (taskId (now 0%nat) "gia") (getPropOpt gia "task") false true], 1%nat)
    else ([], 0%nat) in
  bind (getProp planData "otherTasks") (fun otherTasks =>
  let '(tasks2, reads2) :=
    match otherTasks with
    | JsArray items => pushOtherTasks now items 0 reads1
    | _ => ([], reads1)
    end in
  bind (getProp planData "motivationalQuote") (fun quote =>
  let tasks3 :=
    if truthy quote then [mkTask (taskId (now reads2) "quote") quote false false]
    else [] in
  let tasks := (tasks1 ++ tasks2 ++ tasks3)%list in
  if Nat.eqb (length tasks) 0 then Err (newError noTasksMessage)
  else Ok tasks))).

(** Lines 225-237: the checks on the raw response. *)
Definition textOfResponse (response : option GenerateContentResponse)
  : Result string :=
  match response with
  | None => Err (newError emptyResponseMessage)
  | Some r =>
    match responseText r with
    | None => Err (newError emptyResponseMessage)
    | Some t =>
      if nonEmpty t then Ok t else Err (newError emptyResponseMessage)
    end
  end.

Definition planParameters (prompt : string) : GenerateContentParameters :=
  mkParameters "gemini-1.5-flash" prompt planSystemInstruction
               (Some "application/json") (Some responseSchemaValue) (8 # 10).

(** Lines 211-278: the closure handed to [retryWithBackoff]. *)
Definition planRequest (prompt : string) (attempt : nat) : Result (list Task) :=
  bind (generateContent (planParameters prompt) attempt) (fun response =>
  bind (textOfResponse response) (fun t =>
  let jsonText := String_trim t in
  match JSON_parse jsonText with
  | None => Err (newError invalidFormatMessage)
  | Some planData => tasksOfPlanData (Date_now attempt) planData
  end)).

(** Lines 280-284: the outer handler.  [handleAPIError(undefined)] reads
    [message] off [undefined] and throws. *)
Definition planHandler (error : Thrown) : Thrown :=
  match error with
  | Some e => Some (newError (handleAPIError e))
  | None => Some (typeError "undefined" "message")
  end.

(** Lines 176-285.  A missing [goal] or [profile] is [None]. *)
Definition getDailyPlan (profile : option UserProfile) (goal : option Goal)
    (previousDayTasks : string) (previousDayReflection : option string)
  : Outcome (list Task) * list Event :=
  match goal with
  | None => (Rejected (Some (newError goalRequiredMessage)), [])
  | Some g =>
    if negb (nonEmpty (title g)) then
      (Rejected (Some (newError goalRequiredMessage)), [])
    else
      match profile with
      | None => (Rejected (Some (newError identityRequiredMessage)), [])
      | Some p =>
        if negb (nonEmpty (identity p)) then
          (Rejected (Some (newError identityRequiredMessage)), [])
        else
          let prompt := planPrompt p g previousDayTasks previousDayReflection in
          match retryWithBackoff (planRequest prompt)
                                 defaultMaxRetries defaultBaseDelay with
          | (Fulfilled tasks, events) => (Fulfilled tasks, events)
          | (Rejected error, events) => (Rejected (planHandler error), events)
          end
      end
  end.

(** *** getReflectionResponse, lines 287-353 *)

(** [Array.prototype.join] renders [undefined] and [null] as the empty
    string and a string as itself; [ToString] stands for the engine's
    rendering of the remaining values. *)
Variable ToString : JsValue -> string.

Definition joinItem (v : JsValue) : string :=
  match v with
  | JsString s => s
  | JsUndefined | JsNull => EmptyString
  | _ => ToString v
  end.

Definition reflectionSystemInstruction : string :=
  "You are a warm, empathetic, and encouraging personal growth coach. Your primary goal is to make the user feel heard and supported.
    
    - Acknowledge their feelings and efforts.
    - Connect their reflection to their main goal or identity.
    - Keep your response positive and forward-looking.
    - Your response MUST be concise, friendly, and conversational (2-4 sentences max). Do not use lists or bullet points.".

(** Lines 295-296. *)
Definition completedTasksText (dailyPlan : DailyPlan) : string :=
  orElse (String.concat ", "
            (map (fun t => joinItem (text t))
                 (filter (fun t => isCompleted t) (tasks dailyPlan))))
         "None".

Definition incompleteTasksText (dailyPlan : DailyPlan) : string :=
  orElse (String.concat ", "
            (map (fun t => joinItem (text t))
                 (filter (fun t => negb (isCompleted t)) (tasks dailyPlan))))
         "None".

(** Lines 298-309. *)
Definition reflectionPrompt (profile : UserProfile) (goal : Goal)
    (dailyPlan : DailyPlan) (reflectionText : string) : string :=
  "
        Here is the user's context for their daily reflection:
        - Their Ultimate Goal: " ++ dq ++ title goal ++ dq ++ "
        - The Identity They Are Building: " ++ dq ++ identity profile ++ dq ++ "
        - Tasks they completed today: " ++ completedTasksText dailyPlan ++ "
        - Tasks they didn't complete today: " ++ incompleteTasksText dailyPlan ++ "

        The user just shared this reflection about their day:
        " ++ dq ++ reflectionText ++ dq ++ "

        Based on this, provide a short, supportive, and personalized response.
    ".

Definition reflectionParameters (prompt : string) : GenerateContentParameters :=
  mkParameters "gemini-1.5-flash" prompt reflectionSystemInstruction
               None None (7 # 10).

(** Lines 312-330: the closure handed to [retryWithBackoff]. *)
Definition reflectionRequest (prompt : string) (attempt : nat) : Result string :=
  bind (generateContent (reflectionParameters prompt) attempt) (fun response =>
  bind (textOfResponse response) (fun t => Ok (String_trim t))).

(** Lines 336-342. *)
Definition fallbackResponses : list string :=
  ["Thank you for sharing your thoughts! Your commitment to growth is inspiring. Keep pushing forward – every small step counts! 🌟";
   "I appreciate you taking time to reflect. Your self-awareness shows real dedication to your goals. You're doing amazing work! 💪";
   "Your reflection shows genuine progress. Remember, consistency beats perfection every time. Keep up the excellent work! ✨";
   "Thanks for being so thoughtful about your journey. Your dedication to improvement is what will make the difference. Stay strong! 🚀";
   "Your honesty in reflection is powerful. Every day you're becoming more aligned with your goals. That's real progress! 🎯"].

(** The text line 348 puts after the chosen response. *)
Definition quotaSuffix : string :=
  " 

⚠️ Note: Free tier quota limit reached. Consider upgrading for unlimited responses.".

(** [array[i]] for an integral [i]: [undefined] outside the array. *)
Definition at_ (l : list string) (i : Z) : option string :=
  if (i <? 0)%Z then None else nth_error l (Z.to_nat i).

(** Line 344: [Math.floor(Math.random() * fallbackResponses.length)]. *)
Definition randomIndex : Z :=
  Qfloor (Math_random * inject_Z (Z.of_nat (length fallbackResponses))).

(** Line 347. *)
Definition isQuotaFailure (error : JsError) : bool :=
  messageIncludes error "quota" || messageIncludes error "429".

(** Lines 332-352: the handler; a template literal renders [undefined] as
    the word, and reading [message] off [undefined] throws. *)
Definition reflectionHandler (error : Thrown) : Outcome JsValue :=
  let randomResponse := at_ fallbackResponses randomIndex in
  match error with
  | None => Rejected (Some (typeError "undefined" "message"))
  | Some e =>
    if isQuotaFailure e then
      Fulfilled (JsString (match randomResponse with
                           | Some r => r
                           | None => "undefined"
                           end ++ quotaSuffix))
    else
      Fulfilled (match randomResponse with
                 | Some r => JsString r
                 | None => JsUndefined
                 end)
  end.

Definition getReflectionResponse (profile : UserProfile) (goal : Goal)
    (dailyPlan : DailyPlan) (reflectionText : string)
  : Outcome JsValue * list Event :=
  let prompt := reflectionPrompt profile goal dailyPlan reflectionText in
  match retryWithBackoff (reflectionRequest prompt)
                         defaultMaxRetries defaultBaseDelay with
  | (Fulfilled t, events) => (Fulfilled (JsString t), events)
  | (Rejected error, events) => (reflectionHandler error, events)
  end.

End Generation.

(** *** Shapes of the daily-plan response *)

(** The parsed response
    [{gia:{task, reason}, otherTasks:[{task}...], motivationalQuote}]. *)
Definition planDataOf (giaTask reason : string) (others : list string)
    (quote : string) : JsValue :=
  JsObject
    [("gia", JsObject [("task", JsString giaTask); ("reason", JsString reason)]);
     ("otherTasks",
      JsArray (map (fun t => JsObject [("task", JsString t)]) others));
     ("motivationalQuote", JsString quote)].

(** The supporting tasks from [index] on, the first of them stamped with
    the [reads]-th reading of the clock. *)
Fixpoint supportingTasks (now : nat -> Z) (others : list string)
    (index reads : nat) : list Task :=
  match others with
  | [] => []
  | t :: rest =>
    mkTask (taskId (now reads) (showNat index)) (JsString t) false false
      :: supportingTasks now rest (S index) (S reads)
  end.

(** The ordered list: the GIA first, the supporting tasks, the quote last. *)
Definition orderedPlan (now : nat -> Z) (giaTask : string)
    (others : list string) (quote : string) : list Task :=
  (mkTask (taskId (now 0%nat) "gia") (JsString giaTask) false true
     :: supportingTasks now others 0 1
     ++ [mkTask (taskId (now (S (length others))) "quote") (JsString quote)
                false false])%list.

(** A parsed response from which no task comes: no truthy [gia.task], no
    entry of [otherTasks] with a truthy [task], no truthy quote. *)
Definition yieldsNoTask (planData : JsValue) : bool :=
  match planData with
  | JsUndefined | JsNull => false
  | _ =>
    negb (truthy (getPropOpt (getPropOpt planData "gia") "task")) &&
    match getPropOpt planData "otherTasks" with
    | JsArray items =>
      forallb (fun t => negb (truthy (getPropOpt t "task"))) items
    | _ => true
    end &&
    negb (truthy (getPropOpt planData "motivationalQuote"))
  end.

(** The raw response carries no text. *)
Definition isEmptyResponse (response : option GenerateContentResponse) : bool :=
  match response with
  | None => true
  | Some r =>
    match responseText r with
    | None => true
    | Some t => negb (nonEmpty t)
    end
  end.

End Gemini.

(* ================================================================== *)
(** ** firestoreService.ts *)
(* ================================================================== *)

Module Firestore.

(** The realtime database as the value [snapshot.val()] yields for the
    reference at a path: [JsNull] where nothing is stored. *)
Definition Database : Type := string -> JsValue.

Record UserData : Type := mkUserData {
  profile : JsValue;
  goal : JsValue
}.

Definition defaultProfile : JsValue :=
  JsObject [("context", JsString "Default context");
            ("identity", JsString "Default identity")].

Definition defaultGoal : JsValue :=
  JsObject [("title", JsString "Default goal"); ("tasks", JsArray [])].

(** Lines 6-22, for a read that the database answers. *)
Definition getUserData (db : Database) (userId : string) : Result UserData :=
  let data := db ("users/" ++ userId) in
  bind (if truthy data then
          bind (getProp data "profile") (fun p =>
          if truthy p then Ok true
          else bind (getProp data "goal") (fun g => Ok (truthy g)))
        else Ok false) (fun hasData =>
  if (hasData : bool) then
    bind (getProp data "profile") (fun p =>
    bind (getProp data "goal") (fun g =>
    Ok (mkUserData (jsOr p defaultProfile) (jsOr g defaultGoal))))
  else Ok (mkUserData defaultProfile defaultGoal)).

(** Nothing is stored under a child of [data]. *)
Definition missing (data : JsValue) (child : string) : bool :=
  match getPropOpt data child with
  | JsUndefined | JsNull => true
  | _ => false
  end.

End Firestore.

(* ================================================================== *)
(** ** Sample collaborators *)
(* ================================================================== *)

Module Samples.
Import Gemini.

Definition quoted (s : string) : string := dq ++ s ++ dq.

(** The response text
    [{"gia":{"task":g,"reason":r},"otherTasks":[{"task":t}],"motivationalQuote":q}]. *)
Definition planText (giaTask reason other quote : string) : string :=
  "{" ++ quoted "gia" ++ ":{" ++ quoted "task" ++ ":" ++ quoted giaTask ++ ","
      ++ quoted "reason" ++ ":" ++ quoted reason ++ "},"
      ++ quoted "otherTasks" ++ ":[{" ++ quoted "task" ++ ":" ++ quoted other ++ "}],"
      ++ quoted "motivationalQuote" ++ ":" ++ quoted quote ++ "}".

Definition runText : string :=
  planText "Run 5k" "builds momentum" "Drink water" "Keep going".
Definition blankGiaText : string :=
  planText EmptyString "builds momentum" "Drink water" "Keep going".

(** [JSON.parse] on the texts used here. *)
Definition parse (s : string) : option JsValue :=
  if String.eqb s runText then
    Some (planDataOf "Run 5k" "builds momentum" ["Drink water"] "Keep going")
  else if String.eqb s blankGiaText then
    Some (planDataOf EmptyString "builds momentum" ["Drink water"] "Keep going")
  else if String.eqb s "{}" then Some (JsObject [])
  else None.

(** These texts carry no surrounding white space. *)
Definition trim (s : string) : string := s.

Definition clock (attempt k : nat) : Z := 1700000000000 + Z.of_nat k.

(** An upstream service that answers every call with the same text, and one
    that fails every call with the same message. *)
Definition answering (t : string)
    (p : GenerateContentParameters) (attempt : nat)
  : Result (option GenerateContentResponse) :=
  Ok (Some (mkResponse (Some t))).

Definition failing (m : string)
    (p : GenerateContentParameters) (attempt : nat)
  : Result (option GenerateContentResponse) :=
  Err (newError m).

Definition profile : UserProfile := mkUserProfile "a runner" "I work from home".
Definition goal : Goal := mkGoal "g1" "Run a marathon".
Definition plan : DailyPlan := mkDailyPlan "2026-01-01" [] "Keep going".

Definition render (v : JsValue) : string := "[object Object]".

(** Two calls whose operations settle at once: the second closure waits out
    the interval before it dispatches. *)
Definition zeroLatencyRun : list Governor.Label :=
  [Governor.Submit 1; Governor.Submit 2; Governor.Settle (Ok JsNull);
   Governor.Resume; Governor.Tick 5000; Governor.TimerFires;
   Governor.Settle (Ok JsNull); Governor.Resume].

End Samples.

(* ================================================================== *)
(** ** Readings of the effect logs *)
(* ================================================================== *)

Module Backoff.
Import Retry.

(** The time a run of [retryWithBackoff] spends in [delay]. *)
Definition totalDelay (events : list Event) : Q :=
  fold_right Qplus 0%Q (delays events).

(** An error that the catch block answers with a wait and another attempt,
    when attempts are left. *)
Definition isRetried (error : JsError) : bool :=
  takesQuotaBranch error || isRetryable error.

(** The wait of the catch block after a failed attempt that it retries:
    that of line 101 in the quota branch, that of line 122 otherwise. *)
Definition waitAfter {T : Type} (fn : nat -> Result T) (baseDelay : Q)
    (attempt : nat) : Q :=
  match fn attempt with
  | Err error =>
    if takesQuotaBranch error then quotaDelay baseDelay attempt
    else retryDelay baseDelay attempt
  | Ok _ => 0%Q
  end.

(** The message of the error contains one of the markers. *)
Definition carriesAny (error : JsError) (markers : list string) : bool :=
  existsb (messageIncludes error) markers.

(** The message of the error contains none of the markers. *)
Definition carriesNone (error : JsError) (markers : list string) : bool :=
  forallb (fun m => negb (messageIncludes error m)) markers.

End Backoff.

Module Window.
Import Governor.
Local Open Scope Z_scope.

(** The dispatches of the trailing window: those whose line-46 timer is not
    due yet at [now]. *)
Definition inWindow (now : Z) (times : list Z) : list Z :=
  filter (fun t => now <? t + RATE_LIMIT_WINDOW) times.

(** A state with its request counter blanked. *)
Definition withoutCount (st : State) : State :=
  mkState (clock st) (lastRequestTime st) 0 (requestQueue st)
          (isProcessingQueue st) (drain st) (windowTimers st) (trace st).

(** What ties the counter to the timers in every state the governor
    reaches: the timers that have fired were due, the pending ones are those
    of the latest dispatches, and the counter counts the pending ones. *)
Definition Counted (st : State) : Prop :=
  requestCount st = Z.of_nat (length (windowTimers st)) /\
  exists fired,
    map (fun t => t + RATE_LIMIT_WINDOW) (dispatchTimes (trace st))
    = (fired ++ windowTimers st)%list /\
    Forall (fun due => due <= clock st) fired.

(** The wait of the closure at the head of the queue ends exactly one
    interval after the last dispatch. *)
Definition WaitExact (st : State) : Prop :=
  forall id due,
    drain st = AwaitingDelay id due ->
    due = lastRequestTime st + MIN_REQUEST_INTERVAL.

End Window.

(* ================================================================== *)
(** ** The dashboard component (unnamed/part_002): the use of a plan *)
(* ================================================================== *)

Module Dashboard.

(** The plan that [generateNewDailyPlan] hands to [saveDailyPlan]; the
    quote is the value line 72 computes. *)
Record Plan : Type := mkPlan {
  planDate : string;
  planTasks : list Task;
  planQuote : JsValue
}.

Definition defaultQuote : string := "Stay focused on your goals!".

(** Line 72:
    [aiTasks.find(t => t.id.includes('quote'))?.text || 'Stay focused...']. *)
Definition quoteOf (aiTasks : list Task) : JsValue :=
  jsOr match find (fun t => includes (id t) "quote") aiTasks with
       | Some t => text t
       | None => JsUndefined
       end
       (JsString defaultQuote).

(** Lines 67-73, given what [getDailyPlan] settles with: a rejection is
    caught and logged, and nothing is saved. *)
Definition generateNewDailyPlan (today : string)
    (outcome : Outcome (list Task)) : option Plan :=
  match outcome with
  | Fulfilled aiTasks => Some (mkPlan today aiTasks (quoteOf aiTasks))
  | Rejected _ => None
  end.

(** Lines 86-88: the task list after a click on the task [taskId]. *)
Definition toggleTaskComplete (taskId : string) (tasks : list Task) : list Task :=
  map (fun t =>
         if String.eqb (id t) taskId
         then mkTask (id t) (text t) (negb (isCompleted t)) (isGIA t)
         else t)
      tasks.

(** Lines 110-116. *)
Record TasksByType : Type := mkTasksByType {
  giaTasks : list Task;
  otherTasks : list Task;
  quotes : list Task
}.

Definition getTasksByType (tasks : list Task) : TasksByType :=
  mkTasksByType
    (filter (fun task => isGIA task) tasks)
    (filter (fun task => negb (isGIA task) && negb (includes (id task) "quote"))
            tasks)
    (filter (fun task => includes (id task) "quote") tasks).

End Dashboard.

(* ================================================================== *)
(** ** Profile.tsx: the onboarding check of loadUserData *)
(* ================================================================== *)

Module Onboarding.
Import Firestore.

(** Line 276: [!userData.profile?.identity || !userData.goal?.title]. *)
Definition needsOnboarding (userData : UserData) : bool :=
  negb (truthy (getPropOpt (profile userData) "identity")) ||
  negb (truthy (getPropOpt (goal userData) "title")).

(** Lines 273-282, for a read that the database answers: whether
    [loadUserData] asks for onboarding. *)
Definition loadUserData (db : Database) (userId : string) : Result bool :=
  bind (getUserData db userId) (fun userData => Ok (needsOnboarding userData)).

End Onboarding.

(* ================================================================== *)
(** ** Character classes of the identifiers *)
(* ================================================================== *)

Module Chars.

(** The character does not occur in the string. *)
Fixpoint lacks (c : ascii) (s : string) : bool :=
  match s with
  | EmptyString => true
  | String x rest => negb (Ascii.eqb x c) && lacks c rest
  end.

(** Every character of the string is a decimal digit. *)
Fixpoint digits (s : string) : bool :=
  match s with
  | EmptyString => true
  | String x rest =>
    (Nat.leb 48 (nat_of_ascii x) && Nat.leb (nat_of_ascii x) 57) && digits rest
  end.

End Chars.

(* ================================================================== *)
(** ** firestoreService.ts: the tasks of the previous day *)
(* ================================================================== *)

Module PreviousDay.

(** What the query of lines 62-70 answers with: [None] is [null], and
    [Some plans] is the object of the stored plans under their date keys.
    The keys are compared byte by byte, which is the engine's order on
    strings of characters below U+D800, the date keys YYYY-MM-DD among
    them. *)
Definition Plans : Type := list (string * DailyPlan).

Definition noTasksRecorded : string := "No previous tasks recorded.".

(** [plans[key]]. *)
Fixpoint lookupPlan (plans : Plans) (key : string) : option DailyPlan :=
  match plans with
  | [] => None
  | (k, plan) :: rest => if String.eqb k key then Some plan else lookupPlan rest key
  end.

(** [Array.prototype.sort()] on strings, as an insertion sort. *)
Fixpoint insert (k : string) (sorted : list string) : list string :=
  match sorted with
  | [] => [k]
  | x :: rest => if String.leb k x then k :: sorted else x :: insert k rest
  end.

Fixpoint sort (keys : list string) : list string :=
  match keys with
  | [] => []
  | k :: rest => insert k (sort rest)
  end.

(** Line 74. *)
Definition planKeys (plans : Plans) (today : string) : list string :=
  sort (filter (fun k => String.ltb k today) (map fst plans)).

(** Line 75: [planKeys[planKeys.length - 1]], [undefined] on the empty
    array. *)
Definition lastOf (keys : list string) : option string :=
  match keys with
  | [] => None
  | _ => nth_error keys (length keys - 1)
  end.

(** [m] is a key of the list that no key of the list exceeds. *)
Definition greatest (m : string) (l : list string) : Prop :=
  In m l /\ forall x, In x l -> String.leb x m = true.

Definition newline : string := String (ascii_of_nat 10) EmptyString.

Section Rendering.

(** The engine's rendering of a value that is not a string in a template
    literal. *)
Variable ToString : JsValue -> string.

Definition templateItem (v : JsValue) : string :=
  match v with
  | JsString s => s
  | _ => ToString v
  end.

(** Line 80. *)
Definition statusLine (t : Task) : string :=
  templateItem (text t) ++ " ("
    ++ (if isCompleted t then "Completed" else "Not Completed") ++ ")".

(** Lines 72-84, on the snapshot of the query.  A missing last key is
    [undefined], which indexes the object as the key of that name. *)
Definition getPreviousDayTasksString (plans : option Plans) (today : string)
  : string :=
  match plans with
  | None => noTasksRecorded
  | Some stored =>
    let lastKey :=
      match lastOf (planKeys stored today) with
      | Some k => k
      | None => "undefined"
      end in
    match lookupPlan stored lastKey with
    | Some lastPlan =>
      if Nat.ltb 0 (length (tasks lastPlan))
      then String.concat newline (map statusLine (tasks lastPlan))
      else noTasksRecorded
    | None => noTasksRecorded
    end
  end.

End Rendering.

End PreviousDay.

(* ================================================================== *)
(** ** The task history component (unnamed/part_003) *)
(* ================================================================== *)

Module TaskHistory.
Import PreviousDay.

(** [s.split(sep)] for a separator of one character. *)
Fixpoint split (sep : ascii) (s : string) : list string :=
  match s with
  | EmptyString => [EmptyString]
  | String c rest =>
    if Ascii.eqb c sep then EmptyString :: split sep rest
    else
      match split sep rest with
      | [] => [String c EmptyString]
      | piece :: more => String c piece :: more
      end
  end.

Definition lineFeed : ascii := ascii_of_nat 10.

(** A string is truthy unless it is empty. *)
Definition nonEmpty (s : string) : bool := negb (String.eqb s EmptyString).

Record DayTasks : Type := mkDayTasks {
  dayDate : string;
  dayTasks : list string
}.

Section Fetch.

Variable ToString : JsValue -> string.

(** The answer of the database to the query of [getPreviousDayTasksString]
    for a date, for reads that succeed. *)
Variable snapshot : string -> option Plans.

(** The date string of the day [i] days back (lines 462-463). *)
Variable dateOf : nat -> string.

(** Lines 460-467: the loop over the days [1..days]. *)
Definition fetchTasks (days : nat) : list DayTasks :=
  flat_map
    (fun i =>
       let dateStr := dateOf i in
       let tasksStr :=
         getPreviousDayTasksString ToString (snapshot dateStr) dateStr in
       if nonEmpty tasksStr
       then [mkDayTasks dateStr (filter nonEmpty (split lineFeed tasksStr))]
       else [])
    (seq 1 days).

(** Line 475: the component shows its empty state. *)
Definition showsNothingFound (days : nat) : bool :=
  Nat.eqb (length (fetchTasks days)) 0.

End Fetch.

End TaskHistory.

(* ================================================================== *)
(** ** AppSidebar.tsx: the history flag and the statistics of the day *)
(* ================================================================== *)

Module Sidebar.

(** Line 125: the completion flag that [fetchTaskHistory] reads off a line
    of [getPreviousDayTasksString]. *)
Definition isCompletedOf (task : string) : bool :=
  includes task "(Completed)".

Record Stats : Type := mkStats {
  totalTasks : nat;
  completedTasks : nat;
  streak : nat;
  level : nat
}.

(** Lines 154-159. *)
Definition initialStats : Stats := mkStats 0 0 0 1.

Definition isQuote (t : Task) : bool := includes (id t) "quote".

(** Lines 171-184, on the plan read for today ([None] is [null], which
    leaves the statistics as they are).  The counts are natural numbers,
    on which [Math.floor(completed / 10)] is the integer quotient. *)
Definition calculateStats (todayPlan : option DailyPlan) (stats : Stats)
  : Stats :=
  match todayPlan with
  | Some plan =>
    let total := length (filter (fun t => negb (isQuote t)) (tasks plan)) in
    let completed :=
      length (filter (fun t => isCompleted t && negb (isQuote t))
                     (tasks plan)) in
    let level := completed / 10 + 1 in
    mkStats total completed
            (if Nat.eqb completed total && Nat.ltb 0 total then 1 else 0)
            level
  | None => stats
  end.

End Sidebar.

(* ================================================================== *)
(** * Properties *)
(* ================================================================== *)

(** ** Retry with backoff *)

Module RetryFacts.
Import Retry.
Local Open Scope Q_scope.

Lemma requests_schedule (delayAt : nat -> Q) (remaining attempt : nat) :
  requests (schedule delayAt remaining attempt) = seq attempt remaining.
Proof.
  revert attempt.
  induction remaining as [|r IH]; intros attempt; [reflexivity|].
  cbn [schedule requests seq]. f_equal.
  destruct r as [|r']; [reflexivity|].
  cbn [requests]. apply IH.
Qed.

Lemma delays_schedule (delayAt : nat -> Q) (remaining attempt : nat) :
  delays (schedule delayAt remaining attempt)
  = map delayAt (seq attempt (remaining - 1)).
Proof.
  revert attempt.
  induction remaining as [|r IH]; intros attempt; [reflexivity|].
  cbn [schedule delays].
  destruct r as [|r']; [reflexivity|].
  cbn [delays]. rewrite IH.
  replace (S (S r') - 1)%nat with (S (S r' - 1)) by lia.
  reflexivity.
Qed.

Lemma quotaDelay_increasing (baseDelay : Q) (attempt : nat) :
  0 < baseDelay ->
  quotaDelay baseDelay attempt < quotaDelay baseDelay (S attempt).
Proof.
  intros Hpos. unfold quotaDelay.
  rewrite Nat2Z.inj_succ. unfold Z.succ.
  rewrite Qpower_plus by discriminate.
  assert (Hp : 0 < 2 ^ Z.of_nat attempt) by (apply Qpower_0_lt; reflexivity).
  change (2 ^ 1) with 2.
  assert (Hb : 0 < baseDelay * 2 ^ Z.of_nat attempt)
    by (apply Qmult_lt_0_compat; assumption).
  setoid_replace (baseDelay * (2 ^ Z.of_nat attempt * 2))
    with (baseDelay * 2 ^ Z.of_nat attempt + baseDelay * 2 ^ Z.of_nat attempt)
    by ring.
  rewrite <- (Qplus_0_r (baseDelay * 2 ^ Z.of_nat attempt)) at 1.
  apply Qplus_lt_r. exact Hb.
Qed.

Section LoopFacts.
Context {T : Type}.
Variable fn : nat -> Result T.
Variable maxRetries : nat.
Variable baseDelay : Q.

(** An operation that the quota branch catches at every attempt runs the
    whole schedule and ends in the quota-exhausted error. *)
Lemma retryLoop_quota :
  (forall k, (1 <= k <= maxRetries)%nat ->
     exists e, fn k = Err e /\ takesQuotaBranch e = true) ->
  forall remaining attempt lastError,
    (1 <= remaining)%nat -> (1 <= attempt)%nat ->
    (remaining + attempt = S maxRetries)%nat ->
    retryLoop fn maxRetries baseDelay remaining attempt lastError
    = (Rejected (Some (newError quotaExhaustedMessage)),
       schedule (quotaDelay baseDelay) remaining attempt).
Proof.
  intros Hfn.
  induction remaining as [|r IH]; intros attempt lastError Hr Ha Hsum; [lia|].
  cbn [retryLoop schedule].
  destruct (Hfn attempt) as [e [He Hq]]; [lia|].
  rewrite He. unfold takesQuotaBranch in Hq. rewrite Hq.
  destruct r as [|r'].
  - replace attempt with maxRetries by lia.
    rewrite Nat.eqb_refl. reflexivity.
  - assert (Hne : Nat.eqb attempt maxRetries = false)
      by (apply Nat.eqb_neq; lia).
    rewrite Hne.
    rewrite (IH (S attempt) (Some e)) by lia.
    reflexivity.
Qed.

(** The first event of a run of the loop is the request of its attempt. *)
Lemma retryLoop_head (remaining attempt : nat) (lastError : Thrown) :
  exists rest,
    snd (retryLoop fn maxRetries baseDelay (S remaining) attempt lastError)
    = Request attempt :: rest.
Proof.
  cbn [retryLoop].
  destruct (fn attempt) as [v|e]; [eexists; reflexivity|].
  destruct (mentionsQuota e && isQuotaError e).
  - destruct (Nat.eqb attempt maxRetries); [eexists; reflexivity|].
    destruct (retryLoop fn maxRetries baseDelay remaining (S attempt) (Some e)).
    eexists; reflexivity.
  - destruct (negb (isRetryable e) || Nat.eqb attempt maxRetries);
      [eexists; reflexivity|].
    destruct (retryLoop fn maxRetries baseDelay remaining (S attempt) (Some e)).
    eexists; reflexivity.
Qed.

(** A transient failure before the last attempt is followed by its wait
    and by the next attempt. *)
Lemma retryLoop_transient_wait (a : nat) (e : JsError) :
  fn a = Err e -> isTransient e = true -> (a < maxRetries)%nat ->
  forall remaining attempt lastError,
    (remaining + attempt = S maxRetries)%nat ->
    In (Request a)
       (snd (retryLoop fn maxRetries baseDelay remaining attempt lastError)) ->
    exists pre post,
      snd (retryLoop fn maxRetries baseDelay remaining attempt lastError)
      = (pre ++ Request a :: Delay (retryDelay baseDelay a)
              :: Request (S a) :: post)%list.
Proof.
  intros Hfa Htr Hlt.
  apply andb_prop in Htr. destruct Htr as [Hretry Hnq].
  apply negb_true_iff in Hnq. unfold takesQuotaBranch in Hnq.
  induction remaining as [|r IH]; intros attempt lastError Hsum Hin;
    [contradiction|].
  destruct (Nat.eq_dec attempt a) as [->|Hne].
  - clear Hin IH. cbn [retryLoop].
    rewrite Hfa, Hnq, Hretry.
    assert (Hne : Nat.eqb a maxRetries = false) by (apply Nat.eqb_neq; lia).
    rewrite Hne. cbn [negb orb].
    destruct r as [|r']; [lia|].
    destruct (retryLoop_head r' (S a) (Some e)) as [rest Hrest].
    destruct (retryLoop fn maxRetries baseDelay (S r') (S a) (Some e))
      as [outcome events].
    cbn [snd] in *. subst events.
    exists [], rest. reflexivity.
  - revert Hin. cbn [retryLoop].
    destruct (fn attempt) as [v|e'].
    + cbn. intros [Heq|[]]. congruence.
    + destruct (mentionsQuota e' && isQuotaError e').
      * destruct (Nat.eqb attempt maxRetries).
        -- cbn. intros [Heq|[]]. congruence.
        -- specialize (IH (S attempt) (Some e')).
           destruct (retryLoop fn maxRetries baseDelay r (S attempt) (Some e'))
             as [outcome events].
           cbn [snd] in *. intros [Heq|[Heq|Hin]]; try congruence.
           destruct (IH ltac:(lia) Hin) as [pre [post Hev]].
           exists (Request attempt :: Delay (quotaDelay baseDelay attempt) :: pre), post.
           rewrite Hev. reflexivity.
      * destruct (negb (isRetryable e') || Nat.eqb attempt maxRetries).
        -- cbn. intros [Heq|[]]. congruence.
        -- specialize (IH (S attempt) (Some e')).
           destruct (retryLoop fn maxRetries baseDelay r (S attempt) (Some e'))
             as [outcome events].
           cbn [snd] in *. intros [Heq|[Heq|Hin]]; try congruence.
           destruct (IH ltac:(lia) Hin) as [pre [post Hev]].
           exists (Request attempt :: Delay (retryDelay baseDelay attempt) :: pre), post.
           rewrite Hev. reflexivity.
Qed.

(** The requests of a run are of the attempts from [attempt] on. *)
Lemma retryLoop_requests_from (a : nat) :
  forall remaining attempt lastError,
    In (Request a)
       (snd (retryLoop fn maxRetries baseDelay remaining attempt lastError)) ->
    (attempt <= a)%nat.
Proof.
  induction remaining as [|r IH]; intros attempt lastError; [contradiction|].
  cbn [retryLoop].
  destruct (fn attempt) as [v|e'].
  - cbn. intros [Heq|[]]. injection Heq as ->. lia.
  - destruct (mentionsQuota e' && isQuotaError e').
    + destruct (Nat.eqb attempt maxRetries).
      * cbn. intros [Heq|[]]. injection Heq as ->. lia.
      * specialize (IH (S attempt) (Some e')).
        destruct (retryLoop fn maxRetries baseDelay r (S attempt) (Some e')).
        cbn [snd] in *. intros [Heq|[Heq|Hin]]; try discriminate.
        -- injection Heq as ->. lia.
        -- apply IH in Hin. lia.
    + destruct (negb (isRetryable e') || Nat.eqb attempt maxRetries).
      * cbn. intros [Heq|[]]. injection Heq as ->. lia.
      * specialize (IH (S attempt) (Some e')).
        destruct (retryLoop fn maxRetries baseDelay r (S attempt) (Some e')).
        cbn [snd] in *. intros [Heq|[Heq|Hin]]; try discriminate.
        -- injection Heq as ->. lia.
        -- apply IH in Hin. lia.
Qed.

(** An error of the last attempt that the quota branch lets through is
    what the run rejects with. *)
Lemma retryLoop_exhausted (e : JsError) :
  fn maxRetries = Err e -> takesQuotaBranch e = false ->
  forall remaining attempt lastError,
    (remaining + attempt = S maxRetries)%nat ->
    In (Request maxRetries)
       (snd (retryLoop fn maxRetries baseDelay remaining attempt lastError)) ->
    fst (retryLoop fn maxRetries baseDelay remaining attempt lastError)
    = Rejected (Some e).
Proof.
  intros Hfm Hnq. unfold takesQuotaBranch in Hnq.
  induction remaining as [|r IH]; intros attempt lastError Hsum Hin;
    [contradiction|].
  destruct (Nat.eq_dec attempt maxRetries) as [->|Hne].
  - cbn [retryLoop]. rewrite Hfm, Hnq, Nat.eqb_refl, orb_true_r. reflexivity.
  - revert Hin. cbn [retryLoop].
    assert (Hneb : Nat.eqb attempt maxRetries = false)
      by (apply Nat.eqb_neq; exact Hne).
    destruct (fn attempt) as [v|e'].
    + cbn. intros [Heq|[]]. congruence.
    + rewrite Hneb.
      destruct (mentionsQuota e' && isQuotaError e').
      * specialize (IH (S attempt) (Some e')).
        destruct (retryLoop fn maxRetries baseDelay r (S attempt) (Some e')).
        cbn [fst snd] in *. intros [Heq|[Heq|Hin]]; try congruence.
        apply IH; [lia|exact Hin].
      * destruct (negb (isRetryable e') || false).
        -- cbn. intros [Heq|[]]. congruence.
        -- specialize (IH (S attempt) (Some e')).
           destruct (retryLoop fn maxRetries baseDelay r (S attempt) (Some e')).
           cbn [fst snd] in *. intros [Heq|[Heq|Hin]]; try congruence.
           apply IH; [lia|exact Hin].
Qed.

(** A run that is fulfilled is fulfilled with the result of one of its
    attempts. *)
Lemma retryLoop_fulfilled (v : T) :
  forall remaining attempt lastError events,
    retryLoop fn maxRetries baseDelay remaining attempt lastError
    = (Fulfilled v, events) ->
    exists a, fn a = Ok v.
Proof.
  induction remaining as [|r IH]; intros attempt lastError events;
    [discriminate|].
  cbn [retryLoop].
  destruct (fn attempt) as [v'|e] eqn:Hfn.
  - intros Heq. exists attempt. congruence.
  - destruct (mentionsQuota e && isQuotaError e).
    + destruct (Nat.eqb attempt maxRetries); [discriminate|].
      specialize (IH (S attempt) (Some e)).
      destruct (retryLoop fn maxRetries baseDelay r (S attempt) (Some e))
        as [outcome events'].
      intros Heq. apply (IH events'). congruence.
    + destruct (negb (isRetryable e) || Nat.eqb attempt maxRetries);
        [discriminate|].
      specialize (IH (S attempt) (Some e)).
      destruct (retryLoop fn maxRetries baseDelay r (S attempt) (Some e))
        as [outcome events'].
      intros Heq. apply (IH events'). congruence.
Qed.

(** A run that is rejected ends with a failed attempt, and rejects with
    the error of that attempt, or with the quota-exhausted error when the
    quota branch caught it. *)
Lemma retryLoop_rejected (reason : Thrown) :
  forall remaining attempt lastError events,
    (1 <= remaining)%nat -> (remaining + attempt = S maxRetries)%nat ->
    retryLoop fn maxRetries baseDelay remaining attempt lastError
    = (Rejected reason, events) ->
    exists a e pre,
      events = (pre ++ [Request a])%list /\ fn a = Err e /\
      (takesQuotaBranch e = false /\ reason = Some e \/
       takesQuotaBranch e = true /\
       reason = Some (newError quotaExhaustedMessage)).
Proof.
  induction remaining as [|r IH]; intros attempt lastError events Hr Hsum;
    [lia|].
  cbn [retryLoop].
  destruct (fn attempt) as [v'|e] eqn:Hfn; [discriminate|].
  unfold takesQuotaBranch.
  destruct (mentionsQuota e && isQuotaError e) eqn:Hq.
  - destruct (Nat.eqb attempt maxRetries) eqn:Hlast.
    + intros Heq. exists attempt, e, []. rewrite Hq.
      injection Heq as <- <-. auto.
    + apply Nat.eqb_neq in Hlast.
      specialize (IH (S attempt) (Some e)).
      destruct (retryLoop fn maxRetries baseDelay r (S attempt) (Some e))
        as [outcome events'].
      intros Heq. injection Heq as -> <-.
      destruct (IH events' ltac:(lia) ltac:(lia) eq_refl)
        as (a & e' & pre & -> & Hfa & Hor).
      exists a, e', (Request attempt :: Delay (quotaDelay baseDelay attempt) :: pre).
      auto.
  - destruct (negb (isRetryable e) || Nat.eqb attempt maxRetries) eqn:Hstop.
    + intros Heq. exists attempt, e, []. rewrite Hq.
      injection Heq as <- <-. auto.
    + apply orb_false_elim in Hstop. destruct Hstop as [_ Hlast].
      apply Nat.eqb_neq in Hlast.
      specialize (IH (S attempt) (Some e)).
      destruct (retryLoop fn maxRetries baseDelay r (S attempt) (Some e))
        as [outcome events'].
      intros Heq. injection Heq as -> <-.
      destruct (IH events' ltac:(lia) ltac:(lia) eq_refl)
        as (a & e' & pre & -> & Hfa & Hor).
      exists a, e', (Request attempt :: Delay (retryDelay baseDelay attempt) :: pre).
      auto.
Qed.

End LoopFacts.

(** The first attempt decides the run when it succeeds, and when it fails
    with an error that no branch retries. *)
Lemma retry_first_success {T : Type} (fn : nat -> Result T)
    (v : T) (m : nat) (baseDelay : Q) :
  fn 1%nat = Ok v ->
  retryWithBackoff fn (S m) baseDelay = (Fulfilled v, [Request 1]).
Proof.
  intros H. unfold retryWithBackoff. cbn [retryLoop]. rewrite H. reflexivity.
Qed.

Lemma retry_first_fatal {T : Type} (fn : nat -> Result T)
    (e : JsError) (m : nat) (baseDelay : Q) :
  fn 1%nat = Err e -> takesQuotaBranch e = false -> isRetryable e = false ->
  retryWithBackoff fn (S m) baseDelay = (Rejected (Some e), [Request 1]).
Proof.
  intros H Hq Hr. unfold retryWithBackoff, takesQuotaBranch in *.
  cbn [retryLoop]. rewrite H, Hq, Hr. reflexivity.
Qed.

(** C1 (amended).  An operation whose every failure the quota branch
    catches (the message contains "quota", or "429" together with
    "RESOURCE_EXHAUSTED" or "free_tier_requests") is attempted exactly
    [maxRetries] times, each attempt but the last followed by the wait
    [baseDelay * 2^attempt], the waits strictly increasing, and the run then
    rejects with the quota-exhausted error. *)
Theorem retry_quota_exhausted {T : Type} (fn : nat -> Result T)
    (maxRetries : nat) (baseDelay : Q) :
  (1 <= maxRetries)%nat -> 0 < baseDelay ->
  (forall k, (1 <= k <= maxRetries)%nat ->
     exists e, fn k = Err e /\ takesQuotaBranch e = true) ->
  fst (retryWithBackoff fn maxRetries baseDelay)
  = Rejected (Some (newError quotaExhaustedMessage)) /\
  snd (retryWithBackoff fn maxRetries baseDelay)
  = schedule (quotaDelay baseDelay) maxRetries 1 /\
  requests (snd (retryWithBackoff fn maxRetries baseDelay)) = seq 1 maxRetries /\
  delays (snd (retryWithBackoff fn maxRetries baseDelay))
  = map (quotaDelay baseDelay) (seq 1 (maxRetries - 1)) /\
  (forall attempt,
     quotaDelay baseDelay attempt < quotaDelay baseDelay (S attempt)).
Proof.
  intros Hmax Hpos Hfn. unfold retryWithBackoff.
  rewrite (retryLoop_quota fn maxRetries baseDelay Hfn maxRetries 1%nat None)
    by lia.
  cbn [fst snd].
  rewrite requests_schedule, delays_schedule.
  repeat split.
  intros attempt. apply quotaDelay_increasing. exact Hpos.
Qed.

(** The default policy on an operation that always fails the way the API's
    quota errors read: three attempts, waits of 12 s and 24 s. *)
Lemma retry_quota_exhausted_witness :
  retryWithBackoff
    (fun _ : nat => @Err unit (newError "429 RESOURCE_EXHAUSTED: quota exceeded"))
    defaultMaxRetries defaultBaseDelay
  = (Rejected (Some (newError quotaExhaustedMessage)),
     [Request 1; Delay 12000; Request 2; Delay 24000; Request 3]).
Proof.
  pose proof
    (retry_quota_exhausted
       (fun _ : nat => @Err unit (newError "429 RESOURCE_EXHAUSTED: quota exceeded"))
       defaultMaxRetries defaultBaseDelay) as H.
  destruct H as [Hfst [Hsnd _]].
  - unfold defaultMaxRetries. lia.
  - reflexivity.
  - intros k _. eexists. split; reflexivity.
  - rewrite (surjective_pairing (retryWithBackoff _ _ _)), Hfst, Hsnd.
    reflexivity.
Defined.

(** C1 as stated fails: an error that carries only the 429 marker is thrown
    back on the first attempt, with no retry and not as the quota-exhausted
    error; and an operation that the quota branch does catch is attempted
    three times, the first attempt and two retries. *)
Lemma retry_plain_429_not_retried :
  messageIncludes (newError "429 Too Many Requests") "429" = true /\
  retryWithBackoff (fun _ : nat => @Err unit (newError "429 Too Many Requests"))
                   defaultMaxRetries defaultBaseDelay
  = (Rejected (Some (newError "429 Too Many Requests")), [Request 1]) /\
  Some (newError "429 Too Many Requests")
  <> Some (newError quotaExhaustedMessage) /\
  snd (retryWithBackoff (fun _ : nat => @Err unit (newError "quota"))
                        defaultMaxRetries defaultBaseDelay)
  = [Request 1; Delay 12000; Request 2; Delay 24000; Request 3].
Proof.
  repeat split; try reflexivity. discriminate.
Qed.

(** C4.  With at least two attempts allowed, an operation that fails once
    with a transient error and then succeeds is fulfilled with the success
    after exactly one retry, the wait before it being [baseDelay]; whenever
    an attempt before the last fails with a transient error the run waits
    [baseDelay * 1.5^(attempt-1)] and goes on to the next attempt; and a
    transient error of the last attempt is the error the run rejects
    with. *)
Theorem retry_transient {T : Type} (fn : nat -> Result T)
    (maxRetries : nat) (baseDelay : Q) :
  (2 <= maxRetries)%nat ->
  (forall e v,
     fn 1%nat = Err e -> isTransient e = true -> fn 2%nat = Ok v ->
     exists d,
       retryWithBackoff fn maxRetries baseDelay
       = (Fulfilled v, [Request 1; Delay d; Request 2]) /\
       d == baseDelay) /\
  (forall a e,
     In (Request a) (snd (retryWithBackoff fn maxRetries baseDelay)) ->
     fn a = Err e -> isTransient e = true -> (a < maxRetries)%nat ->
     exists pre d post,
       snd (retryWithBackoff fn maxRetries baseDelay)
       = (pre ++ Request a :: Delay d :: Request (S a) :: post)%list /\
       d == baseDelay * (3 # 2) ^ (Z.of_nat a - 1)) /\
  (forall e,
     In (Request maxRetries) (snd (retryWithBackoff fn maxRetries baseDelay)) ->
     fn maxRetries = Err e -> isTransient e = true ->
     fst (retryWithBackoff fn maxRetries baseDelay) = Rejected (Some e)).
Proof.
  intros Hmax. split; [|split].
  - intros e v H1 Htr H2. unfold retryWithBackoff.
    apply andb_prop in Htr. destruct Htr as [Hretry Hnq].
    apply negb_true_iff in Hnq. unfold takesQuotaBranch in Hnq.
    destruct maxRetries as [|[|m]]; try lia.
    cbn [retryLoop]. rewrite H1, Hnq, Hretry. cbn [negb orb Nat.eqb].
    rewrite H2. eexists. split; [reflexivity|].
    unfold retryDelay. change ((3 # 2) ^ (Z.of_nat 1 - 1)) with 1.
    apply Qmult_1_r.
  - intros a e Hin Hfa Htr Hlt. unfold retryWithBackoff in *.
    destruct (retryLoop_transient_wait fn maxRetries baseDelay a e Hfa Htr Hlt
                maxRetries 1%nat None) as (pre & post & Hlog); [lia|exact Hin|].
    exists pre, (retryDelay baseDelay a), post. split; [exact Hlog|].
    unfold retryDelay. apply Qeq_refl.
  - intros e Hin Hfm Htr. unfold retryWithBackoff in *.
    apply andb_prop in Htr. destruct Htr as [_ Hnq].
    apply negb_true_iff in Hnq.
    apply (retryLoop_exhausted fn maxRetries baseDelay e Hfm Hnq
             maxRetries 1%nat None); [lia|exact Hin].
Qed.

(** The default policy on an operation that is overloaded once, which
    waits 6000 ms, and on one that is overloaded at every attempt, which
    waits 9000 ms after its second attempt. *)
Lemma retry_transient_witness :
  (exists d,
     retryWithBackoff
       (fun attempt : nat =>
          if Nat.eqb attempt 1 then Err (newError "503 The model is overloaded")
          else Ok "plan")
       defaultMaxRetries defaultBaseDelay
     = (Fulfilled "plan", [Request 1; Delay d; Request 2]) /\
     d == 6000) /\
  (exists pre d post,
     snd (retryWithBackoff
            (fun _ : nat => @Err unit (newError "503 The model is overloaded"))
            defaultMaxRetries defaultBaseDelay)
     = (pre ++ Request 2 :: Delay d :: Request 3 :: post)%list /\
     d == 9000) /\
  fst (retryWithBackoff
         (fun _ : nat => @Err unit (newError "503 The model is overloaded"))
         defaultMaxRetries defaultBaseDelay)
  = Rejected (Some (newError "503 The model is overloaded")).
Proof.
  split; [|split].
  - destruct (proj1 (retry_transient
                       (fun attempt : nat =>
                          if Nat.eqb attempt 1
                          then Err (newError "503 The model is overloaded")
                          else Ok "plan")
                       defaultMaxRetries defaultBaseDelay
                       ltac:(unfold defaultMaxRetries; lia))
                    (newError "503 The model is overloaded") "plan"
                    eq_refl eq_refl eq_refl) as (d & Hrun & Hd).
    exists d. split; [exact Hrun|].
    apply (Qeq_trans _ _ _ Hd). vm_compute. reflexivity.
  - destruct (proj1 (proj2 (retry_transient
                       (fun _ : nat => @Err unit (newError "503 The model is overloaded"))
                       defaultMaxRetries defaultBaseDelay
                       ltac:(unfold defaultMaxRetries; lia)))
                    2%nat (newError "503 The model is overloaded"))
      as (pre & d & post & Hlog & Hd).
    + vm_compute. tauto.
    + reflexivity.
    + reflexivity.
    + unfold defaultMaxRetries. lia.
    + exists pre, d, post. split; [exact Hlog|].
      apply (Qeq_trans _ _ _ Hd). vm_compute. reflexivity.
  - apply (proj2 (proj2 (retry_transient
                    (fun _ : nat => @Err unit (newError "503 The model is overloaded"))
                    defaultMaxRetries defaultBaseDelay
                    ltac:(unfold defaultMaxRetries; lia)))
                 (newError "503 The model is overloaded")).
    + vm_compute. tauto.
    + reflexivity.
    + reflexivity.
Defined.

End RetryFacts.

(** ** The request queue and the rate limiter *)

Module GovernorFacts.
Import Governor.
Local Open Scope Z_scope.

Lemma run_app (st : State) (l1 l2 : list Label) :
  run st (l1 ++ l2)
  = match run st l1 with
    | Some st' => run st' l2
    | None => None
    end.
Proof.
  revert st. induction l1 as [|l l1 IH]; intros st; [reflexivity|].
  cbn [run app]. destruct (step st l); [apply IH|reflexivity].
Qed.

Lemma submittedIds_app (a b : list Obs) :
  submittedIds (a ++ b) = (submittedIds a ++ submittedIds b)%list.
Proof.
  induction a as [|[id|id t|id o t] a IH]; cbn; rewrite ?IH; reflexivity.
Qed.

Lemma dispatchedIds_app (a b : list Obs) :
  dispatchedIds (a ++ b) = (dispatchedIds a ++ dispatchedIds b)%list.
Proof.
  induction a as [|[id|id t|id o t] a IH]; cbn; rewrite ?IH; reflexivity.
Qed.

Lemma dispatchTimes_app (a b : list Obs) :
  dispatchTimes (a ++ b) = (dispatchTimes a ++ dispatchTimes b)%list.
Proof.
  induction a as [|[id|id t|id o t] a IH]; cbn; rewrite ?IH; reflexivity.
Qed.

Lemma settlements_app (a b : list Obs) :
  settlements (a ++ b) = (settlements a ++ settlements b)%list.
Proof.
  induction a as [|[id|id t|id o t] a IH]; cbn; rewrite ?IH; reflexivity.
Qed.

Lemma inFlight_app (a b : list Obs) (current : option nat) :
  inFlight (a ++ b) current
  = match inFlight a current with
    | Some current' => inFlight b current'
    | None => None
    end.
Proof.
  revert current.
  induction a as [|[id|id t|id o t] a IH]; intros current; cbn [app inFlight].
  - reflexivity.
  - apply IH.
  - destruct current; [reflexivity|apply IH].
  - destruct current as [id'|]; [|reflexivity].
    destruct (Nat.eqb id id'); [apply IH|reflexivity].
Qed.

Lemma lastTime_snoc (times : list Z) (t : Z) :
  lastTime (times ++ [t]) = Some t.
Proof.
  induction times as [|t1 times IH]; [reflexivity|].
  cbn [app lastTime]. destruct (times ++ [t])%list eqn:E.
  - destruct times; discriminate.
  - exact IH.
Qed.

Lemma spaced_snoc (times : list Z) (t : Z) :
  spaced times ->
  (forall t', lastTime times = Some t' -> t' + MIN_REQUEST_INTERVAL <= t) ->
  spaced (times ++ [t]).
Proof.
  induction times as [|t1 times IH]; intros Hsp Hlast; [exact I|].
  destruct times as [|t2 times].
  - cbn. split; [apply Hlast; reflexivity|exact I].
  - cbn [app spaced] in *. destruct Hsp as [H12 Hsp]. split; [exact H12|].
    apply IH; [exact Hsp|]. intros t' Ht'. apply Hlast. exact Ht'.
Qed.

Lemma spaced_nth (times : list Z) :
  spaced times ->
  forall i t1 t2,
    nth_error times i = Some t1 -> nth_error times (S i) = Some t2 ->
    t1 + MIN_REQUEST_INTERVAL <= t2.
Proof.
  induction times as [|t times IH]; intros Hsp i t1 t2 H1 H2.
  - destruct i; discriminate.
  - destruct times as [|t' times]; [destruct i; discriminate|].
    destruct Hsp as [H12 Hsp].
    destruct i as [|i].
    + cbn in H1, H2. congruence.
    + apply (IH Hsp i); assumption.
Qed.

(** Reduction of the projections and of the trace readings only: the
    arithmetic of the clock stays folded. *)
Ltac fields :=
  cbn [clock lastRequestTime requestCount requestQueue isProcessingQueue
       drain windowTimers trace pending running isIdle submittedIds
       dispatchedIds dispatchTimes settlements inFlight map fst app negb orb
       length Nat.eqb].
Ltac fields_in_all :=
  cbn [clock lastRequestTime requestCount requestQueue isProcessingQueue
       drain windowTimers trace pending running isIdle submittedIds
       dispatchedIds dispatchTimes settlements inFlight map fst app negb orb
       length Nat.eqb] in *.

Lemma Inv_init (t0 : Z) : Inv (init t0).
Proof.
  unfold Inv, init; fields. repeat split; try discriminate; auto.
Qed.

(** The closure of the next operation, started while none is pending or in
    flight. *)
Lemma Inv_beginClosure (id : nat) (st : State) :
  submittedIds (trace st)
  = (dispatchedIds (trace st) ++ id :: requestQueue st)%list ->
  inFlight (trace st) None = Some None ->
  dispatchedIds (trace st) = map fst (settlements (trace st)) ->
  spaced (dispatchTimes (trace st)) ->
  (forall t, lastTime (dispatchTimes (trace st)) = Some t ->
             lastRequestTime st = t) ->
  isProcessingQueue st = true ->
  Inv (beginClosure id st).
Proof.
  intros Hsub Hfl Hset Hsp Hlast Hflag.
  unfold beginClosure.
  destruct (clock st - lastRequestTime st <? MIN_REQUEST_INTERVAL) eqn:Hlt.
  - unfold Inv; fields.
    repeat split; auto; try discriminate.
    + rewrite Hset, app_nil_r. reflexivity.
    + intros id' due Heq.
      assert (Hd : clock st + (MIN_REQUEST_INTERVAL - (clock st - lastRequestTime st)) = due)
        by congruence.
      lia.
  - apply Z.ltb_ge in Hlt.
    unfold Inv, dispatch; fields.
    rewrite submittedIds_app, dispatchedIds_app, dispatchTimes_app,
      settlements_app, inFlight_app, Hfl.
    fields. repeat rewrite app_nil_r.
    repeat split; auto; try discriminate.
    + rewrite Hsub, <- app_assoc. reflexivity.
    + rewrite Hset. reflexivity.
    + apply spaced_snoc; [exact Hsp|].
      intros t' Ht'. apply Hlast in Ht'. lia.
    + intros t Ht. rewrite lastTime_snoc in Ht. congruence.
Qed.

Lemma Inv_step (st st' : State) (l : Label) :
  Inv st -> step st l = Some st' -> Inv st'.
Proof.
  intros (Hsub & Hfl & Hset & Hsp & Hlast & Hdue & Hflag & Hidle) Hstep.
  destruct l as [id|dt| |outcome| |]; cbn [step] in Hstep.
  - (* Submit *)
    injection Hstep as <-.
    unfold rateLimitedRequest, processQueue. fields.
    rewrite Hflag.
    destruct (drain st) eqn:Hd; cbn [isIdle negb orb].
    + (* idle: the queue was empty, a new activation starts *)
      rewrite (Hidle eq_refl) in *. fields.
      apply Inv_beginClosure; fields;
        rewrite ?submittedIds_app, ?dispatchedIds_app, ?dispatchTimes_app,
          ?settlements_app, ?inFlight_app, ?Hfl; fields;
        repeat rewrite app_nil_r in *; auto.
      rewrite Hsub. fields. repeat rewrite app_nil_r. reflexivity.
    + unfold Inv; fields_in_all. repeat rewrite app_nil_r in *.
      rewrite submittedIds_app, dispatchedIds_app, dispatchTimes_app,
        settlements_app, inFlight_app, Hfl; fields. repeat rewrite app_nil_r.
      repeat split; auto; try discriminate.
      rewrite Hsub. repeat rewrite <- app_assoc. reflexivity.
    + unfold Inv; fields_in_all. repeat rewrite app_nil_r in *.
      rewrite submittedIds_app, dispatchedIds_app, dispatchTimes_app,
        settlements_app, inFlight_app, Hfl; fields. repeat rewrite app_nil_r.
      repeat split; auto; try discriminate.
      rewrite Hsub. repeat rewrite <- app_assoc. reflexivity.
    + unfold Inv; fields_in_all. repeat rewrite app_nil_r in *.
      rewrite submittedIds_app, dispatchedIds_app, dispatchTimes_app,
        settlements_app, inFlight_app, Hfl; fields. repeat rewrite app_nil_r.
      repeat split; auto; try discriminate.
      rewrite Hsub. repeat rewrite <- app_assoc. reflexivity.
  - (* Tick *)
    destruct (0 <=? dt); [|discriminate]. injection Hstep as <-.
    unfold Inv; fields. repeat split; auto.
  - (* TimerFires *)
    destruct (drain st) as [|id due| |] eqn:Hd; try discriminate.
    destruct (due <=? clock st) eqn:Hle; [|discriminate].
    apply Z.leb_le in Hle. injection Hstep as <-.
    specialize (Hdue id due eq_refl).
    unfold Inv, dispatch; fields.
    rewrite submittedIds_app, dispatchedIds_app, dispatchTimes_app,
      settlements_app, inFlight_app, Hfl. fields_in_all. repeat rewrite app_nil_r in *.
    repeat split; auto; try discriminate.
    + rewrite Hsub, <- app_assoc. reflexivity.
    + rewrite Hset. reflexivity.
    + apply spaced_snoc; [exact Hsp|].
      intros t' Ht'. apply Hlast in Ht'. lia.
    + intros t Ht. rewrite lastTime_snoc in Ht. congruence.
  - (* Settle *)
    destruct (drain st) as [| |id|] eqn:Hd; try discriminate.
    injection Hstep as <-.
    unfold Inv; fields.
    rewrite submittedIds_app, dispatchedIds_app, dispatchTimes_app,
      settlements_app, inFlight_app, Hfl. fields_in_all.
    rewrite Nat.eqb_refl, !app_nil_r in *.
    repeat split; auto; try discriminate.
    rewrite Hset, map_app. reflexivity.
  - (* Resume *)
    destruct (drain st) eqn:Hd; try discriminate.
    injection Hstep as <-. fields_in_all. repeat rewrite app_nil_r in *.
    unfold whileLoop.
    destruct (requestQueue st) as [|id rest] eqn:Hq.
    + unfold Inv; fields. repeat rewrite app_nil_r in *.
      repeat split; auto; try discriminate.
    + apply Inv_beginClosure; fields; auto.
  - (* WindowExpires *)
    destruct (windowTimers st) as [|due rest]; [discriminate|].
    destruct (due <=? clock st); [|discriminate]. injection Hstep as <-.
    unfold Inv; fields. repeat split; auto.
Qed.

Lemma Inv_run (labels : list Label) :
  forall st st', Inv st -> run st labels = Some st' -> Inv st'.
Proof.
  induction labels as [|l labels IH]; intros st st' Hinv Hrun.
  - injection Hrun as <-. exact Hinv.
  - cbn [run] in Hrun. destruct (step st l) as [st1|] eqn:Hstep; [|discriminate].
    apply (IH st1 st'); [|exact Hrun].
    apply (Inv_step st st1 l); assumption.
Qed.

Lemma Inv_reachable (t0 : Z) (labels : list Label) (st : State) :
  run (init t0) labels = Some st -> Inv st.
Proof.
  intros Hrun. apply (Inv_run labels (init t0) st); [apply Inv_init|exact Hrun].
Qed.




(** C3.  In every run of the governor, the start times of two consecutive
    dispatches are at least [MIN_REQUEST_INTERVAL] = 5000 ms apart, however
    soon the operations settle. *)
Theorem dispatch_spacing (t0 : Z) (labels : list Label) (st : State) :
  run (init t0) labels = Some st ->
  MIN_REQUEST_INTERVAL = 5000 /\
  forall i t1 t2,
    nth_error (dispatchTimes (trace st)) i = Some t1 ->
    nth_error (dispatchTimes (trace st)) (S i) = Some t2 ->
    t2 - t1 >= MIN_REQUEST_INTERVAL.
Proof.
  intros Hrun. split; [reflexivity|].
  destruct (Inv_reachable t0 labels st Hrun) as (_ & _ & _ & Hsp & _).
  intros i t1 t2 H1 H2.
  pose proof (spaced_nth _ Hsp i t1 t2 H1 H2). lia.
Qed.

(** Two calls whose operations settle at once. *)
Lemma dispatch_spacing_witness :
  exists st,
    run (init 1700000000000) Samples.zeroLatencyRun = Some st /\
    dispatchTimes (trace st) = [1700000000000; 1700000005000] /\
    1700000005000 - 1700000000000 >= MIN_REQUEST_INTERVAL.
Proof.
  destruct (run (init 1700000000000) Samples.zeroLatencyRun) as [st|] eqn:Hrun;
    [|discriminate].
  exists st.
  assert (Htimes : dispatchTimes (trace st) = [1700000000000; 1700000005000])
    by (vm_compute in Hrun; injection Hrun as <-; reflexivity).
  split; [reflexivity|]. split; [exact Htimes|].
  apply (proj2 (dispatch_spacing 1700000000000 Samples.zeroLatencyRun st Hrun) 0%nat);
    rewrite Htimes; reflexivity.
Defined.

End GovernorFacts.

(** ** The generation functions *)

Module GeminiFacts.
Import Retry RetryFacts Gemini.

Lemma string_app_assoc (a b c : string) : (a ++ b) ++ c = a ++ (b ++ c).
Proof. induction a as [|ch a IH]; cbn; [reflexivity|]. rewrite IH. reflexivity. Qed.

Lemma list_ascii_app (a b : string) :
  list_ascii_of_string (a ++ b)
  = (list_ascii_of_string a ++ list_ascii_of_string b)%list.
Proof. induction a as [|ch a IH]; cbn; [reflexivity|]. rewrite IH. reflexivity. Qed.

Lemma string_of_list_app (a b : list ascii) :
  string_of_list_ascii (a ++ b)
  = string_of_list_ascii a ++ string_of_list_ascii b.
Proof. induction a as [|ch a IH]; cbn; [reflexivity|]. rewrite IH. reflexivity. Qed.

Lemma prefix_app (a b : string) : prefix a (a ++ b) = true.
Proof.
  induction a as [|ch a IH]; cbn; [destruct b; reflexivity|].
  destruct (ascii_dec ch ch); [exact IH|congruence].
Qed.

Lemma endsWith_app (a b : string) : endsWith (a ++ b) b = true.
Proof.
  unfold endsWith. rewrite list_ascii_app, rev_app_distr, string_of_list_app.
  apply prefix_app.
Qed.

(** The identifier of the synthetic task ends in the quote suffix. *)
Lemma taskId_quote (now : Z) :
  endsWith (taskId now "quote") "quote" = true /\
  endsWith (taskId now "quote") "_quote" = true.
Proof.
  unfold taskId. split.
  - rewrite <- (string_app_assoc "task_" (showZ now) ("_" ++ "quote")).
    rewrite <- (string_app_assoc ("task_" ++ showZ now) "_" "quote").
    apply endsWith_app.
  - rewrite <- (string_app_assoc "task_" (showZ now) ("_" ++ "quote")).
    apply (endsWith_app ("task_" ++ showZ now) "_quote").
Qed.

Section GenerationFacts.
Variable generateContent :
  GenerateContentParameters -> nat -> Result (option GenerateContentResponse).
Variable Date_now : nat -> nat -> Z.
Variable String_trim : string -> string.
Variable JSON_parse : string -> option JsValue.

(** No supporting task is flagged. *)
Lemma pushOtherTasks_not_gia (now : nat -> Z) (items : list JsValue) :
  forall index reads,
    Forall (fun t => isGIA t = false)
           (fst (pushOtherTasks now items index reads)).
Proof.
  induction items as [|t items IH]; intros index reads; cbn [pushOtherTasks].
  - constructor.
  - destruct (truthy (getPropOpt t "task")).
    + specialize (IH (S index) (S reads)).
      destruct (pushOtherTasks now items (S index) (S reads)).
      cbn [fst] in *. constructor; [reflexivity|exact IH].
    + apply IH.
Qed.

(** The task list of a parsed response: at most one leading task, the only
    one that can be flagged, and unflagged tasks after it. *)
Lemma tasksOfPlanData_shape (now : nat -> Z) (planData : JsValue)
    (tasks : list Task) :
  tasksOfPlanData now planData = Ok tasks ->
  exists first rest,
    tasks = (first ++ rest)%list /\ (length first <= 1)%nat /\
    Forall (fun t => isGIA t = false) rest.
Proof.
  unfold tasksOfPlanData.
  destruct (getProp planData "gia") as [gia|]; cbn [bind]; [|discriminate].
  destruct (truthy (getPropOpt gia "task"));
    (destruct (getProp planData "otherTasks") as [otherTasks|];
     cbn [bind]; [|discriminate]);
    match goal with
    | |- context [match otherTasks with
                  | JsArray items => pushOtherTasks now items 0 ?r
                  | _ => _
                  end] =>
      assert (H2 : Forall (fun t => isGIA t = false)
                     (fst match otherTasks with
                          | JsArray items => pushOtherTasks now items 0 r
                          | _ => ([], r)
                          end))
        by (destruct otherTasks; try constructor; apply pushOtherTasks_not_gia);
      destruct (match otherTasks with
                | JsArray items => pushOtherTasks now items 0 r
                | _ => ([], r)
                end) as [tasks2 reads2]
    end;
    cbn [fst] in H2;
    (destruct (getProp planData "motivationalQuote") as [quote|];
     cbn [bind]; [|discriminate]);
    (destruct (Nat.eqb _ 0); [discriminate|]);
    intros Heq; injection Heq as <-.
  - exists [mkTask (taskId (now 0%nat) "gia") (getPropOpt gia "task") false true],
           (tasks2 ++ if truthy quote
                      then [mkTask (taskId (now reads2) "quote") quote
                                   false false]
                      else [])%list.
    split; [reflexivity|]. split; [cbn; lia|].
    apply Forall_app. split; [exact H2|].
    destruct (truthy quote); repeat constructor.
  - exists [], (tasks2 ++ if truthy quote
                          then [mkTask (taskId (now reads2) "quote") quote
                                       false false]
                          else [])%list.
    split; [reflexivity|]. split; [cbn; lia|].
    apply Forall_app. split; [exact H2|].
    destruct (truthy quote); repeat constructor.
Qed.

(** C8.  With no goal, an empty goal title, no profile or an empty
    identity, [getDailyPlan] rejects with a validation error and performs
    nothing: no request is handed to the governor, no wait, and the result
    is the same whatever the upstream service would answer. *)
Theorem plan_validation (profile : option UserProfile) (goal : option Goal)
    (previousDayTasks : string) (previousDayReflection : option string) :
  goal = None \/ (exists g, goal = Some g /\ title g = EmptyString) \/
  profile = None \/ (exists p, profile = Some p /\ identity p = EmptyString) ->
  exists m,
    (m = goalRequiredMessage \/ m = identityRequiredMessage) /\
    forall upstream,
      getDailyPlan upstream Date_now String_trim JSON_parse
                   profile goal previousDayTasks previousDayReflection
      = (Rejected (Some (newError m)), []).
Proof.
  intros Hbad. unfold getDailyPlan.
  destruct goal as [g|]; [|exists goalRequiredMessage; auto].
  destruct (nonEmpty (title g)) eqn:Ht; cbn [negb];
    [|exists goalRequiredMessage; auto].
  destruct profile as [p|]; [|exists identityRequiredMessage; auto].
  destruct (nonEmpty (identity p)) eqn:Hi; cbn [negb];
    [|exists identityRequiredMessage; auto].
  exfalso.
  destruct Hbad as [H|[(g' & H & Hempty)|[H|(p' & H & Hempty)]]];
    try discriminate.
  - injection H as <-. rewrite Hempty in Ht. discriminate.
  - injection H as <-. rewrite Hempty in Hi. discriminate.
Qed.

(** C9.  A task list that [getDailyPlan] is fulfilled with has at most one
    task flagged as the GIA, and a flagged task is the first of the list. *)
Theorem plan_single_gia (profile : option UserProfile) (goal : option Goal)
    (previousDayTasks : string) (previousDayReflection : option string)
    (tasks : list Task) (events : list Event) :
  getDailyPlan generateContent Date_now String_trim JSON_parse
               profile goal previousDayTasks previousDayReflection
  = (Fulfilled tasks, events) ->
  (length (filter isGIA tasks) <= 1)%nat /\
  forall i t, nth_error tasks i = Some t -> isGIA t = true -> i = 0%nat.
Proof.
  unfold getDailyPlan.
  destruct goal as [g|]; [|discriminate].
  destruct (negb (nonEmpty (title g))); [discriminate|].
  destruct profile as [p|]; [|discriminate].
  destruct (negb (nonEmpty (identity p))); [discriminate|].
  unfold retryWithBackoff.
  destruct (retryLoop _ _ _ _ _ _) as [[v|r] ev] eqn:Hloop; [|discriminate].
  intros Heq. injection Heq as -> ->.
  destruct (retryLoop_fulfilled _ _ _ _ _ _ _ _ Hloop) as [a Ha].
  unfold planRequest in Ha.
  destruct (generateContent _ a) as [response|]; [|discriminate].
  cbn [bind] in Ha.
  destruct (textOfResponse response) as [txt|]; [|discriminate].
  cbn [bind] in Ha.
  destruct (JSON_parse (String_trim txt)) as [planData|]; [|discriminate].
  destruct (tasksOfPlanData_shape _ _ _ Ha) as (first & rest & -> & Hlen & Hrest).
  assert (Hnone : filter isGIA rest = []).
  { clear -Hrest. induction Hrest as [|t rest Ht _ IH]; [reflexivity|].
    cbn. rewrite Ht. exact IH. }
  split.
  - rewrite filter_app, Hnone, app_nil_r.
    destruct first as [|t1 [|t2 first]]; cbn in *; try lia.
    destruct (isGIA t1); cbn; lia.
  - intros i t Hnth Hgia.
    destruct first as [|t1 [|t2 first]]; cbn [length] in Hlen; try lia.
    + cbn [app] in Hnth. apply nth_error_In in Hnth.
      rewrite Forall_forall in Hrest. rewrite (Hrest t Hnth) in Hgia.
      discriminate.
    + destruct i as [|i]; [reflexivity|].
      cbn in Hnth. apply nth_error_In in Hnth.
      rewrite Forall_forall in Hrest. rewrite (Hrest t Hnth) in Hgia.
      discriminate.
Qed.

(** *** The mapping of a well-formed response *)

Lemma pushOtherTasks_all (now : nat -> Z) (others : list string) :
  Forall (fun t => nonEmpty t = true) others ->
  forall index reads,
    pushOtherTasks now
      (map (fun t => JsObject [("task", JsString t)]) others) index reads
    = (supportingTasks now others index reads, (reads + length others)%nat).
Proof.
  induction 1 as [|t others Ht _ IH]; intros index reads.
  - cbn. rewrite Nat.add_0_r. reflexivity.
  - cbn [map pushOtherTasks supportingTasks length].
    replace (getPropOpt (JsObject [("task", JsString t)]) "task")
      with (JsString t) by reflexivity.
    cbn [truthy]. unfold nonEmpty in Ht. rewrite Ht.
    rewrite IH. rewrite <- plus_n_Sm. reflexivity.
Qed.

Lemma supportingTasks_text (now : nat -> Z) (others : list string) :
  forall index reads,
    map text (supportingTasks now others index reads) = map JsString others.
Proof.
  induction others as [|t others IH]; intros index reads; cbn;
    [reflexivity|]. rewrite IH. reflexivity.
Qed.

Lemma supportingTasks_isGIA (now : nat -> Z) (others : list string) :
  forall index reads,
    map isGIA (supportingTasks now others index reads)
    = repeat false (length others).
Proof.
  induction others as [|t others IH]; intros index reads; cbn;
    [reflexivity|]. rewrite IH. reflexivity.
Qed.

Lemma supportingTasks_length (now : nat -> Z) (others : list string) :
  forall index reads,
    length (supportingTasks now others index reads) = length others.
Proof.
  induction others as [|t others IH]; intros index reads; cbn;
    [reflexivity|]. rewrite IH. reflexivity.
Qed.

Lemma tasksOfPlanData_ordered (now : nat -> Z)
    (giaTask reason quote : string) (others : list string) :
  nonEmpty giaTask = true ->
  Forall (fun t => nonEmpty t = true) others ->
  nonEmpty quote = true ->
  tasksOfPlanData now (planDataOf giaTask reason others quote)
  = Ok (orderedPlan now giaTask others quote).
Proof.
  intros Hg Ho Hq. unfold tasksOfPlanData.
  replace (getProp (planDataOf giaTask reason others quote) "gia")
    with (Ok (JsObject [("task", JsString giaTask);
                        ("reason", JsString reason)])) by reflexivity.
  cbn [bind].
  replace (getPropOpt (JsObject [("task", JsString giaTask);
                                 ("reason", JsString reason)]) "task")
    with (JsString giaTask) by reflexivity.
  cbn [truthy]. unfold nonEmpty in Hg, Hq. rewrite Hg.
  replace (getProp (planDataOf giaTask reason others quote) "otherTasks")
    with (Ok (JsArray (map (fun t => JsObject [("task", JsString t)]) others)))
    by reflexivity.
  cbn [bind]. rewrite (pushOtherTasks_all now others Ho).
  replace (getProp (planDataOf giaTask reason others quote) "motivationalQuote")
    with (Ok (JsString quote)) by reflexivity.
  cbn [bind truthy]. rewrite Hq. cbn [app length Nat.eqb].
  reflexivity.
Qed.

(** C6 (amended).  For a response that parses as
    [{gia:{task, reason}, otherTasks:[{task}...], motivationalQuote}] with
    a non-empty GIA task, non-empty supporting tasks and a non-empty
    quote, [getDailyPlan] is fulfilled with the ordered list: the GIA
    task flagged, each supporting task in order unflagged, and last the
    unflagged task that carries the quote, its identifier ending in the
    quote suffix. *)
Theorem plan_ordered (profile : UserProfile) (goal : Goal)
    (previousDayTasks : string) (previousDayReflection : option string)
    (t giaTask reason quote : string) (others : list string) :
  nonEmpty (title goal) = true -> nonEmpty (identity profile) = true ->
  generateContent
    (planParameters (planPrompt profile goal previousDayTasks
                                previousDayReflection)) 1%nat
  = Ok (Some (mkResponse (Some t))) ->
  nonEmpty t = true ->
  JSON_parse (String_trim t) = Some (planDataOf giaTask reason others quote) ->
  nonEmpty giaTask = true ->
  Forall (fun s => nonEmpty s = true) others ->
  nonEmpty quote = true ->
  exists tasks quoteTask,
    fst (getDailyPlan generateContent Date_now String_trim JSON_parse
           (Some profile) (Some goal) previousDayTasks previousDayReflection)
    = Fulfilled tasks /\
    tasks = orderedPlan (Date_now 1%nat) giaTask others quote /\
    map text tasks
    = (JsString giaTask :: map JsString others ++ [JsString quote])%list /\
    map isGIA tasks = (true :: repeat false (length others) ++ [false])%list /\
    nth_error tasks (S (length others)) = Some quoteTask /\
    length tasks = S (S (length others)) /\
    endsWith (id quoteTask) "quote" = true.
Proof.
  intros Htitle Hidentity Hup Ht Hparse Hg Ho Hq.
  exists (orderedPlan (Date_now 1%nat) giaTask others quote),
         (mkTask (taskId (Date_now 1%nat (S (length others))) "quote")
                 (JsString quote) false false).
  split; [|split; [reflexivity|]].
  - unfold getDailyPlan. rewrite Htitle, Hidentity. cbn [negb].
    unfold defaultMaxRetries.
    rewrite (retry_first_success _ (orderedPlan (Date_now 1%nat) giaTask others quote));
      [reflexivity|].
    unfold planRequest. rewrite Hup. cbn [bind textOfResponse responseText].
    rewrite Ht. cbn [bind]. rewrite Hparse.
    apply tasksOfPlanData_ordered; assumption.
  - unfold orderedPlan. cbn [map]. rewrite !map_app.
    rewrite supportingTasks_text, supportingTasks_isGIA. cbn [map text isGIA].
    repeat split.
    + cbn [nth_error].
      rewrite nth_error_app2; rewrite supportingTasks_length; [|lia].
      rewrite Nat.sub_diag. reflexivity.
    + cbn [length]. rewrite length_app, supportingTasks_length. cbn. lia.
    + apply taskId_quote.
Qed.

(** *** Failures of the plan generation *)

Lemma getProp_defined (v : JsValue) (key : string) :
  match v with JsUndefined | JsNull => False | _ => True end ->
  getProp v key = Ok (getPropOpt v key).
Proof. destruct v; cbn; intros H; (reflexivity || contradiction). Qed.

Lemma pushOtherTasks_none (now : nat -> Z) (items : list JsValue) :
  forallb (fun t => negb (truthy (getPropOpt t "task"))) items = true ->
  forall index reads, pushOtherTasks now items index reads = ([], reads).
Proof.
  induction items as [|t items IH]; intros Hall index reads; [reflexivity|].
  cbn [forallb] in Hall. apply andb_prop in Hall. destruct Hall as [Ht Hall].
  cbn [pushOtherTasks]. apply negb_true_iff in Ht. rewrite Ht.
  apply IH. exact Hall.
Qed.

Lemma tasksOfPlanData_none (now : nat -> Z) (planData : JsValue) :
  yieldsNoTask planData = true ->
  tasksOfPlanData now planData = Err (newError noTasksMessage).
Proof.
  intros Hno. unfold tasksOfPlanData.
  assert (Hdef : match planData with
                 | JsUndefined | JsNull => False
                 | _ => True
                 end) by (destruct planData; (exact I || discriminate)).
  rewrite !(getProp_defined planData _ Hdef). cbn [bind].
  assert (Hparts :
    truthy (getPropOpt (getPropOpt planData "gia") "task") = false /\
    match getPropOpt planData "otherTasks" with
    | JsArray items =>
      forallb (fun t => negb (truthy (getPropOpt t "task"))) items
    | _ => true
    end = true /\
    truthy (getPropOpt planData "motivationalQuote") = false).
  { unfold yieldsNoTask in Hno.
    destruct planData; try discriminate;
      (apply andb_prop in Hno; destruct Hno as [Hno H3];
       apply andb_prop in Hno; destruct Hno as [H1 H2];
       apply negb_true_iff in H1; apply negb_true_iff in H3; auto). }
  destruct Hparts as (H1 & H2 & H3). rewrite H1, H3.
  destruct (getPropOpt planData "otherTasks"); try reflexivity.
  rewrite (pushOtherTasks_none now items H2). reflexivity.
Qed.

Lemma handleAPIError_fixed (error : JsError) :
  In (handleAPIError error) userFacingMessages.
Proof.
  unfold handleAPIError, userFacingMessages.
  repeat match goal with
         | |- context [if ?b then _ else _] => destruct b
         end; cbn; auto.
Qed.

Lemma handleAPIError_markers (e : JsError) :
  (Backoff.carriesAny e ["429"; "quota"; "RESOURCE_EXHAUSTED"] = true ->
   handleAPIError e = quotaMessage) /\
  (Backoff.carriesAny e ["429"; "quota"; "RESOURCE_EXHAUSTED"] = false ->
   Backoff.carriesAny e ["503"; "overloaded"] = true ->
   handleAPIError e = busyMessage) /\
  (Backoff.carriesAny e ["429"; "quota"; "RESOURCE_EXHAUSTED"] = false ->
   Backoff.carriesAny e ["503"; "overloaded"] = false ->
   Backoff.carriesAny e ["API key"; "401"] = true ->
   handleAPIError e = apiKeyMessage) /\
  (Backoff.carriesAny e ["429"; "quota"; "RESOURCE_EXHAUSTED"] = false ->
   Backoff.carriesAny e ["503"; "overloaded"] = false ->
   Backoff.carriesAny e ["API key"; "401"] = false ->
   handleAPIError e = unavailableMessage).
Proof.
  unfold handleAPIError, Backoff.carriesAny. cbn [existsb].
  destruct (messageIncludes e "429"), (messageIncludes e "quota"),
    (messageIncludes e "RESOURCE_EXHAUSTED"), (messageIncludes e "503"),
    (messageIncludes e "overloaded"), (messageIncludes e "API key"),
    (messageIncludes e "401");
    cbn [orb]; repeat split; intros; try reflexivity; discriminate.
Qed.

Lemma takesQuotaBranch_markers (e : JsError) :
  takesQuotaBranch e = true ->
  Backoff.carriesAny e ["429"; "quota"; "RESOURCE_EXHAUSTED"] = true.
Proof.
  unfold takesQuotaBranch, mentionsQuota, Backoff.carriesAny. cbn [existsb].
  destruct (messageIncludes e "429"), (messageIncludes e "quota");
    cbn; try reflexivity; discriminate.
Qed.

(** C7 (amended).  [getDailyPlan], called with a goal title and an
    identity, fails when the first response is empty, when its text does
    not parse, and when the parsed response yields no task; and whenever it
    fails, what the caller receives is an error whose message is one of the
    four fixed strings, chosen by the markers that [handleAPIError] looks
    for in the error of the last attempt made, in this order: the quota
    message for 429, quota or RESOURCE_EXHAUSTED; else the service-busy
    message for 503 or overloaded; else the API-key message for API key or
    401; else the generic message. *)
Theorem plan_failures (profile : UserProfile) (goal : Goal)
    (previousDayTasks : string) (previousDayReflection : option string) :
  nonEmpty (title goal) = true -> nonEmpty (identity profile) = true ->
  (forall response,
     generateContent
       (planParameters (planPrompt profile goal previousDayTasks
                                   previousDayReflection)) 1%nat
     = Ok response ->
     isEmptyResponse response = true ->
     getDailyPlan generateContent Date_now String_trim JSON_parse
       (Some profile) (Some goal) previousDayTasks previousDayReflection
     = (Rejected (Some (newError unavailableMessage)), [Request 1])) /\
  (forall t,
     generateContent
       (planParameters (planPrompt profile goal previousDayTasks
                                   previousDayReflection)) 1%nat
     = Ok (Some (mkResponse (Some t))) ->
     nonEmpty t = true ->
     JSON_parse (String_trim t) = None ->
     getDailyPlan generateContent Date_now String_trim JSON_parse
       (Some profile) (Some goal) previousDayTasks previousDayReflection
     = (Rejected (Some (newError unavailableMessage)), [Request 1])) /\
  (forall t planData,
     generateContent
       (planParameters (planPrompt profile goal previousDayTasks
                                   previousDayReflection)) 1%nat
     = Ok (Some (mkResponse (Some t))) ->
     nonEmpty t = true ->
     JSON_parse (String_trim t) = Some planData ->
     yieldsNoTask planData = true ->
     getDailyPlan generateContent Date_now String_trim JSON_parse
       (Some profile) (Some goal) previousDayTasks previousDayReflection
     = (Rejected (Some (newError unavailableMessage)), [Request 1])) /\
  (forall reason,
     fst (getDailyPlan generateContent Date_now String_trim JSON_parse
            (Some profile) (Some goal) previousDayTasks previousDayReflection)
     = Rejected reason ->
     exists a e pre m,
       snd (retryWithBackoff
              (planRequest generateContent Date_now String_trim JSON_parse
                 (planPrompt profile goal previousDayTasks
                             previousDayReflection))
              defaultMaxRetries defaultBaseDelay)
       = (pre ++ [Request a])%list /\
       planRequest generateContent Date_now String_trim JSON_parse
         (planPrompt profile goal previousDayTasks previousDayReflection) a
       = Err e /\
       reason = Some (newError m) /\
       In m userFacingMessages /\
       (Backoff.carriesAny e ["429"; "quota"; "RESOURCE_EXHAUSTED"] = true ->
        m = quotaMessage) /\
       (Backoff.carriesAny e ["429"; "quota"; "RESOURCE_EXHAUSTED"] = false ->
        Backoff.carriesAny e ["503"; "overloaded"] = true ->
        m = busyMessage) /\
       (Backoff.carriesAny e ["429"; "quota"; "RESOURCE_EXHAUSTED"] = false ->
        Backoff.carriesAny e ["503"; "overloaded"] = false ->
        Backoff.carriesAny e ["API key"; "401"] = true ->
        m = apiKeyMessage) /\
       (Backoff.carriesAny e ["429"; "quota"; "RESOURCE_EXHAUSTED"] = false ->
        Backoff.carriesAny e ["503"; "overloaded"] = false ->
        Backoff.carriesAny e ["API key"; "401"] = false ->
        m = unavailableMessage)).
Proof.
  intros Htitle Hidentity.
  assert (Hfatal : forall m,
    m = emptyResponseMessage \/ m = invalidFormatMessage \/ m = noTasksMessage ->
    planRequest generateContent Date_now String_trim JSON_parse
      (planPrompt profile goal previousDayTasks previousDayReflection) 1%nat
    = Err (newError m) ->
    getDailyPlan generateContent Date_now String_trim JSON_parse
      (Some profile) (Some goal) previousDayTasks previousDayReflection
    = (Rejected (Some (newError unavailableMessage)), [Request 1])).
  { intros m Hm Hreq. unfold getDailyPlan. rewrite Htitle, Hidentity.
    cbn [negb]. unfold defaultMaxRetries.
    rewrite (retry_first_fatal _ (newError m) 2 defaultBaseDelay Hreq).
    - destruct Hm as [-> | [-> | ->]]; reflexivity.
    - destruct Hm as [-> | [-> | ->]]; reflexivity.
    - destruct Hm as [-> | [-> | ->]]; reflexivity. }
  split; [|split; [|split]].
  - intros response Hup Hempty.
    apply (Hfatal emptyResponseMessage); [auto|].
    unfold planRequest. rewrite Hup. cbn [bind].
    unfold isEmptyResponse in Hempty. unfold textOfResponse.
    destruct response as [r|]; [|reflexivity].
    destruct (responseText r) as [t|]; [|reflexivity].
    apply negb_true_iff in Hempty. rewrite Hempty. reflexivity.
  - intros t Hup Ht Hparse.
    apply (Hfatal invalidFormatMessage); [auto|].
    unfold planRequest. rewrite Hup. cbn [bind textOfResponse responseText].
    rewrite Ht. cbn [bind]. rewrite Hparse. reflexivity.
  - intros t planData Hup Ht Hparse Hno.
    apply (Hfatal noTasksMessage); [auto|].
    unfold planRequest. rewrite Hup. cbn [bind textOfResponse responseText].
    rewrite Ht. cbn [bind]. rewrite Hparse.
    apply tasksOfPlanData_none. exact Hno.
  - intros reason. unfold getDailyPlan. rewrite Htitle, Hidentity.
    cbn [negb]. unfold retryWithBackoff, defaultMaxRetries.
    destruct (retryLoop _ _ _ _ _ _) as [[v|r] ev] eqn:Hloop;
      cbn [fst snd]; [discriminate|].
    intros Heq. injection Heq as <-.
    destruct (fun H1 H2 => retryLoop_rejected _ _ _ _ _ _ _ _ H1 H2 Hloop)
      as (a & e & pre & Hev & Hfn & [[Hq Hr]|[Hq Hr]]); [lia|lia| |]; subst r.
    + exists a, e, pre, (handleAPIError e).
      split; [exact Hev|]. split; [exact Hfn|]. split; [reflexivity|].
      split; [apply handleAPIError_fixed|]. apply handleAPIError_markers.
    + exists a, e, pre, quotaMessage.
      split; [exact Hev|]. split; [exact Hfn|]. split; [reflexivity|].
      split; [left; reflexivity|].
      pose proof (takesQuotaBranch_markers e Hq) as Hm.
      repeat split; intros; try reflexivity; congruence.
Qed.

End GenerationFacts.

(** The concrete runs below use the sample collaborators. *)

(** C6 on the response of the specification's example. *)
Lemma plan_ordered_witness :
  exists tasks quoteTask,
    fst (getDailyPlan (Samples.answering Samples.runText) Samples.clock
           Samples.trim Samples.parse
           (Some Samples.profile) (Some Samples.goal) EmptyString None)
    = Fulfilled tasks /\
    tasks = orderedPlan (Samples.clock 1%nat) "Run 5k" ["Drink water"] "Keep going" /\
    map text tasks
    = [JsString "Run 5k"; JsString "Drink water"; JsString "Keep going"] /\
    map isGIA tasks = [true; false; false] /\
    nth_error tasks 2 = Some quoteTask /\
    length tasks = 3%nat /\
    endsWith (id quoteTask) "quote" = true.
Proof.
  apply (plan_ordered (Samples.answering Samples.runText) Samples.clock
           Samples.trim Samples.parse Samples.profile Samples.goal
           EmptyString None Samples.runText
           "Run 5k" "builds momentum" "Keep going" ["Drink water"]);
    try reflexivity.
  repeat constructor.
Defined.

(** C6 as stated fails: a response of the stated shape whose GIA task is
    the empty string is fulfilled with a list that starts with the
    supporting task; no task is flagged. *)
Lemma plan_blank_gia_skipped :
  Samples.parse (Samples.trim Samples.blankGiaText)
  = Some (planDataOf EmptyString "builds momentum" ["Drink water"] "Keep going") /\
  getDailyPlan (Samples.answering Samples.blankGiaText) Samples.clock
    Samples.trim Samples.parse
    (Some Samples.profile) (Some Samples.goal) EmptyString None
  = (Fulfilled
       [mkTask "task_1700000000000_0" (JsString "Drink water") false false;
        mkTask "task_1700000000001_quote" (JsString "Keep going") false false],
     [Request 1]).
Proof. split; vm_compute; reflexivity. Qed.

(** C7 on an empty text, a text that is no JSON, a JSON object without
    tasks, and an upstream failure about the API key. *)
Lemma plan_failures_witness :
  getDailyPlan (Samples.answering EmptyString) Samples.clock
    Samples.trim Samples.parse
    (Some Samples.profile) (Some Samples.goal) EmptyString None
  = (Rejected (Some (newError unavailableMessage)), [Request 1]) /\
  getDailyPlan (Samples.answering "Sorry, no plan today") Samples.clock
    Samples.trim Samples.parse
    (Some Samples.profile) (Some Samples.goal) EmptyString None
  = (Rejected (Some (newError unavailableMessage)), [Request 1]) /\
  getDailyPlan (Samples.answering "{}") Samples.clock
    Samples.trim Samples.parse
    (Some Samples.profile) (Some Samples.goal) EmptyString None
  = (Rejected (Some (newError unavailableMessage)), [Request 1]) /\
  exists a e pre m,
    snd (retryWithBackoff
           (planRequest (Samples.failing "API key not valid") Samples.clock
              Samples.trim Samples.parse
              (planPrompt Samples.profile Samples.goal EmptyString None))
           defaultMaxRetries defaultBaseDelay)
    = (pre ++ [Request a])%list /\
    planRequest (Samples.failing "API key not valid") Samples.clock
      Samples.trim Samples.parse
      (planPrompt Samples.profile Samples.goal EmptyString None) a
    = Err e /\
    Some (newError apiKeyMessage) = Some (newError m) /\
    In m userFacingMessages /\
    (Backoff.carriesAny e ["429"; "quota"; "RESOURCE_EXHAUSTED"] = true ->
     m = quotaMessage) /\
    (Backoff.carriesAny e ["429"; "quota"; "RESOURCE_EXHAUSTED"] = false ->
     Backoff.carriesAny e ["503"; "overloaded"] = true ->
     m = busyMessage) /\
    (Backoff.carriesAny e ["429"; "quota"; "RESOURCE_EXHAUSTED"] = false ->
     Backoff.carriesAny e ["503"; "overloaded"] = false ->
     Backoff.carriesAny e ["API key"; "401"] = true ->
     m = apiKeyMessage) /\
    (Backoff.carriesAny e ["429"; "quota"; "RESOURCE_EXHAUSTED"] = false ->
     Backoff.carriesAny e ["503"; "overloaded"] = false ->
     Backoff.carriesAny e ["API key"; "401"] = false ->
     m = unavailableMessage).
Proof.
  split; [|split; [|split]].
  - apply (proj1 (plan_failures (Samples.answering EmptyString) Samples.clock
                    Samples.trim Samples.parse Samples.profile Samples.goal
                    EmptyString None eq_refl eq_refl)
                 (Some (mkResponse (Some EmptyString))));
      reflexivity.
  - apply (proj1 (proj2 (plan_failures (Samples.answering "Sorry, no plan today")
                    Samples.clock Samples.trim Samples.parse
                    Samples.profile Samples.goal
                    EmptyString None eq_refl eq_refl))
                 "Sorry, no plan today");
      reflexivity.
  - apply (proj1 (proj2 (proj2 (plan_failures (Samples.answering "{}")
                    Samples.clock Samples.trim Samples.parse
                    Samples.profile Samples.goal
                    EmptyString None eq_refl eq_refl)))
                 "{}" (JsObject []));
      reflexivity.
  - apply (proj2 (proj2 (proj2 (plan_failures (Samples.failing "API key not valid")
                    Samples.clock Samples.trim Samples.parse
                    Samples.profile Samples.goal
                    EmptyString None eq_refl eq_refl)))
                 (Some (newError apiKeyMessage))).
    reflexivity.
Defined.

(** C7 as stated fails: the message is not determined by the category of
    the error.  An error marked UNAVAILABLE only is retried as a
    service-unavailable one, and an error marked free_tier_requests only
    carries a quota marker, yet both reach the caller with the generic
    message, not with the service-busy or the quota one. *)
Lemma plan_category_not_surfaced :
  isRetryable (newError "UNAVAILABLE") = true /\
  fst (getDailyPlan (Samples.failing "UNAVAILABLE") Samples.clock
         Samples.trim Samples.parse
         (Some Samples.profile) (Some Samples.goal) EmptyString None)
  = Rejected (Some (newError unavailableMessage)) /\
  requests (snd (getDailyPlan (Samples.failing "UNAVAILABLE") Samples.clock
                   Samples.trim Samples.parse
                   (Some Samples.profile) (Some Samples.goal) EmptyString None))
  = [1; 2; 3]%nat /\
  unavailableMessage <> busyMessage /\
  isQuotaError (newError "free_tier_requests") = true /\
  getDailyPlan (Samples.failing "free_tier_requests") Samples.clock
    Samples.trim Samples.parse
    (Some Samples.profile) (Some Samples.goal) EmptyString None
  = (Rejected (Some (newError unavailableMessage)), [Request 1]) /\
  unavailableMessage <> quotaMessage.
Proof.
  repeat split; try reflexivity; discriminate.
Qed.

(** C8 on a goal with an empty title. *)
Lemma plan_validation_witness :
  exists m,
    (m = goalRequiredMessage \/ m = identityRequiredMessage) /\
    forall upstream,
      getDailyPlan upstream Samples.clock Samples.trim Samples.parse
        (Some Samples.profile) (Some (mkGoal "g1" EmptyString)) EmptyString None
      = (Rejected (Some (newError m)), []).
Proof.
  apply (plan_validation Samples.clock Samples.trim Samples.parse
           (Some Samples.profile) (Some (mkGoal "g1" EmptyString))
           EmptyString None).
  right. left. exists (mkGoal "g1" EmptyString). split; reflexivity.
Defined.

(** C9 on the response of the specification's example. *)
Lemma plan_single_gia_witness :
  (length (filter isGIA
             (orderedPlan (Samples.clock 1%nat) "Run 5k" ["Drink water"]
                          "Keep going")) <= 1)%nat /\
  forall i t,
    nth_error (orderedPlan (Samples.clock 1%nat) "Run 5k" ["Drink water"]
                           "Keep going") i = Some t ->
    isGIA t = true -> i = 0%nat.
Proof.
  apply (plan_single_gia (Samples.answering Samples.runText) Samples.clock
           Samples.trim Samples.parse
           (Some Samples.profile) (Some Samples.goal) EmptyString None
           (orderedPlan (Samples.clock 1%nat) "Run 5k" ["Drink water"] "Keep going")
           [Request 1]).
  vm_compute. reflexivity.
Defined.

(** *** The reflection response *)

Lemma randomIndex_fallback (Math_random : Q) :
  (0 <= Math_random)%Q -> (Math_random < 1)%Q ->
  exists fallback,
    at_ fallbackResponses (randomIndex Math_random) = Some fallback /\
    In fallback fallbackResponses.
Proof.
  intros H0 H1. unfold randomIndex.
  change (inject_Z (Z.of_nat (length fallbackResponses))) with 5%Q.
  assert (Hlo : (0 <= Qfloor (Math_random * 5))%Z).
  { change 0%Z with (Qfloor 0).
    apply Qfloor_resp_le. apply Qmult_le_0_compat; [exact H0|discriminate]. }
  assert (Hhi : (Qfloor (Math_random * 5) < 5)%Z).
  { rewrite Zlt_Qlt.
    apply Qle_lt_trans with (y := (Math_random * 5)%Q); [apply Qfloor_le|].
    change (inject_Z 5) with (1 * 5)%Q.
    apply Qmult_lt_compat_r; [reflexivity|exact H1]. }
  assert (Hcases : Qfloor (Math_random * 5) = 0%Z \/ Qfloor (Math_random * 5) = 1%Z \/
                   Qfloor (Math_random * 5) = 2%Z \/ Qfloor (Math_random * 5) = 3%Z \/
                   Qfloor (Math_random * 5) = 4%Z) by lia.
  destruct Hcases as [-> | [-> | [-> | [-> | ->]]]];
    (eexists; split; [reflexivity|cbn; tauto]).
Qed.

Lemma quota_branch_is_quota_failure (e : JsError) :
  takesQuotaBranch e = true -> isQuotaFailure e = true.
Proof.
  unfold takesQuotaBranch, mentionsQuota, isQuotaFailure.
  intros H. apply andb_prop in H. destruct H as [H _].
  rewrite orb_comm. exact H.
Qed.

(** C5 (amended).  [getReflectionResponse] is always fulfilled with a
    string; and when the wrapped request has failed, so that
    [retryWithBackoff] rejects, the string is one of the five fixed
    responses, followed by the quota note if and only if the message of the
    failure of the last attempt contains "quota" or "429". *)
Theorem reflection_never_rejects
    (generateContent :
       GenerateContentParameters -> nat -> Result (option GenerateContentResponse))
    (String_trim : string -> string) (Math_random : Q)
    (ToString : JsValue -> string)
    (profile : UserProfile) (goal : Goal) (dailyPlan : DailyPlan)
    (reflectionText : string) :
  (0 <= Math_random)%Q -> (Math_random < 1)%Q ->
  exists s,
    fst (getReflectionResponse generateContent String_trim Math_random ToString
           profile goal dailyPlan reflectionText)
    = Fulfilled (JsString s) /\
    forall reason events,
      retryWithBackoff
        (reflectionRequest generateContent String_trim
           (reflectionPrompt ToString profile goal dailyPlan reflectionText))
        defaultMaxRetries defaultBaseDelay
      = (Rejected reason, events) ->
      exists attempt failure fallback pre,
        events = (pre ++ [Request attempt])%list /\
        reflectionRequest generateContent String_trim
          (reflectionPrompt ToString profile goal dailyPlan reflectionText)
          attempt
        = Err failure /\
        In fallback fallbackResponses /\
        s = if isQuotaFailure failure then fallback ++ quotaSuffix else fallback.
Proof.
  intros H0 H1.
  destruct (randomIndex_fallback Math_random H0 H1) as (fallback & Hat & Hin).
  unfold getReflectionResponse.
  destruct (retryWithBackoff _ _ _) as [[t|r] ev] eqn:Hrun.
  - exists t. split; [reflexivity|]. intros reason events Heq. discriminate.
  - unfold retryWithBackoff, defaultMaxRetries in Hrun.
    destruct (fun Ha Hb => retryLoop_rejected _ _ _ _ _ _ _ _ Ha Hb Hrun)
      as (a & e & pre & Hev & Hfa & Hor); [lia|lia|].
    exists (if isQuotaFailure e then fallback ++ quotaSuffix else fallback).
    split.
    + unfold reflectionHandler. rewrite Hat. cbn [fst].
      destruct Hor as [[_ ->]|[Hq ->]].
      * destruct (isQuotaFailure e); reflexivity.
      * rewrite (quota_branch_is_quota_failure e Hq). reflexivity.
    + intros reason events Heq. injection Heq as <- <-.
      exists a, e, fallback, pre. auto.
Qed.

(** C5 on an upstream service that is out of quota, with the random draw
    at zero. *)
Lemma reflection_never_rejects_witness :
  exists s,
    fst (getReflectionResponse (Samples.failing "429 quota exceeded")
           Samples.trim 0%Q Samples.render
           Samples.profile Samples.goal Samples.plan "A good day")
    = Fulfilled (JsString s) /\
    forall reason events,
      retryWithBackoff
        (reflectionRequest (Samples.failing "429 quota exceeded") Samples.trim
           (reflectionPrompt Samples.render Samples.profile Samples.goal
                             Samples.plan "A good day"))
        defaultMaxRetries defaultBaseDelay
      = (Rejected reason, events) ->
      exists attempt failure fallback pre,
        events = (pre ++ [Request attempt])%list /\
        reflectionRequest (Samples.failing "429 quota exceeded") Samples.trim
          (reflectionPrompt Samples.render Samples.profile Samples.goal
                            Samples.plan "A good day")
          attempt
        = Err failure /\
        In fallback fallbackResponses /\
        s = if isQuotaFailure failure then fallback ++ quotaSuffix else fallback.
Proof.
  apply (reflection_never_rejects (Samples.failing "429 quota exceeded")
           Samples.trim 0%Q Samples.render
           Samples.profile Samples.goal Samples.plan "A good day").
  - discriminate.
  - reflexivity.
Defined.

(** C5 as stated fails: a failure whose message carries the marker
    "RESOURCE_EXHAUSTED", and neither "quota" nor "429", is answered with
    the plain fallback, without the quota note. *)
Lemma reflection_resource_exhausted_unmarked :
  messageIncludes (newError "RESOURCE_EXHAUSTED") "RESOURCE_EXHAUSTED" = true /\
  getReflectionResponse (Samples.failing "RESOURCE_EXHAUSTED")
    Samples.trim 0%Q Samples.render
    Samples.profile Samples.goal Samples.plan "A good day"
  = (Fulfilled (JsString (nth 0 fallbackResponses EmptyString)), [Request 1]) /\
  includes (nth 0 fallbackResponses EmptyString) "Free tier quota limit reached"
  = false.
Proof. repeat split; vm_compute; reflexivity. Qed.

End GeminiFacts.

(** ** The user-data reader *)

Module FirestoreFacts.
Import Firestore.

(** C10.  [getUserData] never throws on what the database answers, and its
    result carries the default profile when no profile is stored under the
    user and the default goal when no goal is stored. *)
Theorem getUserData_defaults (db : Database) (userId : string) :
  exists userData,
    getUserData db userId = Ok userData /\
    (missing (db ("users/" ++ userId)) "profile" = true ->
     profile userData = defaultProfile) /\
    (missing (db ("users/" ++ userId)) "goal" = true ->
     goal userData = defaultGoal).
Proof.
  unfold getUserData, missing.
  destruct (db ("users/" ++ userId)) as [| |b|q|str|items|fields];
    cbn [truthy getProp getPropOpt bind];
    try (eexists; split; [reflexivity|split; reflexivity]).
  - destruct b; eexists; (split; [reflexivity|split; reflexivity]).
  - destruct (negb (Qeq_bool q 0)); eexists;
      (split; [reflexivity|split; reflexivity]).
  - destruct (negb (String.eqb str EmptyString)); eexists;
      (split; [reflexivity|split; reflexivity]).
  - destruct (lookup fields "profile") as [| |b|q|str|items|fields'] eqn:Hp;
      destruct (lookup fields "goal") as [| |b'|q'|str'|items'|fields''] eqn:Hg;
      repeat (cbn [bind truthy jsOr];
              match goal with
              | |- context [if ?c then _ else _] => destruct c eqn:?
              end);
      cbn [bind truthy jsOr]; eexists;
      (split; [reflexivity|]); cbn [profile goal];
      (split; intros Hm; (reflexivity || discriminate)).
Qed.

(** C10 on a user with nothing stored, and on one with only a goal. *)
Lemma getUserData_defaults_witness :
  getUserData (fun _ => JsNull) "u1"
  = Ok (mkUserData defaultProfile defaultGoal) /\
  exists userData,
    getUserData
      (fun _ => JsObject [("goal", JsObject [("title", JsString "Run a marathon")])])
      "u1"
    = Ok userData /\
    profile userData = defaultProfile.
Proof.
  split; [reflexivity|].
  destruct (getUserData_defaults
              (fun _ => JsObject [("goal", JsObject [("title", JsString "Run a marathon")])])
              "u1") as (userData & Hok & Hprofile & _).
  exists userData. split; [exact Hok|]. apply Hprofile. reflexivity.
Defined.

End FirestoreFacts.

(* ================================================================== *)
(** * Further properties of the code *)
(* ================================================================== *)

(** ** Retry with backoff: the shape of every run *)

Module RetryCoverage.
Import Retry Backoff.
Local Open Scope Q_scope.

Section LoopShape.
Context {T : Type}.
Variable fn : nat -> Result T.
Variable maxRetries : nat.
Variable baseDelay : Q.

(** The log of a run: consecutive attempts, no more than are left, with
    the wait of the catch block between any two of them and nothing after
    the last. *)
Lemma retryLoop_schedule :
  forall remaining attempt lastError,
    (remaining + attempt = S maxRetries)%nat ->
    exists n,
      (n <= remaining)%nat /\ ((1 <= remaining)%nat -> (1 <= n)%nat) /\
      snd (retryLoop fn maxRetries baseDelay remaining attempt lastError)
      = schedule (waitAfter fn baseDelay) n attempt.
Proof.
  induction remaining as [|r IH]; intros attempt lastError Hsum.
  - exists 0%nat. cbn. repeat split; lia.
  - cbn [retryLoop].
    assert (Hone : exists n,
               (n <= S r)%nat /\ ((1 <= S r)%nat -> (1 <= n)%nat) /\
               [Request attempt] = schedule (waitAfter fn baseDelay) n attempt)
      by (exists 1%nat; cbn; repeat split; lia).
    assert (Hmore : forall e,
              fn attempt = Err e ->
              Nat.eqb attempt maxRetries = false ->
              exists n,
                (n <= S r)%nat /\ ((1 <= S r)%nat -> (1 <= n)%nat) /\
                snd (let '(outcome, events) :=
                       retryLoop fn maxRetries baseDelay r (S attempt) (Some e)
                     in (outcome,
                         Request attempt
                           :: Delay (waitAfter fn baseDelay attempt) :: events))
                = schedule (waitAfter fn baseDelay) n attempt).
    { intros e Hfn Hne. apply Nat.eqb_neq in Hne.
      destruct (IH (S attempt) (Some e) ltac:(lia)) as (n & Hle & Hpos & Hlog).
      destruct (retryLoop fn maxRetries baseDelay r (S attempt) (Some e))
        as [outcome events].
      cbn [snd] in *. exists (S n). specialize (Hpos ltac:(lia)).
      split; [lia|]. split; [lia|].
      destruct n as [|n']; [lia|].
      rewrite Hlog. reflexivity. }
    destruct (fn attempt) as [v|e] eqn:Hfn; [exact Hone|].
    assert (Hwait : waitAfter fn baseDelay attempt
                    = if mentionsQuota e && isQuotaError e
                      then quotaDelay baseDelay attempt
                      else retryDelay baseDelay attempt)
      by (unfold waitAfter, takesQuotaBranch; rewrite Hfn; reflexivity).
    destruct (mentionsQuota e && isQuotaError e).
    + destruct (Nat.eqb attempt maxRetries) eqn:Hlast; [exact Hone|].
      rewrite <- Hwait. apply Hmore; reflexivity.
    + destruct (Nat.eqb attempt maxRetries) eqn:Hlast.
      * rewrite orb_true_r. exact Hone.
      * rewrite orb_false_r. destruct (negb (isRetryable e)); [exact Hone|].
        rewrite <- Hwait. apply Hmore; reflexivity.
Qed.

(** A run is fulfilled with the result of an attempt that follows retried
    failures only. *)
Lemma retryLoop_fulfilled_after (v : T) :
  forall remaining attempt lastError events,
    (remaining + attempt = S maxRetries)%nat ->
    retryLoop fn maxRetries baseDelay remaining attempt lastError
    = (Fulfilled v, events) ->
    exists k,
      (attempt <= k <= maxRetries)%nat /\ fn k = Ok v /\
      forall j, (attempt <= j < k)%nat ->
                exists e, fn j = Err e /\ isRetried e = true.
Proof.
  induction remaining as [|r IH]; intros attempt lastError events Hsum;
    [discriminate|].
  cbn [retryLoop].
  destruct (fn attempt) as [v'|e] eqn:Hfn.
  - intros Heq. exists attempt. split; [lia|]. split; [congruence|].
    intros j Hj. lia.
  - assert (Hrec : forall d,
              isRetried e = true -> attempt <> maxRetries ->
              (let '(outcome, events') :=
                 retryLoop fn maxRetries baseDelay r (S attempt) (Some e)
               in (outcome, Request attempt :: Delay d :: events'))
              = (Fulfilled v, events) ->
              exists k,
                (attempt <= k <= maxRetries)%nat /\ fn k = Ok v /\
                forall j, (attempt <= j < k)%nat ->
                          exists e', fn j = Err e' /\ isRetried e' = true).
    { intros d Hret Hne.
      specialize (IH (S attempt) (Some e)).
      destruct (retryLoop fn maxRetries baseDelay r (S attempt) (Some e))
        as [outcome events'].
      intros Heq.
      destruct (IH events' ltac:(lia) ltac:(congruence)) as (k & Hk & Hok & Hbefore).
      exists k. split; [lia|]. split; [exact Hok|].
      intros j Hj. destruct (Nat.eq_dec j attempt) as [->|Hneq].
      - exists e. auto.
      - apply Hbefore. lia. }
    unfold isRetried, takesQuotaBranch in Hrec.
    destruct (mentionsQuota e && isQuotaError e).
    + destruct (Nat.eqb attempt maxRetries) eqn:Hlast; [discriminate|].
      apply Nat.eqb_neq in Hlast. apply Hrec; [reflexivity|exact Hlast].
    + destruct (Nat.eqb attempt maxRetries) eqn:Hlast.
      * rewrite orb_true_r. discriminate.
      * rewrite orb_false_r. apply Nat.eqb_neq in Hlast.
        destruct (isRetryable e); cbn [negb]; [|discriminate].
        apply Hrec; [reflexivity|exact Hlast].
Qed.

Lemma retryLoop_fulfilled_when (v : T) (k : nat) :
  fn k = Ok v -> (k <= maxRetries)%nat ->
  forall remaining attempt lastError,
    (remaining + attempt = S maxRetries)%nat -> (attempt <= k)%nat ->
    (forall j, (attempt <= j < k)%nat ->
               exists e, fn j = Err e /\ isRetried e = true) ->
    fst (retryLoop fn maxRetries baseDelay remaining attempt lastError)
    = Fulfilled v.
Proof.
  intros Hok Hk.
  induction remaining as [|r IH]; intros attempt lastError Hsum Hle Hbefore;
    [lia|].
  cbn [retryLoop].
  destruct (Nat.eq_dec attempt k) as [->|Hne].
  - rewrite Hok. reflexivity.
  - destruct (Hbefore attempt ltac:(lia)) as (e & He & Hret).
    rewrite He.
    assert (Hlast : Nat.eqb attempt maxRetries = false)
      by (apply Nat.eqb_neq; lia).
    rewrite Hlast.
    assert (Hrec : forall d,
              fst (let '(outcome, events) :=
                     retryLoop fn maxRetries baseDelay r (S attempt) (Some e)
                   in (outcome, Request attempt :: Delay d :: events))
              = Fulfilled v).
    { intros d. specialize (IH (S attempt) (Some e) ltac:(lia) ltac:(lia)).
      destruct (retryLoop fn maxRetries baseDelay r (S attempt) (Some e))
        as [outcome events].
      cbn [fst] in *. apply IH. intros j Hj. apply Hbefore. lia. }
    unfold isRetried, takesQuotaBranch in Hret.
    destruct (mentionsQuota e && isQuotaError e); [apply Hrec|].
    cbn [orb] in Hret. rewrite Hret. cbn [negb orb]. apply Hrec.
Qed.

(** An error that carries no marker ends the run at the attempt that
    raised it. *)
Lemma retryLoop_fatal (a : nat) (e : JsError) :
  fn a = Err e -> isRetried e = false ->
  forall remaining attempt lastError,
    In (Request a)
       (snd (retryLoop fn maxRetries baseDelay remaining attempt lastError)) ->
    fst (retryLoop fn maxRetries baseDelay remaining attempt lastError)
    = Rejected (Some e) /\
    exists pre,
      snd (retryLoop fn maxRetries baseDelay remaining attempt lastError)
      = (pre ++ [Request a])%list.
Proof.
  intros Hfa Hret. unfold isRetried, takesQuotaBranch in Hret.
  apply orb_false_elim in Hret. destruct Hret as [Hq Hr].
  induction remaining as [|r IH]; intros attempt lastError Hin;
    [contradiction|].
  destruct (Nat.eq_dec attempt a) as [->|Hne].
  - cbn [retryLoop]. rewrite Hfa, Hq, Hr. cbn [negb orb fst snd].
    split; [reflexivity|]. exists []. reflexivity.
  - revert Hin. cbn [retryLoop].
    destruct (fn attempt) as [v|e'].
    + cbn. intros [Heq|[]]. congruence.
    + assert (Hrec : forall d,
                In (Request a)
                   (snd (let '(outcome, events) :=
                           retryLoop fn maxRetries baseDelay r (S attempt) (Some e')
                         in (outcome, Request attempt :: Delay d :: events))) ->
                fst (let '(outcome, events) :=
                       retryLoop fn maxRetries baseDelay r (S attempt) (Some e')
                     in (outcome, Request attempt :: Delay d :: events))
                = Rejected (Some e) /\
                exists pre,
                  snd (let '(outcome, events) :=
                         retryLoop fn maxRetries baseDelay r (S attempt) (Some e')
                       in (outcome, Request attempt :: Delay d :: events))
                  = (pre ++ [Request a])%list).
      { intros d. specialize (IH (S attempt) (Some e')).
        destruct (retryLoop fn maxRetries baseDelay r (S attempt) (Some e'))
          as [outcome events].
        cbn [fst snd] in *. intros [Heq|[Heq|Hin]]; try congruence.
        destruct (IH Hin) as [Hout [pre Hev]]. split; [exact Hout|].
        exists (Request attempt :: Delay d :: pre). rewrite Hev. reflexivity. }
      destruct (mentionsQuota e' && isQuotaError e').
      * destruct (Nat.eqb attempt maxRetries); [|apply Hrec].
        cbn. intros [Heq|[]]. congruence.
      * destruct (negb (isRetryable e') || Nat.eqb attempt maxRetries);
          [|apply Hrec].
        cbn. intros [Heq|[]]. congruence.
Qed.

End LoopShape.

(** X1.  Whatever the operation does, the log of [retryWithBackoff] is
    Request 1, Delay, Request 2, ..., Request n for some n that is at most
    [maxRetries] (and at least 1 when [maxRetries] is): the attempts
    1, 2, ..., n in order, exactly one wait between each two consecutive
    attempts and none after the last, each wait being the one the catch
    block computes for the failed attempt before it. *)
Theorem retry_attempts_bounded {T : Type} (fn : nat -> Result T)
    (maxRetries : nat) (baseDelay : Q) :
  exists n,
    (n <= maxRetries)%nat /\ ((1 <= maxRetries)%nat -> (1 <= n)%nat) /\
    snd (retryWithBackoff fn maxRetries baseDelay)
    = schedule (waitAfter fn baseDelay) n 1 /\
    requests (snd (retryWithBackoff fn maxRetries baseDelay)) = seq 1 n /\
    length (delays (snd (retryWithBackoff fn maxRetries baseDelay)))
    = (n - 1)%nat.
Proof.
  unfold retryWithBackoff.
  destruct (retryLoop_schedule fn maxRetries baseDelay maxRetries 1%nat None)
    as (n & Hle & Hpos & Hlog); [lia|].
  exists n. rewrite Hlog. repeat split; try assumption.
  - apply RetryFacts.requests_schedule.
  - rewrite RetryFacts.delays_schedule, length_map, length_seq. reflexivity.
Qed.

(** X2.  [retryWithBackoff] is fulfilled with [v] exactly when some attempt
    k, at most [maxRetries], returns [v] and every attempt before k fails
    with an error that is retried: one the quota branch catches, or one
    with a 503, overloaded or UNAVAILABLE marker. *)
Theorem retry_fulfilled_iff {T : Type} (fn : nat -> Result T)
    (maxRetries : nat) (baseDelay : Q) (v : T) :
  fst (retryWithBackoff fn maxRetries baseDelay) = Fulfilled v <->
  exists k,
    (1 <= k <= maxRetries)%nat /\ fn k = Ok v /\
    forall j, (1 <= j < k)%nat -> exists e, fn j = Err e /\ isRetried e = true.
Proof.
  unfold retryWithBackoff. split.
  - intros Hf.
    destruct (retryLoop fn maxRetries baseDelay maxRetries 1 None)
      as [outcome events] eqn:Hrun.
    cbn [fst] in Hf. subst outcome.
    apply (retryLoop_fulfilled_after fn maxRetries baseDelay v
             maxRetries 1%nat None events); [lia|exact Hrun].
  - intros (k & Hk & Hok & Hbefore).
    apply (retryLoop_fulfilled_when fn maxRetries baseDelay v k Hok);
      try lia. exact Hbefore.
Qed.

(** An operation that is unavailable twice and then answers. *)
Lemma retry_fulfilled_iff_witness :
  fst (retryWithBackoff
         (fun attempt : nat =>
            if Nat.leb attempt 2 then Err (newError "503 UNAVAILABLE")
            else Ok "answer")
         defaultMaxRetries defaultBaseDelay)
  = Fulfilled "answer".
Proof.
  apply (proj2 (retry_fulfilled_iff
                  (fun attempt : nat =>
                     if Nat.leb attempt 2 then Err (newError "503 UNAVAILABLE")
                     else Ok "answer")
                  defaultMaxRetries defaultBaseDelay "answer")).
  exists 3%nat. split; [unfold defaultMaxRetries; lia|]. split; [reflexivity|].
  intros j Hj. exists (newError "503 UNAVAILABLE").
  assert (Hcases : j = 1%nat \/ j = 2%nat) by lia.
  destruct Hcases as [-> | ->]; split; reflexivity.
Defined.

(** X3.  An error whose message carries none of the markers (neither a
    quota error the quota branch catches, nor 503, overloaded or
    UNAVAILABLE) is never retried: the run rejects with that very error,
    and the attempt that raised it is the last thing the run does. *)
Theorem retry_fatal_not_retried {T : Type} (fn : nat -> Result T)
    (maxRetries : nat) (baseDelay : Q) (a : nat) (e : JsError) :
  In (Request a) (snd (retryWithBackoff fn maxRetries baseDelay)) ->
  fn a = Err e -> isRetried e = false ->
  fst (retryWithBackoff fn maxRetries baseDelay) = Rejected (Some e) /\
  exists pre,
    snd (retryWithBackoff fn maxRetries baseDelay) = (pre ++ [Request a])%list.
Proof.
  intros Hin Hfa Hret. unfold retryWithBackoff in *.
  apply (retryLoop_fatal fn maxRetries baseDelay a e Hfa Hret); exact Hin.
Qed.

(** An operation that is overloaded once and then refused for its key. *)
Lemma retry_fatal_not_retried_witness :
  fst (retryWithBackoff
         (fun attempt : nat =>
            if Nat.eqb attempt 1 then @Err unit (newError "503 overloaded")
            else Err (newError "API key not valid"))
         defaultMaxRetries defaultBaseDelay)
  = Rejected (Some (newError "API key not valid")) /\
  exists pre,
    snd (retryWithBackoff
           (fun attempt : nat =>
              if Nat.eqb attempt 1 then @Err unit (newError "503 overloaded")
              else Err (newError "API key not valid"))
           defaultMaxRetries defaultBaseDelay)
    = (pre ++ [Request 2])%list.
Proof.
  apply (retry_fatal_not_retried
           (fun attempt : nat =>
              if Nat.eqb attempt 1 then @Err unit (newError "503 overloaded")
              else Err (newError "API key not valid"))
           defaultMaxRetries defaultBaseDelay 2%nat
           (newError "API key not valid")).
  - vm_compute. tauto.
  - reflexivity.
  - reflexivity.
Defined.

(** X4.  Under the default policy (3 attempts, base delay 6000 ms) a run
    makes at most three requests and spends at most 36000 ms in backoff
    waits, whatever the operation does. *)
Theorem retry_default_backoff_bound {T : Type} (fn : nat -> Result T) :
  (length (requests (snd (retryWithBackoff fn defaultMaxRetries defaultBaseDelay)))
   <= 3)%nat /\
  totalDelay (snd (retryWithBackoff fn defaultMaxRetries defaultBaseDelay))
  <= 36000.
Proof.
  unfold retryWithBackoff, defaultMaxRetries. cbn [retryLoop].
  destruct (fn 1%nat) as [v1|e1]; [split; [cbn; lia|discriminate]|].
  destruct (fn 2%nat) as [v2|e2]; destruct (fn 3%nat) as [v3|e3];
    repeat match goal with
           | |- context [mentionsQuota ?e && isQuotaError ?e] =>
             destruct (mentionsQuota e && isQuotaError e)
           | |- context [isRetryable ?e] => destruct (isRetryable e)
           end;
    cbn [Nat.eqb negb orb]; (split; [cbn; lia|vm_compute; discriminate]).
Qed.

End RetryCoverage.

(** ** The request queue and the rate limiter: the counter and the wait *)

Module GovernorCoverage.
Import Governor Window GovernorFacts.
Local Open Scope Z_scope.

(** [Counted] reads the counter, the timers, the clock and the dispatch
    times only. *)
Lemma Counted_same (st st' : State) :
  requestCount st' = requestCount st ->
  windowTimers st' = windowTimers st ->
  clock st' = clock st ->
  dispatchTimes (trace st') = dispatchTimes (trace st) ->
  Counted st -> Counted st'.
Proof.
  intros Hc Hw Hk Ht (Hcount & fired & Hmap & Hdue).
  unfold Counted. rewrite Hc, Hw, Hk, Ht. split; [exact Hcount|].
  exists fired. split; assumption.
Qed.

Lemma Counted_dispatch (id : nat) (st : State) :
  Counted st -> Counted (dispatch id st).
Proof.
  intros (Hcount & fired & Hmap & Hdue).
  unfold Counted, dispatch. fields. split.
  - rewrite length_app, Hcount. cbn [length]. lia.
  - exists fired. rewrite dispatchTimes_app, map_app, Hmap. fields.
    cbn [map]. rewrite <- app_assoc. split; [reflexivity|exact Hdue].
Qed.

Lemma Counted_beginClosure (id : nat) (st : State) :
  Counted st -> Counted (beginClosure id st).
Proof.
  intros H. unfold beginClosure.
  destruct (clock st - lastRequestTime st <? MIN_REQUEST_INTERVAL).
  - apply (Counted_same st); auto.
  - apply Counted_dispatch. exact H.
Qed.

Lemma Counted_whileLoop (st : State) : Counted st -> Counted (whileLoop st).
Proof.
  intros H. unfold whileLoop. destruct (requestQueue st) as [|id rest].
  - apply (Counted_same st); auto.
  - apply Counted_beginClosure. apply (Counted_same st); auto.
Qed.

Lemma Counted_step (st st' : State) (l : Label) :
  Counted st -> step st l = Some st' -> Counted st'.
Proof.
  intros H Hstep. destruct l as [id|dt| |outcome| |]; cbn [step] in Hstep.
  - injection Hstep as <-. unfold rateLimitedRequest, processQueue. fields.
    assert (Hpushed : Counted
              (mkState (clock st) (lastRequestTime st) (requestCount st)
                       (requestQueue st ++ [id]) (isProcessingQueue st) (drain st)
                       (windowTimers st) (trace st ++ [Submitted id]))).
    { apply (Counted_same st); auto. fields.
      rewrite dispatchTimes_app. apply app_nil_r. }
    destruct (isProcessingQueue st || _); [exact Hpushed|].
    apply Counted_whileLoop. revert Hpushed. apply Counted_same; auto.
  - destruct (0 <=? dt) eqn:Hdt; [|discriminate]. injection Hstep as <-.
    apply Z.leb_le in Hdt.
    destruct H as (Hcount & fired & Hmap & Hdue).
    unfold Counted. fields. split; [exact Hcount|].
    exists fired. split; [exact Hmap|].
    eapply Forall_impl; [|exact Hdue]. cbn. intros due Hle. lia.
  - destruct (drain st) as [|id due| |]; try discriminate.
    destruct (due <=? clock st); [|discriminate]. injection Hstep as <-.
    apply Counted_dispatch. exact H.
  - destruct (drain st) as [| |id|]; try discriminate. injection Hstep as <-.
    revert H. apply Counted_same; auto. fields.
    rewrite dispatchTimes_app. apply app_nil_r.
  - destruct (drain st); try discriminate. injection Hstep as <-.
    apply Counted_whileLoop. exact H.
  - destruct H as (Hcount & fired & Hmap & Hdue).
    destruct (windowTimers st) as [|due rest] eqn:Hw; [discriminate|].
    destruct (due <=? clock st) eqn:Hle; [|discriminate].
    apply Z.leb_le in Hle. injection Hstep as <-.
    unfold Counted. fields. split.
    + rewrite Hcount. cbn [length]. lia.
    + exists (fired ++ [due])%list. rewrite Hmap, <- app_assoc.
      split; [reflexivity|]. apply Forall_app. split; [exact Hdue|].
      constructor; [exact Hle|constructor].
Qed.

Lemma Counted_run (labels : list Label) :
  forall st st', Counted st -> run st labels = Some st' -> Counted st'.
Proof.
  induction labels as [|l labels IH]; intros st st' H Hrun.
  - injection Hrun as <-. exact H.
  - cbn [run] in Hrun. destruct (step st l) as [st1|] eqn:Hstep; [|discriminate].
    apply (IH st1 st'); [|exact Hrun]. apply (Counted_step st st1 l); assumption.
Qed.

Lemma inWindow_pending (now : Z) (fired timers : list Z) :
  Forall (fun due => due <= now) fired ->
  forall times,
    map (fun t => t + RATE_LIMIT_WINDOW) times = (fired ++ timers)%list ->
    (length (inWindow now times) <= length timers)%nat.
Proof.
  induction 1 as [|due fired Hle _ IH]; intros times Hmap.
  - cbn [app] in Hmap. rewrite <- Hmap, length_map.
    unfold inWindow. apply filter_length_le.
  - destruct times as [|t times]; [discriminate|].
    cbn [map app] in Hmap. injection Hmap as Ht Hmap.
    unfold inWindow. cbn [filter].
    destruct (now <? t + RATE_LIMIT_WINDOW) eqn:Hin.
    + apply Z.ltb_lt in Hin. lia.
    + apply IH. exact Hmap.
Qed.

(** X5.  In every run of the governor the request counter equals the
    number of window timers that are still pending; so it is never
    negative, never exceeds the number of dispatches made, and counts at
    least every dispatch of the trailing 60000 ms. *)
Theorem request_count_window (t0 : Z) (labels : list Label) (st : State) :
  run (init t0) labels = Some st ->
  requestCount st = Z.of_nat (length (windowTimers st)) /\
  0 <= requestCount st /\
  requestCount st <= Z.of_nat (length (dispatchTimes (trace st))) /\
  Z.of_nat (length (inWindow (clock st) (dispatchTimes (trace st))))
  <= requestCount st.
Proof.
  intros Hrun.
  assert (H : Counted st).
  { apply (Counted_run labels (init t0) st); [|exact Hrun].
    unfold Counted, init. fields. split; [reflexivity|].
    exists []. split; [reflexivity|constructor]. }
  destruct H as (Hcount & fired & Hmap & Hdue).
  split; [exact Hcount|].
  rewrite Hcount. split; [lia|]. split.
  - apply (f_equal (@length Z)) in Hmap.
    rewrite length_map, length_app in Hmap. lia.
  - apply inj_le. apply (inWindow_pending (clock st) fired); assumption.
Qed.

(** Three dispatches, of which the first has left the window. *)
Lemma request_count_window_witness :
  exists st,
    run (init 1700000000000)
        [Submit 1; Settle (Ok JsNull); Resume; Tick 30000;
         Submit 2; Settle (Ok JsNull); Resume; Tick 30000; WindowExpires;
         Submit 3] = Some st /\
    requestCount st = Z.of_nat (length (windowTimers st)) /\
    requestCount st = 2 /\
    length (dispatchTimes (trace st)) = 3%nat /\
    length (inWindow (clock st) (dispatchTimes (trace st))) = 2%nat.
Proof.
  destruct (run (init 1700000000000)
              [Submit 1; Settle (Ok JsNull); Resume; Tick 30000;
               Submit 2; Settle (Ok JsNull); Resume; Tick 30000; WindowExpires;
               Submit 3]) as [st|] eqn:Hrun; [|discriminate].
  exists st. split; [reflexivity|].
  split; [exact (proj1 (request_count_window _ _ _ Hrun))|].
  vm_compute in Hrun. injection Hrun as <-.
  repeat split; reflexivity.
Defined.

(** X6.  In every run of the governor, whenever the processing flag is
    down the queue is empty and every operation submitted so far has been
    dispatched and has settled: no request is left behind by an activation
    that has ended. *)
Theorem idle_nothing_stranded (t0 : Z) (labels : list Label) (st : State) :
  run (init t0) labels = Some st ->
  isProcessingQueue st = false ->
  requestQueue st = [] /\
  dispatchedIds (trace st) = submittedIds (trace st) /\
  map fst (settlements (trace st)) = submittedIds (trace st).
Proof.
  intros Hrun Hflag.
  destruct (Inv_reachable t0 labels st Hrun)
    as (Hsub & _ & Hset & _ & _ & _ & Hf & Hidle).
  rewrite Hflag in Hf.
  destruct (drain st) eqn:Hd; try discriminate.
  rewrite (Hidle eq_refl) in *. fields_in_all.
  repeat rewrite app_nil_r in *.
  repeat split; congruence.
Qed.

(** Two calls, both settled. *)
Lemma idle_nothing_stranded_witness :
  exists st,
    run (init 1700000000000) Samples.zeroLatencyRun = Some st /\
    requestQueue st = [] /\
    dispatchedIds (trace st) = submittedIds (trace st) /\
    map fst (settlements (trace st)) = submittedIds (trace st).
Proof.
  destruct (run (init 1700000000000) Samples.zeroLatencyRun) as [st|] eqn:Hrun;
    [|discriminate].
  exists st. split; [reflexivity|].
  apply (idle_nothing_stranded 1700000000000 Samples.zeroLatencyRun st Hrun).
  vm_compute in Hrun. injection Hrun as <-. reflexivity.
Defined.

(** One move does the same to two states that differ in the counter
    only. *)
Lemma step_withoutCount (st1 st2 st1' : State) (l : Label) :
  withoutCount st1 = withoutCount st2 ->
  step st1 l = Some st1' ->
  exists st2', step st2 l = Some st2' /\ withoutCount st1' = withoutCount st2'.
Proof.
  destruct st1 as [k1 l1 c1 q1 f1 d1 w1 tr1], st2 as [k2 l2 c2 q2 f2 d2 w2 tr2].
  unfold withoutCount. fields. intros Heq.
  injection Heq as -> -> -> -> -> -> ->.
  destruct l as [id|dt| |outcome| |]; cbn [step]; fields.
  - intros Hs. injection Hs as <-.
    eexists. split; [reflexivity|].
    unfold rateLimitedRequest, processQueue, whileLoop, beginClosure, dispatch.
    fields.
    destruct (f2 || _); fields; [reflexivity|].
    destruct (q2 ++ [id])%list; fields; [reflexivity|].
    destruct (k2 - l2 <? MIN_REQUEST_INTERVAL); fields; reflexivity.
  - destruct (0 <=? dt); [|discriminate].
    intros Hs. injection Hs as <-. eexists. split; reflexivity.
  - destruct d2 as [|id due| |]; try discriminate.
    destruct (due <=? k2); [|discriminate].
    intros Hs. injection Hs as <-. eexists. split; reflexivity.
  - destruct d2 as [| |id|]; try discriminate.
    intros Hs. injection Hs as <-. eexists. split; reflexivity.
  - destruct d2; try discriminate.
    intros Hs. injection Hs as <-. eexists. split; [reflexivity|].
    unfold whileLoop, beginClosure, dispatch. fields.
    destruct q2; fields; [reflexivity|].
    destruct (k2 - l2 <? MIN_REQUEST_INTERVAL); fields; reflexivity.
  - destruct w2 as [|due rest]; [discriminate|].
    destruct (due <=? k2); [|discriminate].
    intros Hs. injection Hs as <-. eexists. split; reflexivity.
Qed.

(** X7.  The request counter never gates a dispatch: two governors that
    differ only in the value of the counter, however large, make the same
    moves, with the same queue, the same waits and the same dispatches at
    the same times. *)
Theorem request_count_never_gates (st1 st2 st1' : State) (labels : list Label) :
  withoutCount st1 = withoutCount st2 ->
  run st1 labels = Some st1' ->
  exists st2',
    run st2 labels = Some st2' /\
    withoutCount st1' = withoutCount st2' /\
    trace st2' = trace st1' /\ drain st2' = drain st1'.
Proof.
  revert st1 st2. induction labels as [|l labels IH]; intros st1 st2 Heq Hrun.
  - injection Hrun as <-. exists st2. split; [reflexivity|].
    split; [exact Heq|].
    unfold withoutCount in Heq. injection Heq as _ _ _ _ Hd _ Htr.
    split; congruence.
  - cbn [run] in Hrun. destruct (step st1 l) as [st1a|] eqn:Hstep; [|discriminate].
    destruct (step_withoutCount st1 st2 st1a l Heq Hstep) as (st2a & Hstep2 & Heqa).
    destruct (IH st1a st2a Heqa Hrun) as (st2' & Hrun2 & Hrest).
    exists st2'. cbn [run]. rewrite Hstep2. split; [exact Hrun2|exact Hrest].
Qed.

(** A governor whose counter stands at a thousand dispatches as the fresh
    one does. *)
Lemma request_count_never_gates_witness :
  exists st2',
    run (mkState 1700000000000 0 1000 [] false Idle [] [])
        Samples.zeroLatencyRun = Some st2' /\
    dispatchTimes (trace st2') = [1700000000000; 1700000005000].
Proof.
  destruct (run (init 1700000000000) Samples.zeroLatencyRun) as [st1'|] eqn:Hrun;
    [|discriminate].
  destruct (request_count_never_gates
              (init 1700000000000)
              (mkState 1700000000000 0 1000 [] false Idle [] [])
              st1' Samples.zeroLatencyRun eq_refl Hrun)
    as (st2' & Hrun2 & _ & Htr & _).
  exists st2'. split; [exact Hrun2|]. rewrite Htr.
  vm_compute in Hrun. injection Hrun as <-. reflexivity.
Defined.

Lemma WaitExact_beginClosure (id : nat) (st : State) :
  WaitExact (beginClosure id st).
Proof.
  unfold WaitExact, beginClosure, dispatch.
  destruct (clock st - lastRequestTime st <? MIN_REQUEST_INTERVAL); fields;
    intros id' due Heq; [|discriminate].
  assert (Hd : clock st + (MIN_REQUEST_INTERVAL - (clock st - lastRequestTime st)) = due)
    by congruence.
  lia.
Qed.

Lemma WaitExact_whileLoop (st : State) : WaitExact (whileLoop st).
Proof.
  unfold whileLoop. destruct (requestQueue st) as [|id rest].
  - unfold WaitExact. fields. discriminate.
  - apply WaitExact_beginClosure.
Qed.

Lemma WaitExact_step (st st' : State) (l : Label) :
  WaitExact st -> step st l = Some st' -> WaitExact st'.
Proof.
  intros H Hstep. destruct l as [id|dt| |outcome| |]; cbn [step] in Hstep.
  - injection Hstep as <-. unfold rateLimitedRequest, processQueue. fields.
    destruct (isProcessingQueue st || _); [|apply WaitExact_whileLoop].
    exact H.
  - destruct (0 <=? dt); [|discriminate]. injection Hstep as <-. exact H.
  - destruct (drain st) as [|id due| |]; try discriminate.
    destruct (due <=? clock st); [|discriminate]. injection Hstep as <-.
    unfold WaitExact, dispatch. fields. discriminate.
  - destruct (drain st) as [| |id|]; try discriminate. injection Hstep as <-.
    unfold WaitExact. fields. discriminate.
  - destruct (drain st); try discriminate. injection Hstep as <-.
    apply WaitExact_whileLoop.
  - destruct (windowTimers st) as [|due rest]; [discriminate|].
    destruct (due <=? clock st); [|discriminate]. injection Hstep as <-.
    exact H.
Qed.

Lemma WaitExact_run (labels : list Label) :
  forall st st', WaitExact st -> run st labels = Some st' -> WaitExact st'.
Proof.
  induction labels as [|l labels IH]; intros st st' H Hrun.
  - injection Hrun as <-. exact H.
  - cbn [run] in Hrun. destruct (step st l) as [st1|] eqn:Hstep; [|discriminate].
    apply (IH st1 st'); [|exact Hrun]. apply (WaitExact_step st st1 l); assumption.
Qed.

(** X8.  In every run of the governor a closure that waits for its turn
    waits for a timer due exactly [MIN_REQUEST_INTERVAL] after the start of
    the dispatch before it: never longer. *)
Theorem wait_until_interval (t0 : Z) (labels : list Label) (st : State)
    (id : nat) (due : Z) :
  run (init t0) labels = Some st ->
  drain st = AwaitingDelay id due ->
  due = lastRequestTime st + MIN_REQUEST_INTERVAL /\
  forall t, lastTime (dispatchTimes (trace st)) = Some t ->
            due = t + MIN_REQUEST_INTERVAL.
Proof.
  intros Hrun Hd.
  assert (H : WaitExact st).
  { apply (WaitExact_run labels (init t0) st); [|exact Hrun].
    unfold WaitExact, init. fields. discriminate. }
  pose proof (H id due Hd) as Hdue. split; [exact Hdue|].
  destruct (Inv_reachable t0 labels st Hrun) as (_ & _ & _ & _ & Hlast & _).
  intros t Ht. rewrite (Hlast t Ht) in Hdue. exact Hdue.
Qed.

(** The second of two calls, submitted 1200 ms after the first was
    dispatched. *)
Lemma wait_until_interval_witness :
  exists st,
    run (init 1700000000000)
        [Submit 1; Tick 1200; Submit 2; Settle (Ok JsNull); Resume] = Some st /\
    drain st = AwaitingDelay 2 1700000005000 /\
    1700000005000 = lastRequestTime st + MIN_REQUEST_INTERVAL.
Proof.
  destruct (run (init 1700000000000)
              [Submit 1; Tick 1200; Submit 2; Settle (Ok JsNull); Resume])
    as [st|] eqn:Hrun; [|discriminate].
  exists st. split; [reflexivity|].
  assert (Hd : drain st = AwaitingDelay 2 1700000005000)
    by (vm_compute in Hrun; injection Hrun as <-; reflexivity).
  split; [exact Hd|].
  apply (proj1 (wait_until_interval 1700000000000 _ st 2%nat 1700000005000
                  Hrun Hd)).
Defined.

End GovernorCoverage.

(** ** The generation functions: what the caller receives *)

Module GeminiCoverage.
Import Retry Backoff RetryFacts Gemini GeminiFacts.

Section PlanOutcomes.
Variable generateContent :
  GenerateContentParameters -> nat -> Result (option GenerateContentResponse).
Variable Date_now : nat -> nat -> Z.
Variable String_trim : string -> string.
Variable JSON_parse : string -> option JsValue.

Lemma planRequest_upstream_error (prompt : string) (attempt : nat) (e : JsError) :
  generateContent (planParameters prompt) attempt = Err e ->
  planRequest generateContent Date_now String_trim JSON_parse prompt attempt
  = Err e.
Proof. intros H. unfold planRequest. rewrite H. reflexivity. Qed.

(** X9.  When every attempt of the upstream call fails with an error that
    the quota branch catches, [getDailyPlan] makes three requests with waits
    of 12000 ms and 24000 ms between them and rejects with the fixed
    quota message. *)
Theorem plan_quota_message (profile : UserProfile) (goal : Goal)
    (previousDayTasks : string) (previousDayReflection : option string) :
  nonEmpty (title goal) = true -> nonEmpty (identity profile) = true ->
  (forall k, (1 <= k <= 3)%nat ->
     exists e,
       generateContent
         (planParameters (planPrompt profile goal previousDayTasks
                                     previousDayReflection)) k
       = Err e /\ takesQuotaBranch e = true) ->
  getDailyPlan generateContent Date_now String_trim JSON_parse
    (Some profile) (Some goal) previousDayTasks previousDayReflection
  = (Rejected (Some (newError quotaMessage)),
     [Request 1; Delay 12000; Request 2; Delay 24000; Request 3]).
Proof.
  intros Htitle Hidentity Hup.
  unfold getDailyPlan. rewrite Htitle, Hidentity. cbn [negb].
  unfold retryWithBackoff, defaultMaxRetries.
  assert (Hfn : forall k, (1 <= k <= 3)%nat ->
            exists e,
              planRequest generateContent Date_now String_trim JSON_parse
                (planPrompt profile goal previousDayTasks previousDayReflection) k
              = Err e /\ takesQuotaBranch e = true).
  { intros k Hk. destruct (Hup k Hk) as (e & He & Hq).
    exists e. split; [apply planRequest_upstream_error; exact He|exact Hq]. }
  rewrite (retryLoop_quota _ 3 defaultBaseDelay Hfn 3 1 None); try lia.
  reflexivity.
Qed.

(** X10.  An authentication failure is never retried: when the first
    upstream call fails with a message that mentions the API key or 401 and
    carries no quota or unavailability marker, [getDailyPlan] rejects with
    the fixed API-key message after that one request, without any wait. *)
Theorem plan_auth_not_retried (profile : UserProfile) (goal : Goal)
    (previousDayTasks : string) (previousDayReflection : option string)
    (e : JsError) :
  nonEmpty (title goal) = true -> nonEmpty (identity profile) = true ->
  generateContent
    (planParameters (planPrompt profile goal previousDayTasks
                                previousDayReflection)) 1%nat
  = Err e ->
  messageIncludes e "API key" || messageIncludes e "401" = true ->
  carriesNone e ["429"; "quota"; "RESOURCE_EXHAUSTED"; "503"; "overloaded";
                 "UNAVAILABLE"] = true ->
  getDailyPlan generateContent Date_now String_trim JSON_parse
    (Some profile) (Some goal) previousDayTasks previousDayReflection
  = (Rejected (Some (newError apiKeyMessage)), [Request 1]).
Proof.
  intros Htitle Hidentity Hup Hauth Hnone.
  unfold carriesNone in Hnone. cbn [forallb] in Hnone.
  repeat (apply andb_prop in Hnone; destruct Hnone as [?H Hnone]).
  repeat match goal with
         | H : negb _ = true |- _ => apply negb_true_iff in H
         end.
  unfold getDailyPlan. rewrite Htitle, Hidentity. cbn [negb].
  unfold defaultMaxRetries.
  rewrite (retry_first_fatal _ e 2 defaultBaseDelay
             (planRequest_upstream_error _ 1%nat e Hup)).
  - unfold planHandler, handleAPIError.
    rewrite H, H0, H1, H2, H3. cbn [orb]. rewrite Hauth. reflexivity.
  - unfold takesQuotaBranch, mentionsQuota. rewrite H, H0. reflexivity.
  - unfold isRetryable. rewrite H2, H3, H4. reflexivity.
Qed.

(** X11.  When every attempt of the upstream call fails with a message
    that carries 503 or overloaded and none of 429, quota and
    RESOURCE_EXHAUSTED, [getDailyPlan] makes three requests with waits of
    6000 ms and 9000 ms between them and rejects with the fixed
    service-busy message. *)
Theorem plan_busy_message (profile : UserProfile) (goal : Goal)
    (previousDayTasks : string) (previousDayReflection : option string)
    (e1 e2 e3 : JsError) :
  nonEmpty (title goal) = true -> nonEmpty (identity profile) = true ->
  generateContent
    (planParameters (planPrompt profile goal previousDayTasks
                                previousDayReflection)) 1%nat = Err e1 ->
  generateContent
    (planParameters (planPrompt profile goal previousDayTasks
                                previousDayReflection)) 2%nat = Err e2 ->
  generateContent
    (planParameters (planPrompt profile goal previousDayTasks
                                previousDayReflection)) 3%nat = Err e3 ->
  Forall (fun e =>
            messageIncludes e "503" || messageIncludes e "overloaded" = true /\
            carriesNone e ["429"; "quota"; "RESOURCE_EXHAUSTED"] = true)
         [e1; e2; e3] ->
  getDailyPlan generateContent Date_now String_trim JSON_parse
    (Some profile) (Some goal) previousDayTasks previousDayReflection
  = (Rejected (Some (newError busyMessage)),
     [Request 1; Delay (retryDelay defaultBaseDelay 1);
      Request 2; Delay (retryDelay defaultBaseDelay 2); Request 3]) /\
  (retryDelay defaultBaseDelay 1 == 6000)%Q /\
  (retryDelay defaultBaseDelay 2 == 9000)%Q.
Proof.
  intros Htitle Hidentity Hup1 Hup2 Hup3 Hall.
  split; [|split; reflexivity].
  assert (Hclass : forall e,
            In e [e1; e2; e3] ->
            mentionsQuota e = false /\ isRetryable e = true /\
            handleAPIError e = busyMessage).
  { intros e Hin. rewrite Forall_forall in Hall.
    destruct (Hall e Hin) as [Hbusy Hnone].
    unfold carriesNone in Hnone. cbn [forallb] in Hnone.
    repeat (apply andb_prop in Hnone; destruct Hnone as [?H Hnone]).
    repeat match goal with
           | H : negb _ = true |- _ => apply negb_true_iff in H
           end.
    unfold mentionsQuota, isRetryable, handleAPIError.
    rewrite H, H0, H1. cbn [orb]. rewrite Hbusy.
    repeat split. }
  destruct (Hclass e1 ltac:(cbn; auto)) as (Hq1 & Hr1 & _).
  destruct (Hclass e2 ltac:(cbn; auto)) as (Hq2 & Hr2 & _).
  destruct (Hclass e3 ltac:(cbn; auto)) as (Hq3 & Hr3 & Hm3).
  unfold getDailyPlan. rewrite Htitle, Hidentity. cbn [negb].
  unfold retryWithBackoff, defaultMaxRetries. cbn [retryLoop].
  rewrite (planRequest_upstream_error _ 1%nat e1 Hup1),
          (planRequest_upstream_error _ 2%nat e2 Hup2),
          (planRequest_upstream_error _ 3%nat e3 Hup3).
  rewrite Hq1, Hq2, Hq3, Hr1, Hr2, Hr3. cbn [andb negb orb Nat.eqb].
  unfold planHandler. rewrite Hm3. reflexivity.
Qed.

Lemma pushOtherTasks_incomplete (now : nat -> Z) (items : list JsValue) :
  forall index reads,
    Forall (fun t => isCompleted t = false)
           (fst (pushOtherTasks now items index reads)).
Proof.
  induction items as [|t items IH]; intros index reads; cbn [pushOtherTasks].
  - constructor.
  - destruct (truthy (getPropOpt t "task")).
    + specialize (IH (S index) (S reads)).
      destruct (pushOtherTasks now items (S index) (S reads)).
      cbn [fst] in *. constructor; [reflexivity|exact IH].
    + apply IH.
Qed.

Lemma tasksOfPlanData_fresh (now : nat -> Z) (planData : JsValue)
    (tasks : list Task) :
  tasksOfPlanData now planData = Ok tasks ->
  tasks <> [] /\ Forall (fun t => isCompleted t = false) tasks.
Proof.
  unfold tasksOfPlanData.
  destruct (getProp planData "gia") as [gia|]; cbn [bind]; [|discriminate].
  destruct (truthy (getPropOpt gia "task"));
    (destruct (getProp planData "otherTasks") as [otherTasks|];
     cbn [bind]; [|discriminate]);
    match goal with
    | |- context [match otherTasks with
                  | JsArray items => pushOtherTasks now items 0 ?r
                  | _ => _
                  end] =>
      assert (H2 : Forall (fun t => isCompleted t = false)
                     (fst match otherTasks with
                          | JsArray items => pushOtherTasks now items 0 r
                          | _ => ([], r)
                          end))
        by (destruct otherTasks; try constructor;
            apply pushOtherTasks_incomplete);
      destruct (match otherTasks with
                | JsArray items => pushOtherTasks now items 0 r
                | _ => ([], r)
                end) as [tasks2 reads2]
    end;
    cbn [fst] in H2;
    (destruct (getProp planData "motivationalQuote") as [quote|];
     cbn [bind]; [|discriminate]);
    match goal with
    | |- context [Nat.eqb (length ?L) 0] => remember L as all eqn:Hall
    end;
    (destruct (Nat.eqb (length all) 0) eqn:Hlen; [discriminate|]);
    intros Heq; injection Heq as <-;
    (split;
     [destruct all; [discriminate Hlen|discriminate]|
      subst all;
      repeat (apply Forall_app; split || apply Forall_cons);
      try exact H2; try reflexivity;
      destruct (truthy quote); repeat constructor]).
Qed.

(** X12.  A task list that [getDailyPlan] is fulfilled with is never
    empty, and none of its tasks is marked completed. *)
Theorem plan_tasks_fresh (profile : option UserProfile) (goal : option Goal)
    (previousDayTasks : string) (previousDayReflection : option string)
    (tasks : list Task) (events : list Event) :
  getDailyPlan generateContent Date_now String_trim JSON_parse
               profile goal previousDayTasks previousDayReflection
  = (Fulfilled tasks, events) ->
  tasks <> [] /\ Forall (fun t => isCompleted t = false) tasks.
Proof.
  unfold getDailyPlan.
  destruct goal as [g|]; [|discriminate].
  destruct (negb (nonEmpty (title g))); [discriminate|].
  destruct profile as [p|]; [|discriminate].
  destruct (negb (nonEmpty (identity p))); [discriminate|].
  unfold retryWithBackoff.
  destruct (retryLoop _ _ _ _ _ _) as [[v|r] ev] eqn:Hloop; [|discriminate].
  intros Heq. injection Heq as -> ->.
  destruct (retryLoop_fulfilled _ _ _ _ _ _ _ _ Hloop) as [a Ha].
  unfold planRequest in Ha.
  destruct (generateContent _ a) as [response|]; [|discriminate].
  cbn [bind] in Ha.
  destruct (textOfResponse response) as [txt|]; [|discriminate].
  cbn [bind] in Ha.
  destruct (JSON_parse (String_trim txt)) as [planData|]; [|discriminate].
  apply (tasksOfPlanData_fresh _ _ _ Ha).
Qed.

(** X13.  A transient failure is invisible to the caller: when the first
    upstream call fails with a transient error and the second answers with a
    well-formed response, [getDailyPlan] waits 6000 ms once and is fulfilled
    with the ordered plan of the second response. *)
Theorem plan_recovers_after_transient (profile : UserProfile) (goal : Goal)
    (previousDayTasks : string) (previousDayReflection : option string)
    (e : JsError) (t giaTask reason quote : string) (others : list string) :
  nonEmpty (title goal) = true -> nonEmpty (identity profile) = true ->
  generateContent
    (planParameters (planPrompt profile goal previousDayTasks
                                previousDayReflection)) 1%nat = Err e ->
  isTransient e = true ->
  generateContent
    (planParameters (planPrompt profile goal previousDayTasks
                                previousDayReflection)) 2%nat
  = Ok (Some (mkResponse (Some t))) ->
  nonEmpty t = true ->
  JSON_parse (String_trim t) = Some (planDataOf giaTask reason others quote) ->
  nonEmpty giaTask = true ->
  Forall (fun s => nonEmpty s = true) others ->
  nonEmpty quote = true ->
  getDailyPlan generateContent Date_now String_trim JSON_parse
    (Some profile) (Some goal) previousDayTasks previousDayReflection
  = (Fulfilled (orderedPlan (Date_now 2%nat) giaTask others quote),
     [Request 1; Delay 6000; Request 2]).
Proof.
  intros Htitle Hidentity Hup1 Htr Hup2 Ht Hparse Hg Ho Hq.
  apply andb_prop in Htr. destruct Htr as [Hretry Hnq].
  apply negb_true_iff in Hnq. unfold takesQuotaBranch in Hnq.
  unfold getDailyPlan. rewrite Htitle, Hidentity. cbn [negb].
  unfold retryWithBackoff, defaultMaxRetries. cbn [retryLoop].
  rewrite (planRequest_upstream_error _ 1%nat e Hup1), Hnq, Hretry.
  cbn [negb orb Nat.eqb].
  replace (planRequest generateContent Date_now String_trim JSON_parse
             (planPrompt profile goal previousDayTasks previousDayReflection) 2)
    with (Ok (orderedPlan (Date_now 2%nat) giaTask others quote));
    [reflexivity|].
  unfold planRequest. rewrite Hup2. cbn [bind textOfResponse responseText].
  rewrite Ht. cbn [bind]. rewrite Hparse. symmetry.
  apply tasksOfPlanData_ordered; assumption.
Qed.

End PlanOutcomes.

(** The upstream service out of quota at every call. *)
Lemma plan_quota_message_witness :
  getDailyPlan (Samples.failing "429 RESOURCE_EXHAUSTED") Samples.clock
    Samples.trim Samples.parse
    (Some Samples.profile) (Some Samples.goal) EmptyString None
  = (Rejected (Some (newError quotaMessage)),
     [Request 1; Delay 12000; Request 2; Delay 24000; Request 3]).
Proof.
  apply (plan_quota_message (Samples.failing "429 RESOURCE_EXHAUSTED")
           Samples.clock Samples.trim Samples.parse
           Samples.profile Samples.goal EmptyString None eq_refl eq_refl).
  intros k _. exists (newError "429 RESOURCE_EXHAUSTED"). split; reflexivity.
Defined.

(** The upstream service refusing the key. *)
Lemma plan_auth_not_retried_witness :
  getDailyPlan (Samples.failing "API key not valid") Samples.clock
    Samples.trim Samples.parse
    (Some Samples.profile) (Some Samples.goal) EmptyString None
  = (Rejected (Some (newError apiKeyMessage)), [Request 1]).
Proof.
  apply (plan_auth_not_retried (Samples.failing "API key not valid")
           Samples.clock Samples.trim Samples.parse
           Samples.profile Samples.goal EmptyString None
           (newError "API key not valid"));
    reflexivity.
Defined.

(** The upstream service overloaded at every call. *)
Lemma plan_busy_message_witness :
  getDailyPlan (Samples.failing "503 The model is overloaded") Samples.clock
    Samples.trim Samples.parse
    (Some Samples.profile) (Some Samples.goal) EmptyString None
  = (Rejected (Some (newError busyMessage)),
     [Request 1; Delay (retryDelay defaultBaseDelay 1);
      Request 2; Delay (retryDelay defaultBaseDelay 2); Request 3]).
Proof.
  apply (proj1 (plan_busy_message
                  (Samples.failing "503 The model is overloaded")
                  Samples.clock Samples.trim Samples.parse
                  Samples.profile Samples.goal EmptyString None
                  (newError "503 The model is overloaded")
                  (newError "503 The model is overloaded")
                  (newError "503 The model is overloaded")
                  eq_refl eq_refl eq_refl eq_refl eq_refl
                  ltac:(repeat constructor))).
Defined.

(** The plan of the specification's example, after one overloaded call. *)
Lemma plan_recovers_after_transient_witness :
  getDailyPlan
    (fun p attempt =>
       if Nat.eqb attempt 1 then Err (newError "503 The model is overloaded")
       else Ok (Some (mkResponse (Some Samples.runText))))
    Samples.clock Samples.trim Samples.parse
    (Some Samples.profile) (Some Samples.goal) EmptyString None
  = (Fulfilled (orderedPlan (Samples.clock 2%nat) "Run 5k" ["Drink water"]
                            "Keep going"),
     [Request 1; Delay 6000; Request 2]).
Proof.
  apply (plan_recovers_after_transient
           (fun p attempt =>
              if Nat.eqb attempt 1 then Err (newError "503 The model is overloaded")
              else Ok (Some (mkResponse (Some Samples.runText))))
           Samples.clock Samples.trim Samples.parse
           Samples.profile Samples.goal EmptyString None
           (newError "503 The model is overloaded") Samples.runText
           "Run 5k" "builds momentum" "Keep going" ["Drink water"]);
    try reflexivity.
  repeat constructor.
Defined.

(** The plan of the specification's example is not empty and is fresh. *)
Lemma plan_tasks_fresh_witness :
  orderedPlan (Samples.clock 1%nat) "Run 5k" ["Drink water"] "Keep going" <> [] /\
  Forall (fun t => isCompleted t = false)
         (orderedPlan (Samples.clock 1%nat) "Run 5k" ["Drink water"] "Keep going").
Proof.
  apply (plan_tasks_fresh (Samples.answering Samples.runText) Samples.clock
           Samples.trim Samples.parse
           (Some Samples.profile) (Some Samples.goal) EmptyString None
           (orderedPlan (Samples.clock 1%nat) "Run 5k" ["Drink water"] "Keep going")
           [Request 1]).
  vm_compute. reflexivity.
Defined.

End GeminiCoverage.

(** ** The dashboard: identifiers, groups and toggles *)

Module DashboardFacts.
Import Retry RetryFacts Gemini GeminiFacts Dashboard Chars.

Lemma lacks_app (c : ascii) (a b : string) :
  lacks c (a ++ b) = lacks c a && lacks c b.
Proof.
  induction a as [|x a IH]; cbn [append lacks]; [reflexivity|].
  rewrite IH, andb_assoc. reflexivity.
Qed.

Lemma digits_lacks (c : ascii) (s : string) :
  (nat_of_ascii c < 48 \/ 57 < nat_of_ascii c)%nat ->
  digits s = true -> lacks c s = true.
Proof.
  intros Hc. induction s as [|x s IH]; cbn [digits lacks]; [reflexivity|].
  intros H. apply andb_prop in H. destruct H as [Hx Hs].
  apply andb_prop in Hx. destruct Hx as [Hlo Hhi].
  apply Nat.leb_le in Hlo. apply Nat.leb_le in Hhi.
  rewrite (IH Hs), andb_true_r. apply negb_true_iff.
  destruct (Ascii.eqb_spec x c) as [->|Hne]; [lia|reflexivity].
Qed.

Lemma digits_string_of_uint (d : Decimal.uint) :
  digits (NilEmpty.string_of_uint d) = true.
Proof. induction d; cbn; auto. Qed.

Lemma digits_showNat (n : nat) : digits (showNat n) = true.
Proof.
  unfold showNat, NilZero.string_of_uint.
  destruct (Nat.to_uint n); try reflexivity; apply digits_string_of_uint.
Qed.

(** The rendering of a number has neither letters nor underscores. *)
Lemma lacks_showZ (c : ascii) (z : Z) :
  (nat_of_ascii c < 45 \/ 57 < nat_of_ascii c)%nat ->
  lacks c (showZ z) = true.
Proof.
  intros Hc.
  assert (Hu : forall d, lacks c (NilZero.string_of_uint d) = true).
  { intros d. apply digits_lacks; [lia|].
    unfold NilZero.string_of_uint.
    destruct d; try reflexivity; apply digits_string_of_uint. }
  unfold showZ, NilZero.string_of_int.
  destruct (Z.to_int z) as [d|d]; [apply Hu|].
  cbn [lacks]. rewrite Hu, andb_true_r. apply negb_true_iff.
  destruct (Ascii.eqb_spec "-"%char c) as [<-|Hne]; [cbn in Hc; lia|reflexivity].
Qed.

Lemma lacks_showNat (c : ascii) (n : nat) :
  (nat_of_ascii c < 48 \/ 57 < nat_of_ascii c)%nat ->
  lacks c (showNat n) = true.
Proof. intros Hc. apply digits_lacks; [exact Hc|apply digits_showNat]. Qed.

(** A string without the letter q does not contain the word. *)
Lemma lacks_q_no_quote (s : string) :
  lacks "q" s = true -> includes s "quote" = false.
Proof.
  induction s as [|x s IH]; cbn [lacks includes]; [reflexivity|].
  intros H. apply andb_prop in H. destruct H as [Hx Hs].
  apply negb_true_iff in Hx.
  replace (prefix "quote" (String x s)) with false.
  - apply IH. exact Hs.
  - cbn [prefix]. destruct (ascii_dec "q" x) as [<-|Hne]; [discriminate|].
    reflexivity.
Qed.

Lemma prefix_refl (s : string) : prefix s s = true.
Proof.
  induction s as [|x s IH]; [reflexivity|]. cbn [prefix].
  destruct (ascii_dec x x); [exact IH|congruence].
Qed.

Lemma includes_suffix (a b : string) : includes (a ++ b) b = true.
Proof.
  induction a as [|x a IH]; cbn [append].
  - destruct b; cbn [includes]; [reflexivity|]. rewrite prefix_refl. reflexivity.
  - cbn [includes]. rewrite IH. destruct (prefix b (String x (a ++ b))); reflexivity.
Qed.

Lemma taskId_gia_no_quote (now : Z) : includes (taskId now "gia") "quote" = false.
Proof.
  apply lacks_q_no_quote. unfold taskId.
  rewrite !lacks_app, lacks_showZ by (cbn; lia). reflexivity.
Qed.

Lemma taskId_index_no_quote (now : Z) (index : nat) :
  includes (taskId now (showNat index)) "quote" = false.
Proof.
  apply lacks_q_no_quote. unfold taskId.
  rewrite !lacks_app, lacks_showZ, lacks_showNat by (cbn; lia). reflexivity.
Qed.

Lemma taskId_quote_has_quote (now : Z) :
  includes (taskId now "quote") "quote" = true.
Proof.
  unfold taskId.
  rewrite <- (string_app_assoc "task_" (showZ now) ("_" ++ "quote")).
  rewrite <- (string_app_assoc ("task_" ++ showZ now) "_" "quote").
  apply includes_suffix.
Qed.

(** *** The groups of a generated plan *)

Lemma supportingTasks_groups (now : nat -> Z) (others : list string) :
  forall index reads,
    filter (fun task => isGIA task) (supportingTasks now others index reads) = [] /\
    filter (fun task => negb (isGIA task) && negb (includes (id task) "quote"))
           (supportingTasks now others index reads)
    = supportingTasks now others index reads /\
    filter (fun task => includes (id task) "quote")
           (supportingTasks now others index reads) = [] /\
    find (fun t => includes (id t) "quote")
         (supportingTasks now others index reads) = None.
Proof.
  induction others as [|t others IH]; intros index reads;
    cbn [supportingTasks filter find]; [auto|].
  cbn [isGIA id negb andb]. rewrite taskId_index_no_quote. cbn [negb].
  destruct (IH (S index) (S reads)) as (H1 & H2 & H3 & H4).
  rewrite H1, H2, H3, H4. auto.
Qed.

Lemma find_app_none {A : Type} (f : A -> bool) (l1 l2 : list A) :
  find f l1 = None -> find f (l1 ++ l2) = find f l2.
Proof.
  induction l1 as [|x l1 IH]; cbn [find app]; [reflexivity|].
  destruct (f x); [discriminate|exact IH].
Qed.

Lemma orderedPlan_groups (now : nat -> Z) (giaTask quote : string)
    (others : list string) :
  getTasksByType (orderedPlan now giaTask others quote)
  = mkTasksByType
      [mkTask (taskId (now 0%nat) "gia") (JsString giaTask) false true]
      (supportingTasks now others 0 1)
      [mkTask (taskId (now (S (length others))) "quote") (JsString quote)
              false false] /\
  find (fun t => includes (id t) "quote") (orderedPlan now giaTask others quote)
  = Some (mkTask (taskId (now (S (length others))) "quote") (JsString quote)
                 false false).
Proof.
  destruct (supportingTasks_groups now others 0 1) as (H1 & H2 & H3 & H4).
  unfold getTasksByType, orderedPlan. cbn [filter find isGIA id negb andb].
  rewrite taskId_gia_no_quote. rewrite !filter_app, H1, H2, H3.
  rewrite (find_app_none _ _ _ H4).
  cbn [filter find isGIA id negb andb app].
  rewrite taskId_quote_has_quote. cbn [negb andb]. rewrite app_nil_r.
  split; reflexivity.
Qed.

Section GeneratedPlans.
Variable generateContent :
  GenerateContentParameters -> nat -> Result (option GenerateContentResponse).
Variable Date_now : nat -> nat -> Z.
Variable String_trim : string -> string.
Variable JSON_parse : string -> option JsValue.

(** X14.  For a well-formed response with non-empty texts, the dashboard
    recovers what the upstream service sent: the plan it saves carries the
    response's quote as its motivational quote, and of the tasks it shows the
    GIA group holds the GIA task alone, the supporting group holds the
    supporting tasks in order, and the quote group holds the quote task
    alone. *)
Theorem dashboard_recovers_plan (profile : UserProfile) (goal : Goal)
    (previousDayTasks : string) (previousDayReflection : option string)
    (today t giaTask reason quote : string) (others : list string) :
  nonEmpty (title goal) = true -> nonEmpty (identity profile) = true ->
  generateContent
    (planParameters (planPrompt profile goal previousDayTasks
                                previousDayReflection)) 1%nat
  = Ok (Some (mkResponse (Some t))) ->
  nonEmpty t = true ->
  JSON_parse (String_trim t) = Some (planDataOf giaTask reason others quote) ->
  nonEmpty giaTask = true ->
  Forall (fun s => nonEmpty s = true) others ->
  nonEmpty quote = true ->
  exists tasks,
    generateNewDailyPlan today
      (fst (getDailyPlan generateContent Date_now String_trim JSON_parse
              (Some profile) (Some goal) previousDayTasks previousDayReflection))
    = Some (mkPlan today tasks (JsString quote)) /\
    map text (giaTasks (getTasksByType tasks)) = [JsString giaTask] /\
    map text (otherTasks (getTasksByType tasks)) = map JsString others /\
    map text (quotes (getTasksByType tasks)) = [JsString quote].
Proof.
  intros Htitle Hidentity Hup Ht Hparse Hg Ho Hq.
  exists (orderedPlan (Date_now 1%nat) giaTask others quote).
  destruct (orderedPlan_groups (Date_now 1%nat) giaTask quote others)
    as [Hgroups Hfind].
  split.
  - unfold getDailyPlan. rewrite Htitle, Hidentity. cbn [negb].
    unfold defaultMaxRetries.
    rewrite (retry_first_success _ (orderedPlan (Date_now 1%nat) giaTask others quote)).
    + cbn [fst generateNewDailyPlan]. unfold quoteOf. rewrite Hfind.
      unfold jsOr. cbn [text truthy]. unfold nonEmpty in Hq. rewrite Hq.
      reflexivity.
    + unfold planRequest. rewrite Hup. cbn [bind textOfResponse responseText].
      rewrite Ht. cbn [bind]. rewrite Hparse.
      apply tasksOfPlanData_ordered; assumption.
  - rewrite Hgroups. cbn [giaTasks otherTasks quotes map text].
    rewrite supportingTasks_text. auto.
Qed.

End GeneratedPlans.

(** The dashboard on the response of the specification's example. *)
Lemma dashboard_recovers_plan_witness :
  exists tasks,
    generateNewDailyPlan "2026-01-02"
      (fst (getDailyPlan (Samples.answering Samples.runText) Samples.clock
              Samples.trim Samples.parse
              (Some Samples.profile) (Some Samples.goal) EmptyString None))
    = Some (mkPlan "2026-01-02" tasks (JsString "Keep going")) /\
    map text (giaTasks (getTasksByType tasks)) = [JsString "Run 5k"] /\
    map text (otherTasks (getTasksByType tasks)) = [JsString "Drink water"] /\
    map text (quotes (getTasksByType tasks)) = [JsString "Keep going"].
Proof.
  apply (dashboard_recovers_plan (Samples.answering Samples.runText)
           Samples.clock Samples.trim Samples.parse
           Samples.profile Samples.goal EmptyString None
           "2026-01-02" Samples.runText
           "Run 5k" "builds momentum" "Keep going" ["Drink water"]);
    try reflexivity.
  repeat constructor.
Defined.

(** *** The identifiers of a generated plan *)

Lemma split_at_char (c : ascii) (a1 a2 s1 s2 : string) :
  lacks c a1 = true -> lacks c a2 = true ->
  a1 ++ String c s1 = a2 ++ String c s2 -> a1 = a2 /\ s1 = s2.
Proof.
  revert a2. induction a1 as [|x a1 IH]; intros [|y a2];
    cbn [append lacks]; intros H1 H2 Heq.
  - injection Heq as ->. auto.
  - injection Heq as <- _. apply andb_prop in H2. destruct H2 as [H2 _].
    rewrite Ascii.eqb_refl in H2. discriminate.
  - injection Heq as -> _. apply andb_prop in H1. destruct H1 as [H1 _].
    rewrite Ascii.eqb_refl in H1. discriminate.
  - injection Heq as -> Heq.
    apply andb_prop in H1. destruct H1 as [_ H1].
    apply andb_prop in H2. destruct H2 as [_ H2].
    destruct (IH a2 H1 H2 Heq) as [-> ->]. auto.
Qed.

(** Two identifiers are equal only if their suffixes are. *)
Lemma taskId_suffix_inj (n1 n2 : Z) (s1 s2 : string) :
  taskId n1 s1 = taskId n2 s2 -> s1 = s2.
Proof.
  unfold taskId. cbn [append]. intros Heq.
  injection Heq as Heq.
  apply (split_at_char "_" (showZ n1) (showZ n2) s1 s2);
    try (apply lacks_showZ; cbn; lia).
  exact Heq.
Qed.

Lemma showNat_parse (n : nat) :
  option_map Nat.of_uint (NilZero.uint_of_string (showNat n)) = Some n.
Proof.
  unfold showNat.
  destruct (Nat.to_uint n) eqn:E;
    try (rewrite <- E, NilZero.usu by (rewrite E; discriminate);
         cbn [option_map]; rewrite DecimalNat.Unsigned.of_to; reflexivity).
  cbn. rewrite <- (DecimalNat.Unsigned.of_to n), E. reflexivity.
Qed.

Lemma showNat_inj (i j : nat) : showNat i = showNat j -> i = j.
Proof.
  intros H. pose proof (showNat_parse i) as Hi. rewrite H, showNat_parse in Hi.
  congruence.
Qed.

Lemma NoDup_by_key {A B C : Type} (f : A -> B) (g : A -> C) (l : list A) :
  (forall x y, f x = f y -> g x = g y) ->
  NoDup (map g l) -> NoDup (map f l).
Proof.
  intros Hfg. induction l as [|x l IH]; cbn [map]; intros H; [constructor|].
  inversion H as [|? ? Hnot Hrest]; subst. constructor; [|apply IH; exact Hrest].
  intros Hin. apply Hnot. apply in_map_iff in Hin.
  destruct Hin as (y & Heq & Hy). apply in_map_iff. exists y.
  split; [apply Hfg; exact Heq|exact Hy].
Qed.

(** The supporting tasks are stamped with increasing indices. *)
Lemma pushOtherTasks_ids (now : nat -> Z) (items : list JsValue) :
  forall index reads,
  exists pairs : list (Z * nat),
    map id (fst (pushOtherTasks now items index reads))
    = map (fun p => taskId (fst p) (showNat (snd p))) pairs /\
    Forall (fun p => (index <= snd p)%nat) pairs /\
    NoDup (map snd pairs).
Proof.
  induction items as [|t items IH]; intros index reads; cbn [pushOtherTasks].
  - exists []. repeat split; constructor.
  - destruct (IH (S index) (S reads)) as (pairs & Hids & Hge & Hnd).
    destruct (IH (S index) reads) as (pairs' & Hids' & Hge' & Hnd').
    destruct (truthy (getPropOpt t "task")).
    + destruct (pushOtherTasks now items (S index) (S reads)) as [pushed reads'].
      cbn [fst] in *. exists ((now reads, index) :: pairs).
      cbn [map fst snd id]. rewrite Hids. split; [reflexivity|]. split.
      * constructor; [cbn; lia|].
        eapply Forall_impl; [|exact Hge]. cbn. intros p Hp. lia.
      * constructor; [|exact Hnd]. intros Hin. apply in_map_iff in Hin.
        destruct Hin as (p & Hp & Hin). rewrite Forall_forall in Hge.
        specialize (Hge p Hin). lia.
    + exists pairs'. split; [exact Hids'|]. split; [|exact Hnd'].
      eapply Forall_impl; [|exact Hge']. cbn. intros p Hp. lia.
Qed.

Lemma digits_not (s : string) (n : nat) :
  digits s = false -> showNat n <> s.
Proof. intros Hs Heq. rewrite <- Heq, digits_showNat in Hs. discriminate. Qed.

Lemma suffixes_distinct (indices : list nat) (g q : bool) :
  NoDup indices ->
  NoDup ((if g then ["gia"] else [])
         ++ map showNat indices ++ (if q then ["quote"] else []))%list.
Proof.
  intros Hnd.
  assert (Hmid : NoDup (map showNat indices)).
  { apply (NoDup_by_key showNat (fun i => i)).
    - intros x y. apply showNat_inj.
    - rewrite map_id. exact Hnd. }
  assert (Hright : NoDup (map showNat indices ++ (if q then ["quote"] else []))).
  { apply NoDup_app; [exact Hmid| |].
    - destruct q; repeat constructor. intros [].
    - intros a Ha Hq. apply in_map_iff in Ha. destruct Ha as (i & <- & _).
      destruct q; [|contradiction]. destruct Hq as [Hq|[]].
      symmetry in Hq. revert Hq. apply digits_not. reflexivity. }
  destruct g; [|exact Hright].
  cbn [app]. constructor; [|exact Hright].
  intros Hin. apply in_app_or in Hin. destruct Hin as [Hin|Hin].
  - apply in_map_iff in Hin. destruct Hin as (i & Hi & _).
    revert Hi. apply digits_not. reflexivity.
  - destruct q; [|contradiction]. destruct Hin as [Hin|[]]. discriminate.
Qed.

Lemma tasksOfPlanData_ids (now : nat -> Z) (planData : JsValue)
    (tasks : list Task) :
  tasksOfPlanData now planData = Ok tasks -> NoDup (map id tasks).
Proof.
  unfold tasksOfPlanData.
  destruct (getProp planData "gia") as [gia|]; cbn [bind]; [|discriminate].
  destruct (getProp planData "otherTasks") as [otherTasks|] eqn:Hother.
  2:{ destruct (truthy (getPropOpt gia "task")); cbn [bind]; discriminate. }
  destruct (getProp planData "motivationalQuote") as [quote|] eqn:Hquote.
  2:{ destruct (truthy (getPropOpt gia "task")); cbn [bind];
      destruct (match otherTasks with
                | JsArray items => pushOtherTasks now items 0 _
                | _ => _
                end); cbn [bind]; discriminate. }
  assert (Hkey : forall reads1,
    exists pairs : list (Z * nat),
      map id (fst match otherTasks with
                  | JsArray items => pushOtherTasks now items 0 reads1
                  | _ => ([], reads1)
                  end)
      = map (fun p => taskId (fst p) (showNat (snd p))) pairs /\
      NoDup (map snd pairs)).
  { intros reads1. destruct otherTasks;
      try (exists []; split; [reflexivity|constructor]).
    destruct (pushOtherTasks_ids now items 0 reads1) as (pairs & H1 & _ & H3).
    exists pairs. auto. }
  assert (Hgoal : forall (g q : bool) n0 nq (pairs : list (Z * nat)),
    NoDup (map snd pairs) ->
    NoDup ((if g then [taskId n0 "gia"] else [])
           ++ map (fun p => taskId (fst p) (showNat (snd p))) pairs
           ++ (if q then [taskId nq "quote"] else []))%list).
  { intros g q n0 nq pairs Hnd.
    pose proof (suffixes_distinct (map snd pairs) g q Hnd) as Hs.
    replace ((if g then [taskId n0 "gia"] else [])
             ++ map (fun p => taskId (fst p) (showNat (snd p))) pairs
             ++ (if q then [taskId nq "quote"] else []))%list
      with (map (fun p : Z * string => taskId (fst p) (snd p))
                ((if g then [(n0, "gia")] else [])
                 ++ map (fun p : Z * nat => (fst p, showNat (snd p))) pairs
                 ++ (if q then [(nq, "quote")] else []))%list).
    - apply (NoDup_by_key _ (fun p : Z * string => snd p)).
      + intros x y. apply taskId_suffix_inj.
      + rewrite !map_app, map_map. cbn [snd].
        rewrite <- (map_map snd showNat).
        destruct g, q; exact Hs.
    - rewrite !map_app, map_map. cbn [fst snd].
      destruct g, q; reflexivity. }
  cbn [bind].
  destruct (truthy (getPropOpt gia "task")) eqn:Hg.
  - destruct (Hkey 1%nat) as (pairs & Hids & Hnd).
    destruct (match otherTasks with
              | JsArray items => pushOtherTasks now items 0 1
              | _ => ([], 1%nat)
              end) as [tasks2 reads2].
    cbn [fst bind] in *.
    destruct (Nat.eqb _ 0); [discriminate|].
    intros Heq. injection Heq as <-.
    cbn [map app id]. rewrite map_app, Hids.
    specialize (Hgoal true (truthy quote) (now 0%nat) (now reads2) pairs Hnd).
    destruct (truthy quote); exact Hgoal.
  - destruct (Hkey 0%nat) as (pairs & Hids & Hnd).
    destruct (match otherTasks with
              | JsArray items => pushOtherTasks now items 0 0
              | _ => ([], 0%nat)
              end) as [tasks2 reads2].
    cbn [fst bind] in *.
    destruct (Nat.eqb _ 0); [discriminate|].
    intros Heq. injection Heq as <-.
    cbn [map app id]. rewrite map_app, Hids.
    specialize (Hgoal false (truthy quote) (now 0%nat) (now reads2) pairs Hnd).
    destruct (truthy quote); exact Hgoal.
Qed.

(** *** Toggling a task *)

Lemma toggle_tail (x : string) (tasks : list Task) :
  ~ In x (map id tasks) -> toggleTaskComplete x tasks = tasks.
Proof.
  induction tasks as [|t tasks IH]; cbn [toggleTaskComplete map]; intros Hnot;
    [reflexivity|].
  fold (toggleTaskComplete x tasks).
  destruct (String.eqb_spec (id t) x) as [Heq|Hne].
  - exfalso. apply Hnot. left. exact Heq.
  - rewrite IH; [reflexivity|]. intros Hin. apply Hnot. right. exact Hin.
Qed.

(** X15.  A click on a task flips its completion mark and nothing else:
    the identifiers, texts and GIA flags stay, a second click restores the
    list, and every task stays in its group of the dashboard. *)
Theorem toggle_keeps_groups (taskId : string) (tasks : list Task) :
  toggleTaskComplete taskId (toggleTaskComplete taskId tasks) = tasks /\
  map id (toggleTaskComplete taskId tasks) = map id tasks /\
  map text (toggleTaskComplete taskId tasks) = map text tasks /\
  map isGIA (toggleTaskComplete taskId tasks) = map isGIA tasks /\
  getTasksByType (toggleTaskComplete taskId tasks)
  = mkTasksByType
      (toggleTaskComplete taskId (giaTasks (getTasksByType tasks)))
      (toggleTaskComplete taskId (otherTasks (getTasksByType tasks)))
      (toggleTaskComplete taskId (quotes (getTasksByType tasks))).
Proof.
  unfold getTasksByType. cbn [giaTasks otherTasks quotes].
  induction tasks as [|[tid ttext tdone tgia] tasks (IH1 & IH2 & IH3 & IH4 & IH5)];
    [repeat split|].
  injection IH5 as Hg Ho Hq.
  cbn [toggleTaskComplete map filter id text isGIA isCompleted].
  fold (toggleTaskComplete taskId tasks).
  fold (toggleTaskComplete taskId (toggleTaskComplete taskId tasks)).
  rewrite IH2, IH3, IH4.
  destruct (String.eqb tid taskId) eqn:Hid;
    cbn [id text isGIA isCompleted]; rewrite Hid, IH1, ?negb_involutive;
    (repeat split);
    destruct tgia, (includes tid "quote");
    cbn [negb andb filter toggleTaskComplete map id text isGIA isCompleted];
    fold (toggleTaskComplete taskId tasks);
    rewrite ?Hid, ?Hg, ?Ho, ?Hq; reflexivity.
Qed.

(** X16.  In a list whose identifiers are pairwise distinct, a click on the
    task at a position flips the completion mark of that task and leaves
    every other task as it is. *)
Theorem toggle_exactly_one (tasks : list Task) (i : nat) (t : Task) :
  NoDup (map id tasks) -> nth_error tasks i = Some t ->
  toggleTaskComplete (id t) tasks
  = (firstn i tasks
     ++ mkTask (id t) (text t) (negb (isCompleted t)) (isGIA t)
     :: skipn (S i) tasks)%list.
Proof.
  revert i. induction tasks as [|x tasks IH]; intros i Hnd Hnth;
    [destruct i; discriminate|].
  cbn [map] in Hnd. inversion Hnd as [|? ? Hnot Hrest]; subst.
  cbn [toggleTaskComplete map]. fold (toggleTaskComplete (id t) tasks).
  destruct i as [|i].
  - cbn in Hnth. injection Hnth as ->. rewrite String.eqb_refl.
    cbn [firstn skipn app]. rewrite toggle_tail by exact Hnot. reflexivity.
  - cbn [nth_error] in Hnth.
    destruct (String.eqb_spec (id x) (id t)) as [Heq|Hne].
    + exfalso. apply Hnot. rewrite Heq. apply in_map.
      apply (nth_error_In _ _ Hnth).
    + cbn [firstn skipn app]. rewrite (IH i Hrest Hnth). reflexivity.
Qed.

Section GeneratedIds.
Variable generateContent :
  GenerateContentParameters -> nat -> Result (option GenerateContentResponse).
Variable Date_now : nat -> nat -> Z.
Variable String_trim : string -> string.
Variable JSON_parse : string -> option JsValue.

(** X17.  The tasks of a list that [getDailyPlan] is fulfilled with have
    pairwise distinct identifiers, whatever the clock reads. *)
Theorem plan_ids_distinct (profile : option UserProfile) (goal : option Goal)
    (previousDayTasks : string) (previousDayReflection : option string)
    (tasks : list Task) (events : list Event) :
  getDailyPlan generateContent Date_now String_trim JSON_parse
               profile goal previousDayTasks previousDayReflection
  = (Fulfilled tasks, events) ->
  NoDup (map id tasks).
Proof.
  unfold getDailyPlan.
  destruct goal as [g|]; [|discriminate].
  destruct (negb (nonEmpty (title g))); [discriminate|].
  destruct profile as [p|]; [|discriminate].
  destruct (negb (nonEmpty (identity p))); [discriminate|].
  unfold retryWithBackoff.
  destruct (retryLoop _ _ _ _ _ _) as [[v|r] ev] eqn:Hloop; [|discriminate].
  intros Heq. injection Heq as -> ->.
  destruct (retryLoop_fulfilled _ _ _ _ _ _ _ _ Hloop) as [a Ha].
  unfold planRequest in Ha.
  destruct (generateContent _ a) as [response|]; [|discriminate].
  cbn [bind] in Ha.
  destruct (textOfResponse response) as [txt|]; [|discriminate].
  cbn [bind] in Ha.
  destruct (JSON_parse (String_trim txt)) as [planData|]; [|discriminate].
  apply (tasksOfPlanData_ids _ _ _ Ha).
Qed.

End GeneratedIds.

(** The identifiers of the plan of the specification's example, read off a
    clock that stands still. *)
Lemma plan_ids_distinct_witness :
  NoDup (map id (orderedPlan (fun _ => 1700000000000%Z) "Run 5k"
                             ["Drink water"] "Keep going")).
Proof.
  apply (plan_ids_distinct (Samples.answering Samples.runText)
           (fun _ _ => 1700000000000%Z) Samples.trim Samples.parse
           (Some Samples.profile) (Some Samples.goal) EmptyString None
           (orderedPlan (fun _ => 1700000000000%Z) "Run 5k" ["Drink water"]
                        "Keep going")
           [Request 1]).
  vm_compute. reflexivity.
Defined.

(** A click on the supporting task of that plan. *)
Lemma toggle_exactly_one_witness :
  map isCompleted
      (toggleTaskComplete "task_1700000000000_0"
         (orderedPlan (fun _ => 1700000000000%Z) "Run 5k" ["Drink water"]
                      "Keep going"))
  = [false; true; false].
Proof.
  pose proof (toggle_exactly_one
                (orderedPlan (fun _ => 1700000000000%Z) "Run 5k" ["Drink water"]
                             "Keep going")
                1%nat
                (mkTask "task_1700000000000_0" (JsString "Drink water") false false))
    as H.
  cbn [id] in H. rewrite H.
  - reflexivity.
  - vm_compute. repeat constructor; cbn; intuition discriminate.
  - reflexivity.
Defined.

End DashboardFacts.

(** ** Onboarding *)

Module OnboardingFacts.
Import Firestore Onboarding.

Lemma getUserData_value (db : Database) (userId : string) :
  getUserData db userId
  = Ok (if truthy (db ("users/" ++ userId)) &&
           (truthy (getPropOpt (db ("users/" ++ userId)) "profile") ||
            truthy (getPropOpt (db ("users/" ++ userId)) "goal"))
        then mkUserData
               (jsOr (getPropOpt (db ("users/" ++ userId)) "profile") defaultProfile)
               (jsOr (getPropOpt (db ("users/" ++ userId)) "goal") defaultGoal)
        else mkUserData defaultProfile defaultGoal).
Proof.
  unfold getUserData.
  destruct (db ("users/" ++ userId)) as [| |b|q|str|items|fields];
    cbn [truthy getProp getPropOpt bind andb orb]; try reflexivity.
  - destruct b; reflexivity.
  - destruct (negb (Qeq_bool q 0)); reflexivity.
  - destruct (negb (String.eqb str EmptyString)); reflexivity.
  - destruct (truthy (lookup fields "profile")); cbn [bind orb];
      [reflexivity|].
    destruct (truthy (lookup fields "goal")); reflexivity.
Qed.

(** X18.  [loadUserData] asks for onboarding exactly when a stored profile
    lacks an identity or a stored goal lacks a title; for a user with
    nothing stored it does not, since the defaults that [getUserData] fills
    in carry both. *)
Theorem onboarding_only_for_incomplete_data (db : Database) (userId : string) :
  exists asks,
    loadUserData db userId = Ok asks /\
    (asks = true <->
     (truthy (getPropOpt (db ("users/" ++ userId)) "profile") = true /\
      truthy (getPropOpt (getPropOpt (db ("users/" ++ userId)) "profile")
                         "identity") = false) \/
     (truthy (getPropOpt (db ("users/" ++ userId)) "goal") = true /\
      truthy (getPropOpt (getPropOpt (db ("users/" ++ userId)) "goal")
                         "title") = false)) /\
    (missing (db ("users/" ++ userId)) "profile" = true ->
     missing (db ("users/" ++ userId)) "goal" = true -> asks = false).
Proof.
  unfold loadUserData. rewrite getUserData_value. cbn [bind].
  eexists. split; [reflexivity|].
  unfold needsOnboarding, missing.
  set (data := db ("users/" ++ userId)).
  assert (Hdata : truthy data = false ->
                  getPropOpt data "profile" = JsUndefined /\
                  getPropOpt data "goal" = JsUndefined).
  { destruct data; cbn; try discriminate; auto. }
  destruct (truthy data) eqn:Hd.
  - cbn [andb]. clear Hdata.
    destruct (truthy (getPropOpt data "profile")) eqn:Hp;
      destruct (truthy (getPropOpt data "goal")) eqn:Hg;
      cbn [orb profile goal]; unfold jsOr; rewrite ?Hp, ?Hg;
      destruct (truthy (getPropOpt (getPropOpt data "profile") "identity"));
      destruct (truthy (getPropOpt (getPropOpt data "goal") "title"));
      cbn; (split; [intuition discriminate|]);
      destruct (getPropOpt data "profile"); try discriminate;
      destruct (getPropOpt data "goal"); try discriminate; auto.
  - destruct (Hdata eq_refl) as [-> ->]. cbn. split; [|auto].
    intuition discriminate.
Qed.

(** A user with nothing stored, and one whose stored profile is empty. *)
Lemma onboarding_only_for_incomplete_data_witness :
  loadUserData (fun _ => JsNull) "u1" = Ok false /\
  loadUserData (fun _ => JsObject [("profile", JsObject [("context", JsString "home")])])
               "u1"
  = Ok true.
Proof.
  split.
  - destruct (onboarding_only_for_incomplete_data (fun _ => JsNull) "u1")
      as (asks & Hok & _ & Hmissing).
    rewrite Hok, (Hmissing eq_refl eq_refl). reflexivity.
  - destruct (onboarding_only_for_incomplete_data
                (fun _ => JsObject [("profile", JsObject [("context", JsString "home")])])
                "u1")
      as (asks & Hok & Hiff & _).
    rewrite Hok. f_equal. apply Hiff. left. split; reflexivity.
Defined.

End OnboardingFacts.

(** ** The tasks of the previous day *)

Module PreviousDayFacts.
Import PreviousDay TaskHistory Chars.

Lemma leb_total (a b : string) : String.leb a b = false -> String.leb b a = true.
Proof.
  unfold String.leb. rewrite (String.compare_antisym a b).
  destruct (String.compare b a); cbn; congruence.
Qed.

Lemma leb_trans (a b c : string) :
  String.leb a b = true -> String.leb b c = true -> String.leb a c = true.
Proof.
  unfold String.leb. intros Hab Hbc.
  destruct (String.compare a b) eqn:Eab; try discriminate;
    destruct (String.compare b c) eqn:Ebc; try discriminate.
  - apply String.compare_eq_iff in Eab. subst b. rewrite Ebc. reflexivity.
  - apply String.compare_eq_iff in Eab. subst b. rewrite Ebc. reflexivity.
  - apply String.compare_eq_iff in Ebc. subst c. rewrite Eab. reflexivity.
  - apply OrderedTypeEx.String_as_OT.cmp_lt in Eab, Ebc.
    pose proof (OrderedTypeEx.String_as_OT.lt_trans _ _ _ Eab Ebc) as Hac.
    apply OrderedTypeEx.String_as_OT.cmp_lt in Hac.
    unfold OrderedTypeEx.String_as_OT.cmp in Hac. rewrite Hac. reflexivity.
Qed.

Lemma leb_refl (a : string) : String.leb a a = true.
Proof.
  unfold String.leb.
  pose proof (String.compare_antisym a a) as Hanti.
  destruct (String.compare a a); cbn in Hanti; congruence.
Qed.

Lemma lastOf_cons (x y : string) (l : list string) :
  lastOf (x :: y :: l) = lastOf (y :: l).
Proof.
  unfold lastOf. cbn [length]. rewrite !Nat.sub_succ, !Nat.sub_0_r.
  reflexivity.
Qed.

Lemma In_insert (k x : string) (l : list string) :
  In x (insert k l) <-> x = k \/ In x l.
Proof.
  induction l as [|y l IH]; cbn [insert].
  - cbn. intuition.
  - destruct (String.leb k y); cbn [In] in *; intuition.
Qed.

Lemma In_sort (x : string) (l : list string) : In x (sort l) <-> In x l.
Proof.
  induction l as [|y l IH]; cbn [sort]; [reflexivity|].
  rewrite In_insert. cbn [In]. intuition.
Qed.

Lemma insert_greatest (k : string) (l : list string) :
  (l = [] \/ exists m, lastOf l = Some m /\ greatest m l) ->
  exists m, lastOf (insert k l) = Some m /\ greatest m (k :: l).
Proof.
  induction l as [|y l IH]; intros Hl.
  - exists k. cbn. split; [reflexivity|]. split; [left; reflexivity|].
    intros x [<-|[]]. apply leb_refl.
  - destruct Hl as [Hl|(m & Hlast & Hin & Hmax)]; [discriminate|].
    cbn [insert]. destruct (String.leb k y) eqn:Hky.
    + exists m. rewrite lastOf_cons. split; [exact Hlast|].
      split; [right; exact Hin|].
      intros x [<-|Hx]; [|apply Hmax; exact Hx].
      apply (leb_trans _ y); [exact Hky|]. apply Hmax. left. reflexivity.
    + destruct l as [|z l].
      * cbn in Hlast. injection Hlast as <-.
        exists k. cbn. split; [reflexivity|]. split; [left; reflexivity|].
        intros x [<-|[<-|[]]]; [apply leb_refl|].
        apply leb_total. exact Hky.
      * rewrite lastOf_cons in Hlast.
        assert (Hm : m <> y \/ m = y) by
          (destruct (string_dec m y); auto).
        destruct IH as (m' & Hlast' & Hin' & Hmax').
        { right. exists m. split; [exact Hlast|]. split.
          - unfold lastOf in Hlast. apply nth_error_In in Hlast. exact Hlast.
          - intros x Hx. apply Hmax. right. exact Hx. }
        exists m'.
        assert (Hne : exists a rest, insert k (z :: l) = a :: rest).
        { cbn [insert]. destruct (String.leb k z); eauto. }
        destruct Hne as (a & rest & Hne). rewrite Hne, lastOf_cons, <- Hne.
        split; [exact Hlast'|]. split.
        -- destruct Hin' as [<-|Hin']; [left; reflexivity|].
           right. right. exact Hin'.
        -- intros x [<-|[<-|Hx]].
           ++ apply Hmax'. left. reflexivity.
           ++ apply (leb_trans _ m).
              ** apply Hmax. left. reflexivity.
              ** apply Hmax'. right. unfold lastOf in Hlast.
                 apply nth_error_In in Hlast. exact Hlast.
           ++ apply Hmax'. right. exact Hx.
Qed.

Lemma sort_greatest (l : list string) :
  l <> [] -> exists m, lastOf (sort l) = Some m /\ greatest m l.
Proof.
  induction l as [|k l IH]; intros Hne; [congruence|].
  cbn [sort].
  destruct (insert_greatest k (sort l)) as (m & Hlast & Hin & Hmax).
  - destruct l as [|y l]; [left; reflexivity|right].
    destruct IH as (m & Hlast & Hin & Hmax); [discriminate|].
    exists m. split; [exact Hlast|]. split.
    + apply In_sort. exact Hin.
    + intros x Hx. apply Hmax. apply In_sort. exact Hx.
  - exists m. split; [exact Hlast|]. split.
    + destruct Hin as [<-|Hin]; [left; reflexivity|].
      right. apply In_sort. exact Hin.
    + intros x [<-|Hx]; apply Hmax; [left; reflexivity|].
      right. apply In_sort. exact Hx.
Qed.

Lemma lookupPlan_stored (stored : Plans) (key : string) :
  In key (map fst stored) -> exists plan, lookupPlan stored key = Some plan.
Proof.
  induction stored as [|[k plan] stored IH]; cbn [map fst In lookupPlan];
    [intros []|].
  intros Hin. destruct (String.eqb k key) eqn:Hk; [eauto|].
  destruct Hin as [->|Hin]; [|auto].
  rewrite String.eqb_refl in Hk. discriminate.
Qed.

Lemma lookupPlan_absent (stored : Plans) (key : string) :
  ~ In key (map fst stored) -> lookupPlan stored key = None.
Proof.
  induction stored as [|[k plan] stored IH]; cbn [map fst In lookupPlan];
    [reflexivity|].
  intros Hin. destruct (String.eqb k key) eqn:Hk.
  - apply String.eqb_eq in Hk. tauto.
  - apply IH. tauto.
Qed.

Section Rendered.

Variable ToString : JsValue -> string.

Lemma latest_plan (stored : Plans) (today : string) :
  (exists k, In k (map fst stored) /\ String.ltb k today = true) ->
  exists key plan,
    In key (map fst stored) /\
    String.ltb key today = true /\
    (forall k, In k (map fst stored) -> String.ltb k today = true ->
               String.leb k key = true) /\
    lookupPlan stored key = Some plan /\
    getPreviousDayTasksString ToString (Some stored) today
    = match tasks plan with
      | [] => noTasksRecorded
      | _ => String.concat newline (map (statusLine ToString) (tasks plan))
      end.
Proof.
  intros (k0 & Hk0 & Hlt0).
  destruct (sort_greatest
              (filter (fun k => String.ltb k today) (map fst stored)))
    as (key & Hlast & Hin & Hmax).
  { intros Hnil.
    assert (H : In k0 (filter (fun k => String.ltb k today) (map fst stored)))
      by (apply filter_In; auto).
    rewrite Hnil in H. exact H. }
  apply filter_In in Hin. destruct Hin as [Hin Hlt].
  destruct (lookupPlan_stored stored key Hin) as (plan & Hplan).
  exists key, plan. repeat split; try assumption.
  - intros k Hk Hklt. apply Hmax. apply filter_In. auto.
  - unfold getPreviousDayTasksString, planKeys. rewrite Hlast, Hplan.
    destruct (tasks plan); reflexivity.
Qed.

(** X19.  Among the stored plans, [getPreviousDayTasksString] renders the
    tasks of the one with the greatest date key strictly before [today]
    (one line per task, the text followed by its completion status), and
    answers with the fixed sentence when that plan has no task. *)
Theorem previous_day_latest_plan (stored : Plans) (today : string)
  (Hearlier : exists k, In k (map fst stored) /\ String.ltb k today = true) :
  exists key plan,
    In key (map fst stored) /\
    String.ltb key today = true /\
    (forall k, In k (map fst stored) -> String.ltb k today = true ->
               String.leb k key = true) /\
    lookupPlan stored key = Some plan /\
    getPreviousDayTasksString ToString (Some stored) today
    = match tasks plan with
      | [] => noTasksRecorded
      | _ => String.concat newline (map (statusLine ToString) (tasks plan))
      end.
Proof.
  exact (latest_plan stored today Hearlier).
Qed.

(** X20.  When nothing is stored, or no stored plan is dated strictly
    before [today] (a plan of [today] itself does not count),
    [getPreviousDayTasksString] answers with the fixed sentence.  The last
    key is then [undefined], so the answer relies on no plan being stored
    under that name. *)
Theorem previous_day_nothing_earlier (plans : option Plans) (today : string)
  (Hnone : forall stored, plans = Some stored ->
     (forall k, In k (map fst stored) -> String.ltb k today = false) /\
     ~ In "undefined" (map fst stored)) :
  getPreviousDayTasksString ToString plans today = noTasksRecorded.
Proof.
  destruct plans as [stored|]; [|reflexivity].
  destruct (Hnone stored eq_refl) as [Hlate Hundef].
  unfold getPreviousDayTasksString, planKeys.
  assert (Hnil : filter (fun k => String.ltb k today) (map fst stored) = []).
  { clear Hundef Hnone. induction (map fst stored) as [|k l IH]; [reflexivity|].
    cbn [filter]. rewrite (Hlate k (or_introl eq_refl)).
    apply IH. intros x Hx. apply Hlate. right. exact Hx. }
  rewrite Hnil. cbn [sort lastOf].
  rewrite (lookupPlan_absent stored _ Hundef). reflexivity.
Qed.

(** *** The history component *)

Lemma nonEmpty_app (a b : string) : nonEmpty b = true -> nonEmpty (a ++ b) = true.
Proof. destruct a; [auto|reflexivity]. Qed.

Lemma statusLine_nonEmpty (t : Task) : nonEmpty (statusLine ToString t) = true.
Proof. unfold statusLine. apply nonEmpty_app. reflexivity. Qed.

Lemma concat_nonEmpty (sep line : string) (lines : list string) :
  nonEmpty line = true -> nonEmpty (String.concat sep (line :: lines)) = true.
Proof.
  intros Hline. cbn [String.concat]. destruct lines; [exact Hline|].
  destruct line; [discriminate|reflexivity].
Qed.

Lemma tasksString_nonEmpty (plans : option Plans) (today : string) :
  nonEmpty (getPreviousDayTasksString ToString plans today) = true.
Proof.
  unfold getPreviousDayTasksString.
  destruct plans as [stored|]; [|reflexivity].
  destruct (lookupPlan stored _) as [plan|]; [|reflexivity].
  destruct (tasks plan) as [|t ts]; [reflexivity|].
  cbn [length Nat.ltb Nat.leb map].
  apply concat_nonEmpty, statusLine_nonEmpty.
Qed.

Lemma split_cons (c : ascii) (s : string) :
  exists piece more, split c s = piece :: more.
Proof.
  induction s as [|x s (piece & more & IH)]; cbn [split]; [eauto|].
  destruct (Ascii.eqb x c); [eauto|]. rewrite IH. eauto.
Qed.

Lemma split_lacks (c : ascii) (s : string) :
  lacks c s = true -> split c s = [s].
Proof.
  induction s as [|x s IH]; cbn [lacks split]; [reflexivity|].
  intros H. apply andb_true_iff in H. destruct H as [Hx Hs].
  apply negb_true_iff in Hx. rewrite Hx, (IH Hs). reflexivity.
Qed.

Lemma split_app (c : ascii) (a rest : string) :
  lacks c a = true -> split c (a ++ String c rest) = a :: split c rest.
Proof.
  induction a as [|x a IH]; cbn [lacks append split].
  - intros _. rewrite Ascii.eqb_refl. reflexivity.
  - intros H. apply andb_true_iff in H. destruct H as [Hx Ha].
    apply negb_true_iff in Hx. rewrite Hx, (IH Ha). reflexivity.
Qed.

Lemma split_concat (lines : list string) :
  lines <> [] ->
  (forall line, In line lines -> lacks lineFeed line = true) ->
  split lineFeed (String.concat newline lines) = lines.
Proof.
  induction lines as [|line lines IH]; intros Hne Hlf; [congruence|].
  cbn [String.concat]. destruct lines as [|next lines].
  - apply split_lacks, Hlf. left. reflexivity.
  - unfold newline at 1. cbn [append].
    change (ascii_of_nat 10) with lineFeed.
    rewrite split_app by (apply Hlf; left; reflexivity).
    f_equal. apply IH; [discriminate|].
    intros l Hl. apply Hlf. right. exact Hl.
Qed.

Lemma filter_nonEmpty (lines : list string) :
  (forall line, In line lines -> nonEmpty line = true) ->
  filter nonEmpty lines = lines.
Proof.
  induction lines as [|line lines IH]; intros H; [reflexivity|].
  cbn [filter]. rewrite (H line (or_introl eq_refl)), IH; [reflexivity|].
  intros l Hl. apply H. right. exact Hl.
Qed.

Lemma statusLine_lacks (t : Task) :
  lacks lineFeed (templateItem ToString (text t)) = true ->
  lacks lineFeed (statusLine ToString t) = true.
Proof.
  intros H. unfold statusLine.
  rewrite !DashboardFacts.lacks_app, H. destruct (isCompleted t); reflexivity.
Qed.

Variable snapshot : string -> option Plans.
Variable dateOf : nat -> string.

Lemma fetchTasks_map (days : nat) :
  fetchTasks ToString snapshot dateOf days
  = map (fun i =>
           mkDayTasks (dateOf i)
             (filter nonEmpty
                (split lineFeed
                   (getPreviousDayTasksString ToString (snapshot (dateOf i))
                      (dateOf i)))))
        (seq 1 days).
Proof.
  unfold fetchTasks. induction (seq 1 days) as [|i l IH]; [reflexivity|].
  cbn [flat_map map]. rewrite tasksString_nonEmpty, IH. reflexivity.
Qed.

(** X21.  [getPreviousDayTasksString] never answers with the empty string,
    so the history component records an entry for every one of the days it
    asks for: its list of dates is the list of the days, its empty state
    shows only when it is asked for no day at all, and a day for which
    nothing is recorded is listed with the fixed sentence as its only
    item. *)
Theorem history_lists_every_day (days : nat) :
  map dayDate (fetchTasks ToString snapshot dateOf days)
  = map dateOf (seq 1 days) /\
  showsNothingFound ToString snapshot dateOf days = Nat.eqb days 0 /\
  forall i,
    In i (seq 1 days) ->
    getPreviousDayTasksString ToString (snapshot (dateOf i)) (dateOf i)
    = noTasksRecorded ->
    In (mkDayTasks (dateOf i) [noTasksRecorded])
       (fetchTasks ToString snapshot dateOf days).
Proof.
  unfold showsNothingFound. rewrite fetchTasks_map. repeat split.
  - rewrite map_map. reflexivity.
  - rewrite length_map, length_seq. reflexivity.
  - intros i Hi Hnone. apply in_map_iff. exists i. split; [|exact Hi].
    rewrite Hnone. reflexivity.
Qed.

(** X22.  For a day with an earlier plan that has tasks, none of whose
    texts holds a line feed, the history component lists exactly the lines
    of that plan, one per task and in the order of the tasks: splitting
    undoes the joining of [getPreviousDayTasksString]. *)
Theorem history_lines_round_trip (days i : nat) (stored : Plans)
  (Hday : In i (seq 1 days))
  (Hstored : snapshot (dateOf i) = Some stored)
  (Hearlier : exists k,
      In k (map fst stored) /\ String.ltb k (dateOf i) = true)
  (Hlines : forall k plan t,
      lookupPlan stored k = Some plan -> In t (tasks plan) ->
      lacks lineFeed (templateItem ToString (text t)) = true) :
  exists key plan,
    In key (map fst stored) /\
    String.ltb key (dateOf i) = true /\
    (forall k, In k (map fst stored) -> String.ltb k (dateOf i) = true ->
               String.leb k key = true) /\
    lookupPlan stored key = Some plan /\
    (tasks plan <> [] ->
     In (mkDayTasks (dateOf i) (map (statusLine ToString) (tasks plan)))
        (fetchTasks ToString snapshot dateOf days)).
Proof.
  destruct (latest_plan stored (dateOf i) Hearlier)
    as (key & plan & Hin & Hlt & Hmax & Hplan & Hstring).
  exists key, plan. repeat split; try assumption.
  intros Htasks. rewrite fetchTasks_map. apply in_map_iff.
  exists i. split; [|exact Hday].
  rewrite Hstored, Hstring.
  destruct (tasks plan) as [|t ts] eqn:Hts; [congruence|].
  rewrite <- Hts in *. rewrite split_concat, filter_nonEmpty; [reflexivity| | |].
  - intros line Hline. apply in_map_iff in Hline.
    destruct Hline as (t' & <- & _). apply statusLine_nonEmpty.
  - rewrite Hts. discriminate.
  - intros line Hline. apply in_map_iff in Hline.
    destruct Hline as (t' & <- & Ht'). apply statusLine_lacks.
    apply (Hlines key plan t' Hplan Ht').
Qed.

End Rendered.

(** Three stored plans, asked on the day of the last one. *)
Lemma previous_day_latest_plan_witness :
  exists key plan,
    In key ["2026-01-01"; "2026-01-03"; "2026-01-02"] /\
    String.ltb key "2026-01-03" = true /\
    (forall k, In k ["2026-01-01"; "2026-01-03"; "2026-01-02"] ->
               String.ltb k "2026-01-03" = true -> String.leb k key = true) /\
    lookupPlan
      [("2026-01-01", mkDailyPlan "2026-01-01" [] "Keep going");
       ("2026-01-03", mkDailyPlan "2026-01-03" [] "Go on");
       ("2026-01-02",
        mkDailyPlan "2026-01-02"
          [mkTask "t1" (JsString "Run 5 km") true true;
           mkTask "t2" (JsString "Stretch") false false] "Well done")]
      key = Some plan /\
    getPreviousDayTasksString Samples.render
      (Some
         [("2026-01-01", mkDailyPlan "2026-01-01" [] "Keep going");
          ("2026-01-03", mkDailyPlan "2026-01-03" [] "Go on");
          ("2026-01-02",
           mkDailyPlan "2026-01-02"
             [mkTask "t1" (JsString "Run 5 km") true true;
              mkTask "t2" (JsString "Stretch") false false] "Well done")])
      "2026-01-03"
    = match tasks plan with
      | [] => noTasksRecorded
      | _ => String.concat newline (map (statusLine Samples.render) (tasks plan))
      end.
Proof.
  apply (previous_day_latest_plan Samples.render
           [("2026-01-01", mkDailyPlan "2026-01-01" [] "Keep going");
            ("2026-01-03", mkDailyPlan "2026-01-03" [] "Go on");
            ("2026-01-02",
             mkDailyPlan "2026-01-02"
               [mkTask "t1" (JsString "Run 5 km") true true;
                mkTask "t2" (JsString "Stretch") false false] "Well done")]
           "2026-01-03").
  exists "2026-01-01". split; [left; reflexivity|reflexivity].
Defined.

(** Only the plan of the day itself is stored. *)
Lemma previous_day_nothing_earlier_witness :
  getPreviousDayTasksString Samples.render
    (Some
       [("2026-01-03",
         mkDailyPlan "2026-01-03"
           [mkTask "t1" (JsString "Run 5 km") true true] "Go on")])
    "2026-01-03"
  = noTasksRecorded.
Proof.
  apply (previous_day_nothing_earlier Samples.render).
  intros stored Hstored. injection Hstored as <-. split.
  - intros k [<-|[]]. reflexivity.
  - intros [H|[]]. discriminate H.
Defined.

(** The history of two days over one stored plan. *)
Lemma history_lines_round_trip_witness :
  exists key plan,
    In key ["2026-01-02"] /\
    String.ltb key "2026-01-03" = true /\
    (forall k, In k ["2026-01-02"] -> String.ltb k "2026-01-03" = true ->
               String.leb k key = true) /\
    lookupPlan
      [("2026-01-02",
        mkDailyPlan "2026-01-02"
          [mkTask "t1" (JsString "Run 5 km") true true;
           mkTask "t2" (JsString "Stretch") false false] "Well done")]
      key = Some plan /\
    (tasks plan <> [] ->
     In (mkDayTasks "2026-01-03" (map (statusLine Samples.render) (tasks plan)))
        (fetchTasks Samples.render
           (fun _ =>
              Some
                [("2026-01-02",
                  mkDailyPlan "2026-01-02"
                    [mkTask "t1" (JsString "Run 5 km") true true;
                     mkTask "t2" (JsString "Stretch") false false]
                    "Well done")])
           (fun i => if Nat.eqb i 1 then "2026-01-03" else "2026-01-02")
           2)).
Proof.
  apply (history_lines_round_trip Samples.render
           (fun _ =>
              Some
                [("2026-01-02",
                  mkDailyPlan "2026-01-02"
                    [mkTask "t1" (JsString "Run 5 km") true true;
                     mkTask "t2" (JsString "Stretch") false false]
                    "Well done")])
           (fun i => if Nat.eqb i 1 then "2026-01-03" else "2026-01-02")
           2 1
           [("2026-01-02",
             mkDailyPlan "2026-01-02"
               [mkTask "t1" (JsString "Run 5 km") true true;
                mkTask "t2" (JsString "Stretch") false false]
               "Well done")]).
  - left. reflexivity.
  - reflexivity.
  - exists "2026-01-02". split; [left; reflexivity|reflexivity].
  - intros k plan t Hplan Ht. cbn [lookupPlan] in Hplan.
    destruct (String.eqb "2026-01-02" k); [|discriminate].
    injection Hplan as <-.
    destruct Ht as [<-|[<-|[]]]; reflexivity.
Defined.

End PreviousDayFacts.

(** ** The sidebar *)

Module SidebarFacts.
Import PreviousDay Sidebar Chars.

Lemma prefix_before (c : ascii) (p a rest : string) :
  lacks c p = true ->
  prefix p (a ++ String c rest) = prefix p a.
Proof.
  revert a. induction p as [|x p IH]; intros a Hp;
    [destruct a; reflexivity|].
  cbn [lacks] in Hp. apply andb_true_iff in Hp. destruct Hp as [Hx Hp].
  destruct a as [|y a]; cbn [prefix append].
  - destruct (ascii_dec x c) as [->|_]; [|reflexivity].
    rewrite Ascii.eqb_refl in Hx. discriminate.
  - destruct (ascii_dec x y); [apply IH; exact Hp|reflexivity].
Qed.

Lemma includes_before (c : ascii) (p a rest : string) :
  lacks c p = true -> p <> EmptyString ->
  includes (a ++ String c rest) p
  = includes a p || includes (String c rest) p.
Proof.
  intros Hp Hne. induction a as [|y a IH].
  - cbn [append]. destruct p as [|x p]; [congruence|]. reflexivity.
  - cbn [append]. cbn [includes]. fold (append a (String c rest)).
    change (String y (a ++ String c rest))
      with (String y a ++ String c rest).
    rewrite (prefix_before c p (String y a) rest Hp).
    destruct (prefix p (String y a)); [reflexivity|exact IH].
Qed.

Section Flag.

Variable ToString : JsValue -> string.

(** X23.  The completion flag that the sidebar reads off a line of
    [getPreviousDayTasksString] is the flag of the task, unless the text of
    a task that is not completed itself holds the marker (Completed), in
    which case the sidebar shows the task as completed. *)
Theorem sidebar_flag_of_line (t : Task) :
  isCompletedOf (statusLine ToString t)
  = isCompleted t || includes (templateItem ToString (text t)) "(Completed)".
Proof.
  unfold isCompletedOf, statusLine.
  change (" (" ++ (if isCompleted t then "Completed" else "Not Completed") ++ ")")
    with (String " " ("(" ++ (if isCompleted t then "Completed" else "Not Completed") ++ ")")).
  rewrite includes_before; [|reflexivity|discriminate].
  destruct (isCompleted t); cbn [orb].
  - rewrite orb_true_r. reflexivity.
  - rewrite orb_false_r. reflexivity.
Qed.

End Flag.

Lemma counts (l : list Task) :
  length (filter (fun t => isCompleted t && negb (isQuote t)) l)
  <= length (filter (fun t => negb (isQuote t)) l) /\
  (length (filter (fun t => isCompleted t && negb (isQuote t)) l)
   = length (filter (fun t => negb (isQuote t)) l) <->
   forall t, In t l -> isQuote t = false -> isCompleted t = true) /\
  (0 < length (filter (fun t => negb (isQuote t)) l) <->
   exists t, In t l /\ isQuote t = false).
Proof.
  induction l as [|t l (Hle & Heq & Hpos)]; cbn [filter length In].
  - split; [lia|]. split; [tauto|]. split; [lia|]. intros (t & [] & _).
  - assert (Hall : (forall x, In x l -> isQuote x = false -> isCompleted x = true)
                   -> (isQuote t = false -> isCompleted t = true)
                   -> forall x, t = x \/ In x l -> isQuote x = false ->
                                isCompleted x = true).
    { intros Hl Ht x [<-|Hx]; auto. }
    assert (Hsome : (exists x, In x l /\ isQuote x = false) ->
                    exists x, (t = x \/ In x l) /\ isQuote x = false).
    { intros (x & Hx & Hxq). eauto. }
    destruct (isQuote t) eqn:Hq, (isCompleted t) eqn:Hc;
      cbn [negb andb length].
    + split; [lia|]. split; split.
      * intros H. apply Hall; [apply Heq; exact H|discriminate].
      * intros H. apply Heq. intros x Hx. apply H. right. exact Hx.
      * intros H. apply Hsome, Hpos, H.
      * intros (x & [<-|Hx] & Hxq); [congruence|]. apply Hpos. eauto.
    + split; [lia|]. split; split.
      * intros H. apply Hall; [apply Heq; exact H|discriminate].
      * intros H. apply Heq. intros x Hx. apply H. right. exact Hx.
      * intros H. apply Hsome, Hpos, H.
      * intros (x & [<-|Hx] & Hxq); [congruence|]. apply Hpos. eauto.
    + split; [lia|]. split; split.
      * intros H. apply Hall; [apply Heq; lia|reflexivity].
      * intros H. f_equal. apply Heq. intros x Hx. apply H. right. exact Hx.
      * intros _. exists t. split; [left; reflexivity|exact Hq].
      * intros _. lia.
    + split; [lia|]. split; split.
      * intros H. lia.
      * intros H. specialize (H t (or_introl eq_refl) Hq). congruence.
      * intros _. exists t. split; [left; reflexivity|exact Hq].
      * intros _. lia.
Qed.

(** X24.  In the statistics of the day the quote entry of a plan counts
    neither as a task nor as a completed one: the completed tasks never
    exceed the total, and the streak is 1 exactly when the plan has a task
    other than the quote and every such task is completed (0 otherwise). *)
Theorem stats_streak (plan : DailyPlan) (stats : Stats) :
  completedTasks (calculateStats (Some plan) stats)
  <= totalTasks (calculateStats (Some plan) stats) /\
  (streak (calculateStats (Some plan) stats) = 1 <->
   (exists t, In t (tasks plan) /\ isQuote t = false) /\
   (forall t, In t (tasks plan) -> isQuote t = false -> isCompleted t = true)) /\
  (streak (calculateStats (Some plan) stats) <> 1 ->
   streak (calculateStats (Some plan) stats) = 0).
Proof.
  destruct (counts (tasks plan)) as (Hle & Heq & Hpos).
  cbn [calculateStats completedTasks totalTasks streak].
  split; [exact Hle|].
  rewrite <- Heq, <- Hpos.
  destruct (Nat.eqb_spec
              (length (filter (fun t => isCompleted t && negb (isQuote t))
                              (tasks plan)))
              (length (filter (fun t => negb (isQuote t)) (tasks plan))))
    as [He|He];
    destruct (Nat.ltb_spec 0
                (length (filter (fun t => negb (isQuote t)) (tasks plan))))
      as [Hp|Hp]; cbn [andb]; split; try tauto; try (split; [discriminate|]);
      try (intros [H1 H2]; lia); try (intros H; congruence).
Qed.

End SidebarFacts.
